(** * SmoothieController: the streaming / flow-control / state-machine core

    A shallow embedding of [src/app/controllers/Smoothie/SmoothieController.js].

    The controller is a JavaScript object mutated by event handlers.  Here
    the whole object graph it owns (action masks and times, Sender, Feeder,
    Workflow, the parser's snapshot and its cached copy) is one record,
    [Controller], and every handler is a function [Controller -> Controller].
    What a handler sends out is appended to two logs kept in the record:
    [written] (calls of [connection.write], in order) and [emitted] (calls of
    [this.emit], in order).  Wall-clock time ([new Date().getTime()]) is an
    explicit argument [now].

    Collaborators that live outside this source file (the Smoothie response
    parser, the G-code tokenizer, expression evaluation, the configuration
    store, the event-trigger table) are the fields of the class
    [Collaborators].  The Sender, Feeder and Workflow classes are imported by
    the controller from [lib/]; their models are written from the
    specification and are marked as such. *)

From Stdlib Require Import ZArith NArith List Bool Lia DecimalString.
Import ListNotations.

(** ** JavaScript strings

    A JavaScript string is a sequence of UTF-16 code units.  A code unit is
    a number below 65536; nothing below depends on the bound.  [line[0]],
    [slice], [length], [split] and the regular expressions of the source
    (none has the flag [u]) all work on code units. *)

Inductive string : Set :=
| EmptyString : string
| String (c : N) (s : string) : string.

Module JsString.

(** [s + t] *)
Fixpoint append (s t : string) : string :=
  match s with
  | EmptyString => t
  | String c s' => String c (append s' t)
  end.

(** [s.length] *)
Fixpoint length (s : string) : nat :=
  match s with
  | EmptyString => O
  | String _ s' => S (length s')
  end.

(** [s === t] *)
Fixpoint eqb (s t : string) : bool :=
  match s, t with
  | EmptyString, EmptyString => true
  | String a s', String b t' => N.eqb a b && eqb s' t'
  | _, _ => false
  end.

(** The string literals of this file: one code unit per byte. *)
Fixpoint of_bytes (l : list Byte.byte) : string :=
  match l with
  | [] => EmptyString
  | b :: l' => String (Byte.to_N b) (of_bytes l')
  end.

Fixpoint to_bytes (s : string) : option (list Byte.byte) :=
  match s with
  | EmptyString => Some []
  | String c s' =>
      match Byte.of_N c, to_bytes s' with
      | Some b, Some l => Some (b :: l)
      | _, _ => None
      end
  end.

(** A string of the Standard Library, read as code units. *)
Definition of_string (s : String.string) : string :=
  of_bytes (String.list_byte_of_string s).

End JsString.

Declare Scope js_scope.
Delimit Scope js_scope with js.
Bind Scope js_scope with string.
String Notation string JsString.of_bytes JsString.to_bytes : js_scope.
Notation "x ++ y" := (JsString.append x y) (right associativity, at level 60) : js_scope.

#[local] Open Scope js_scope.
#[local] Open Scope Z_scope.

Definition string_dec (s t : string) : {s = t} + {s <> t}.
Proof. decide equality. apply N.eq_dec. Defined.

(** ** JavaScript string primitives used by the controller *)

Definition TAB : N := 9.
Definition LF : N := 10.
Definition CR : N := 13.
Definition CAN : N := 24.
Definition SPACE : N := 32.
Definition PERCENT : N := 37.
Definition SEMICOLON : N := 59.
Definition NBSP : N := 160.

(** The white space of [String.prototype.trim] and of the regular
    expression class [\s]: the WhiteSpace and LineTerminator code points of
    ECMAScript, that is TAB, LF, VT, FF, CR, SPACE, U+00A0, U+1680,
    U+2000 to U+200A, U+2028, U+2029, U+202F, U+205F, U+3000 and U+FEFF
    (U+180E left the category Zs in Unicode 6.3 and is not counted). *)
Definition isSpace (c : N) : bool :=
  (((9 <=? c) && (c <=? 13))
   || (c =? 32) || (c =? 160) || (c =? 5760)
   || ((8192 <=? c) && (c <=? 8202))
   || (c =? 8232) || (c =? 8233) || (c =? 8239) || (c =? 8287)
   || (c =? 12288) || (c =? 65279))%N.

(** Line terminators: the code units the regular expression [.] refuses
    (LF, CR, U+2028, U+2029). *)
Definition isLineTerminator (c : N) : bool :=
  (N.eqb c LF || N.eqb c CR || N.eqb c 8232 || N.eqb c 8233)%N.

Fixpoint trimStart (s : string) : string :=
  match s with
  | EmptyString => EmptyString
  | String c s' => if isSpace c then trimStart s' else s
  end.

Fixpoint trimEnd (s : string) : string :=
  match s with
  | EmptyString => EmptyString
  | String c s' =>
      match trimEnd s' with
      | EmptyString => if isSpace c then EmptyString else String c EmptyString
      | t => String c t
      end
  end.

(** [s.trim()] *)
Definition trim (s : string) : string := trimEnd (trimStart s).

(** [s.length === 0] *)
Definition isEmpty (s : string) : bool :=
  match s with EmptyString => true | _ => false end.

(** ['' + n] for an integral number [n]. *)
Definition numberToString (n : Z) : string :=
  JsString.of_string (NilZero.string_of_int (Z.to_int n)).

(** [s.replace(/\s*;.*/g, '')]: every [;] is removed together with the white
    space before it and the rest of its line.  [pending] is the run of white
    space read since the last kept character; [inComment] is set while the
    scan is inside the [.*] of a match. *)
Fixpoint removeComments (inComment : bool) (pending : string) (s : string) : string :=
  match s with
  | EmptyString => if inComment then EmptyString else pending
  | String c s' =>
      if inComment then
        if isLineTerminator c
        then removeComments false (String c EmptyString) s'
        else removeComments true EmptyString s'
      else if N.eqb c SEMICOLON then removeComments true EmptyString s'
      else if isSpace c then removeComments false (pending ++ String c EmptyString) s'
      else pending ++ String c (removeComments false EmptyString s')
  end.

(** [line.replace(/\s*;.*/g, '').trim()], the first statement of both data
    filters. *)
Definition stripComment (line : string) : string :=
  trim (removeComments false EmptyString line).

(** [s.split(/\r?\n/)]; [cur] is the piece being read. *)
Fixpoint splitLinesFrom (cur : string) (s : string) : list string :=
  match s with
  | EmptyString => [cur]
  | String c s' =>
      if N.eqb c LF then cur :: splitLinesFrom EmptyString s'
      else if N.eqb c CR then
        match s' with
        | String c' s'' =>
            if N.eqb c' LF then cur :: splitLinesFrom EmptyString s''
            else splitLinesFrom (cur ++ String c EmptyString) s'
        | EmptyString => [cur ++ String c EmptyString]
        end
      else splitLinesFrom (cur ++ String c EmptyString) s'
  end.

Definition splitLines (s : string) : list string := splitLinesFrom EmptyString s.

(** [array.join('\n')] *)
Fixpoint joinLines (l : list string) : string :=
  match l with
  | [] => EmptyString
  | [x] => x
  | x :: rest => x ++ String LF (joinLines rest)
  end.

(** [_.includes(words, w)] *)
Definition includes (words : list string) (w : string) : bool :=
  existsb (JsString.eqb w) words.

(** ** Constants *)

(** [const WAIT = '%wait'] *)
Definition WAIT : string := "%wait".

(** Modelled from the spec: [SMOOTHIE_MACHINE_STATE_HOLD] is imported from
    [./constants], which is not part of the sources at hand; the
    specification names the machine state [Hold]. *)
Definition SMOOTHIE_MACHINE_STATE_HOLD : string := "Hold".

(** Modelled from the spec: [SMOOTHIE_REALTIME_COMMANDS] is imported from
    [./constants]; the specification lists the realtime bytes as [?], [!],
    [~] and [\x18]. *)
Definition SMOOTHIE_REALTIME_COMMANDS : list string :=
  ["?"; "!"; "~"; String CAN EmptyString].

(** ** Data model *)

(** Workflow states, [lib/Workflow]. *)
Inductive WorkflowState : Type :=
| WORKFLOW_STATE_IDLE
| WORKFLOW_STATE_PAUSED
| WORKFLOW_STATE_RUNNING.

Definition WorkflowState_eqb (a b : WorkflowState) : bool :=
  match a, b with
  | WORKFLOW_STATE_IDLE, WORKFLOW_STATE_IDLE
  | WORKFLOW_STATE_PAUSED, WORKFLOW_STATE_PAUSED
  | WORKFLOW_STATE_RUNNING, WORKFLOW_STATE_RUNNING => true
  | _, _ => false
  end.

(** A hold or pause reason: [{ data: 'M0' }] or [{ err: raw }]. *)
Inductive Reason : Type :=
| ReasonData (data : string)
| ReasonErr (err : string).

(** [this.actionMask] *)
Record ActionMask : Type := mkActionMask {
  maskQueryParserStateState : bool;  (* queryParserState.state *)
  maskQueryParserStateReply : bool;  (* queryParserState.reply *)
  maskQueryStatusReport : bool;
  replyParserState : bool;
  replyStatusReport : bool
}.

(** [this.actionTime] *)
Record ActionTime : Type := mkActionTime {
  timeQueryParserState : Z;
  timeQueryStatusReport : Z;
  senderFinishTime : Z
}.

(** The [status] member of the parser's state, as far as the controller
    touches it ([ovF], [ovS]); [statusRest] stands for its other members,
    which the object spread [...this.controller.state.status] keeps. *)
Record SmoothieStatus (Rest : Type) : Type := mkSmoothieStatus {
  status_ovF : Z;
  status_ovS : Z;
  statusRest : Rest
}.
Arguments mkSmoothieStatus {Rest}.
Arguments status_ovF {Rest}.
Arguments status_ovS {Rest}.
Arguments statusRest {Rest}.

(** [this.controller.state], the parser's snapshot.  The controller reads
    the members [ovF], [ovS] and [machineState] of the object itself and the
    member [status]; [stateRest] stands for everything else. *)
Record SmoothieState (Rest : Type) : Type := mkSmoothieState {
  machineState : string;
  ovF : Z;
  ovS : Z;
  status : SmoothieStatus Rest;
  stateRest : Rest
}.
Arguments mkSmoothieState {Rest}.
Arguments machineState {Rest}.
Arguments ovF {Rest}.
Arguments ovS {Rest}.
Arguments status {Rest}.
Arguments stateRest {Rest}.

(** The collaborators of the controller that are not defined in its source
    file. *)
Class Collaborators : Type := {
  (** the context object passed along with G-code lines, and the empty
      context [{}] *)
  Ctx : Type;
  emptyCtx : Ctx;
  (** the members of the parser's state that the controller never names *)
  Rest : Type;
  (** what [getWorkPosition] returns *)
  Position : Type;
  (** [_.isEqual] on work positions *)
  isEqual : Position -> Position -> bool;
  (** [controller.getWorkPosition(state)]; [None] is the empty object [{}]
      that [this.state] holds before the first tick *)
  getWorkPosition : option (SmoothieState Rest) -> Position;
  (** [controller.isIdle()] and [controller.isAlarm()], functions of the
      parser's current state *)
  isIdle : SmoothieState Rest -> bool;
  isAlarm : SmoothieState Rest -> bool;
  (** [this.populateContext(context)]: refreshes the positions and the modal
      state held in a context from the parser's state *)
  populateContext : SmoothieState Rest -> Ctx -> Ctx;
  (** [evaluateExpression(src, context)]: assigns into the context *)
  evaluateExpression : string -> Ctx -> Ctx;
  (** [translateWithContext(line, context)] *)
  translateWithContext : string -> Ctx -> string;
  (** [ensureArray(parser.parseLine(line, { flatten: true }).words)] *)
  parseLineWords : string -> list string;
  (** [config.get('state.controller.exception.ignoreErrors')] *)
  ignoreErrors : bool;
  (** the event-trigger table: for an event name, the [(trigger, commands)]
      pairs with which [EventTrigger] calls back *)
  eventHooks : string -> list (string * string);
  (** whether [Sender.load] accepts a program (name, text) *)
  loadable : string -> string -> bool
}.

Section Model.

Context `{Collaborators}.

(** An entry of the Sender's in-flight queue. *)
Record QueueEntry : Type := mkQueueEntry {
  index : Z;
  byteLen : Z
}.

(** The Sender: [sender.state] together with the character-counting
    streaming protocol [sender.sp].  A program is loaded when [gcode] is not
    empty (the controller tests [this.sender.state.gcode]).  The protocol
    type is fixed to [SP_TYPE_CHAR_COUNTING] by the constructor call
    [new Sender(SP_TYPE_CHAR_COUNTING, ...)], so it is not a field. *)
Record Sender : Type := mkSender {
  sender_hold : bool;
  sender_holdReason : option Reason;
  name : string;
  gcode : string;
  context : Ctx;
  lines : list string;
  total : Z;
  sent : Z;
  received : Z;
  startedAt : Z;
  finishedAt : Z;
  bufferSize : Z;
  dataLength : Z;
  queue : list QueueEntry
}.

(** The Feeder. *)
Record Feeder : Type := mkFeeder {
  feeder_queue : list (string * Ctx);
  feeder_hold : bool;
  feeder_holdReason : option Reason;
  feeder_pending : bool
}.

(** Modelled from the spec: [_.throttle] belongs to lodash, which is not
    part of the sources at hand.  State of the wrapper
    [_.throttle(..., 500)] around the parser-state query: the times at which
    the wrapped function ran, newest first (the wrapper itself remembers the
    newest only; the older ones are kept as a history), and whether a call
    is waiting for the trailing edge. *)
Record Throttle : Type := mkThrottle {
  invokeTimes : list Z;
  trailingPending : bool
}.

Definition lastInvokeTime (t : Throttle) : option Z :=
  match invokeTimes t with
  | [] => None
  | last :: _ => Some last
  end.

(** What [this.emit] sends to the sessions.  The connection options that
    accompany every event are constant and left out, so are the JSON
    payloads.  [ControllerSettings] and [ControllerState] stand for the
    pairs [controller:settings], [Smoothie:settings] and [controller:state],
    [Smoothie:state]. *)
Inductive Emit : Type :=
| ConnectionRead (raw : string)
| ConnectionWrite (data : string)
| ConnectionOpen
| ConnectionClose
| ConnectionError
| WorkflowStateChange (s : WorkflowState)
| ControllerSettings
| ControllerState
| SenderLoad (name content : string)
| SenderUnload.

(** The controller instance. *)
Record Controller : Type := mkController {
  isOpen : bool;                            (* this.connection.isOpen *)
  ready : bool;
  actionMask : ActionMask;
  actionTime : ActionTime;
  feeder : Feeder;
  sender : Sender;
  workflow : WorkflowState;                 (* this.workflow.state *)
  controllerState : SmoothieState Rest;     (* this.controller.state *)
  state : option (SmoothieState Rest);      (* this.state, None for {} *)
  stateSynced : bool;        (* this.state === this.controller.state *)
  settingsSynced : bool;     (* this.settings === this.controller.settings *)
  throttle : Throttle;
  written : list string;                    (* connection.write, oldest first *)
  emitted : list Emit                       (* this.emit, oldest first *)
}.

(** [get isClose()] *)
Definition isClose (c : Controller) : bool := negb (isOpen c).

(** *** Field updates *)

Definition setIsOpen (b : bool) (c : Controller) : Controller :=
  mkController b (ready c) (actionMask c) (actionTime c) (feeder c) (sender c)
    (workflow c) (controllerState c) (state c) (stateSynced c) (settingsSynced c)
    (throttle c) (written c) (emitted c).

Definition setReady (b : bool) (c : Controller) : Controller :=
  mkController (isOpen c) b (actionMask c) (actionTime c) (feeder c) (sender c)
    (workflow c) (controllerState c) (state c) (stateSynced c) (settingsSynced c)
    (throttle c) (written c) (emitted c).

Definition setActionMask (m : ActionMask) (c : Controller) : Controller :=
  mkController (isOpen c) (ready c) m (actionTime c) (feeder c) (sender c)
    (workflow c) (controllerState c) (state c) (stateSynced c) (settingsSynced c)
    (throttle c) (written c) (emitted c).

Definition setActionTime (t : ActionTime) (c : Controller) : Controller :=
  mkController (isOpen c) (ready c) (actionMask c) t (feeder c) (sender c)
    (workflow c) (controllerState c) (state c) (stateSynced c) (settingsSynced c)
    (throttle c) (written c) (emitted c).

Definition setFeeder (f : Feeder) (c : Controller) : Controller :=
  mkController (isOpen c) (ready c) (actionMask c) (actionTime c) f (sender c)
    (workflow c) (controllerState c) (state c) (stateSynced c) (settingsSynced c)
    (throttle c) (written c) (emitted c).

Definition setSender (s : Sender) (c : Controller) : Controller :=
  mkController (isOpen c) (ready c) (actionMask c) (actionTime c) (feeder c) s
    (workflow c) (controllerState c) (state c) (stateSynced c) (settingsSynced c)
    (throttle c) (written c) (emitted c).

Definition setWorkflow (w : WorkflowState) (c : Controller) : Controller :=
  mkController (isOpen c) (ready c) (actionMask c) (actionTime c) (feeder c) (sender c)
    w (controllerState c) (state c) (stateSynced c) (settingsSynced c)
    (throttle c) (written c) (emitted c).

(** Assigning a new object to [this.controller.state] breaks the identity
    with the cached [this.state]. *)
Definition setControllerState (s : SmoothieState Rest) (c : Controller) : Controller :=
  mkController (isOpen c) (ready c) (actionMask c) (actionTime c) (feeder c) (sender c)
    (workflow c) s (state c) false (settingsSynced c)
    (throttle c) (written c) (emitted c).

(** [this.state = this.controller.state] *)
Definition syncState (c : Controller) : Controller :=
  mkController (isOpen c) (ready c) (actionMask c) (actionTime c) (feeder c) (sender c)
    (workflow c) (controllerState c) (Some (controllerState c)) true (settingsSynced c)
    (throttle c) (written c) (emitted c).

Definition setSettingsSynced (b : bool) (c : Controller) : Controller :=
  mkController (isOpen c) (ready c) (actionMask c) (actionTime c) (feeder c) (sender c)
    (workflow c) (controllerState c) (state c) (stateSynced c) b
    (throttle c) (written c) (emitted c).

Definition setThrottle (t : Throttle) (c : Controller) : Controller :=
  mkController (isOpen c) (ready c) (actionMask c) (actionTime c) (feeder c) (sender c)
    (workflow c) (controllerState c) (state c) (stateSynced c) (settingsSynced c)
    t (written c) (emitted c).

(** [this.connection.write(data)] *)
Definition connectionWrite (data : string) (c : Controller) : Controller :=
  mkController (isOpen c) (ready c) (actionMask c) (actionTime c) (feeder c) (sender c)
    (workflow c) (controllerState c) (state c) (stateSynced c) (settingsSynced c)
    (throttle c) (written c ++ [data]) (emitted c).

(** [this.emit(eventName, ...args)] *)
Definition emit (e : Emit) (c : Controller) : Controller :=
  mkController (isOpen c) (ready c) (actionMask c) (actionTime c) (feeder c) (sender c)
    (workflow c) (controllerState c) (state c) (stateSynced c) (settingsSynced c)
    (throttle c) (written c) (emitted c ++ [e]).

Definition setMaskQueryParserState (st rp : bool) (c : Controller) : Controller :=
  let m := actionMask c in
  setActionMask (mkActionMask st rp (maskQueryStatusReport m)
                   (replyParserState m) (replyStatusReport m)) c.

Definition setMaskQueryParserStateState (b : bool) (c : Controller) : Controller :=
  setMaskQueryParserState b (maskQueryParserStateReply (actionMask c)) c.

Definition setMaskQueryParserStateReply (b : bool) (c : Controller) : Controller :=
  setMaskQueryParserState (maskQueryParserStateState (actionMask c)) b c.

Definition setMaskQueryStatusReport (b : bool) (c : Controller) : Controller :=
  let m := actionMask c in
  setActionMask (mkActionMask (maskQueryParserStateState m) (maskQueryParserStateReply m)
                   b (replyParserState m) (replyStatusReport m)) c.

Definition setReplyParserState (b : bool) (c : Controller) : Controller :=
  let m := actionMask c in
  setActionMask (mkActionMask (maskQueryParserStateState m) (maskQueryParserStateReply m)
                   (maskQueryStatusReport m) b (replyStatusReport m)) c.

Definition setReplyStatusReport (b : bool) (c : Controller) : Controller :=
  let m := actionMask c in
  setActionMask (mkActionMask (maskQueryParserStateState m) (maskQueryParserStateReply m)
                   (maskQueryStatusReport m) (replyParserState m) b) c.

Definition setTimeQueryParserState (t : Z) (c : Controller) : Controller :=
  let a := actionTime c in
  setActionTime (mkActionTime t (timeQueryStatusReport a) (senderFinishTime a)) c.

Definition setTimeQueryStatusReport (t : Z) (c : Controller) : Controller :=
  let a := actionTime c in
  setActionTime (mkActionTime (timeQueryParserState a) t (senderFinishTime a)) c.

Definition setSenderFinishTime (t : Z) (c : Controller) : Controller :=
  let a := actionTime c in
  setActionTime (mkActionTime (timeQueryParserState a) (timeQueryStatusReport a) t) c.

Definition setSenderHold (b : bool) (r : option Reason) (s : Sender) : Sender :=
  mkSender b r (name s) (gcode s) (context s) (lines s) (total s) (sent s)
    (received s) (startedAt s) (finishedAt s) (bufferSize s) (dataLength s) (queue s).

Definition setSenderContext (x : Ctx) (s : Sender) : Sender :=
  mkSender (sender_hold s) (sender_holdReason s) (name s) (gcode s) x (lines s)
    (total s) (sent s) (received s) (startedAt s) (finishedAt s) (bufferSize s)
    (dataLength s) (queue s).

Definition setSent (n : Z) (s : Sender) : Sender :=
  mkSender (sender_hold s) (sender_holdReason s) (name s) (gcode s) (context s)
    (lines s) (total s) n (received s) (startedAt s) (finishedAt s) (bufferSize s)
    (dataLength s) (queue s).

Definition setReceived (n : Z) (s : Sender) : Sender :=
  mkSender (sender_hold s) (sender_holdReason s) (name s) (gcode s) (context s)
    (lines s) (total s) (sent s) n (startedAt s) (finishedAt s) (bufferSize s)
    (dataLength s) (queue s).

Definition setTimes (started finished : Z) (s : Sender) : Sender :=
  mkSender (sender_hold s) (sender_holdReason s) (name s) (gcode s) (context s)
    (lines s) (total s) (sent s) (received s) started finished (bufferSize s)
    (dataLength s) (queue s).

Definition setBufferSize (n : Z) (s : Sender) : Sender :=
  mkSender (sender_hold s) (sender_holdReason s) (name s) (gcode s) (context s)
    (lines s) (total s) (sent s) (received s) (startedAt s) (finishedAt s) n
    (dataLength s) (queue s).

Definition setQueue (len : Z) (q : list QueueEntry) (s : Sender) : Sender :=
  mkSender (sender_hold s) (sender_holdReason s) (name s) (gcode s) (context s)
    (lines s) (total s) (sent s) (received s) (startedAt s) (finishedAt s)
    (bufferSize s) len q.

Definition setProgram (n g : string) (x : Ctx) (l : list string) (s : Sender) : Sender :=
  mkSender (sender_hold s) (sender_holdReason s) n g x l (Z.of_nat (List.length l)) 0 0 0 0
    (bufferSize s) (dataLength s) (queue s).

(** [this.sender.state.gcode] as a condition *)
Definition loaded (s : Sender) : bool := negb (isEmpty (gcode s)).

Definition NL : string := String LF EmptyString.

(** ** The Sender: hold, acknowledgement, rewind *)

(** Modelled from the spec: [lib/Sender] is not part of the sources at hand.
    "Setting hold freezes transmission but not acknowledgement accounting."
    The reason, when one is given, is recorded. *)
Definition Sender_hold (reason : option Reason) (c : Controller) : Controller :=
  setSender (setSenderHold true reason (sender c)) c.

(** Modelled from the spec: [lib/Sender] is not part of the sources at hand.
    Clearing hold; re-entering the send loop is the caller's [next()]. *)
Definition Sender_unhold (c : Controller) : Controller :=
  setSender (setSenderHold false (sender_holdReason (sender c)) (sender c)) c.

(** Modelled from the spec: [lib/Sender] is not part of the sources at hand.
    "Rewind. Sets sent=received=0, hold=false, empties queue, dataLength=0,
    preserves lines." *)
Definition Sender_rewind (c : Controller) : Controller :=
  let s := sender c in
  setSender
    (setQueue 0 [] (setSenderHold false (sender_holdReason s) (setReceived 0 (setSent 0 s)))) c.

(** Modelled from the spec: [lib/Sender] is not part of the sources at hand.
    "Every ok or error event ... acknowledges exactly one previously sent
    line, in FIFO order: the head entry is dequeued and received is
    incremented.  dataLength drops by its byteLen."  There is a previously
    sent line only while [received < sent] ("increments received by exactly
    one until received == sent"); otherwise the call changes nothing. *)
Definition Sender_ack (c : Controller) : Controller :=
  let s := sender c in
  if received s <? sent s then
    let s1 := setReceived (received s + 1) s in
    match queue s with
    | [] => setSender s1 c
    | e :: q => setSender (setQueue (dataLength s - byteLen e) q s1) c
    end
  else c.

(** ** The Feeder: hold, reset, feed *)

(** Modelled from the spec: [lib/Feeder] is not part of the sources at hand.
    "Feeder triggers pause reasons via its own hold." *)
Definition Feeder_hold (reason : option Reason) (c : Controller) : Controller :=
  let f := feeder c in
  setFeeder (mkFeeder (feeder_queue f) true reason (feeder_pending f)) c.

(** Modelled from the spec: [lib/Feeder] is not part of the sources at hand. *)
Definition Feeder_unhold (c : Controller) : Controller :=
  let f := feeder c in
  setFeeder (mkFeeder (feeder_queue f) false (feeder_holdReason f) (feeder_pending f)) c.

(** Modelled from the spec: [lib/Feeder] is not part of the sources at hand.
    "reset() drops the queue and clears hold/pending." *)
Definition Feeder_reset (c : Controller) : Controller :=
  setFeeder (mkFeeder [] false None false) c.

(** Modelled from the spec: [lib/Feeder] is not part of the sources at hand.
    "feed(lines, context) appends." *)
Definition Feeder_feed (data : list string) (ctx : Ctx) (c : Controller) : Controller :=
  let f := feeder c in
  setFeeder (mkFeeder (feeder_queue f ++ map (fun l => (l, ctx)) data)
               (feeder_hold f) (feeder_holdReason f) (feeder_pending f)) c.

(** [this.feeder.isPending()] *)
Definition Feeder_isPending (c : Controller) : bool := feeder_pending (feeder c).

Definition setFeederPending (b : bool) (c : Controller) : Controller :=
  let f := feeder c in
  setFeeder (mkFeeder (feeder_queue f) (feeder_hold f) (feeder_holdReason f) b) c.

Definition setFeederQueue (q : list (string * Ctx)) (c : Controller) : Controller :=
  let f := feeder c in
  setFeeder (mkFeeder q (feeder_hold f) (feeder_holdReason f) (feeder_pending f)) c.

(** ** The Workflow: pause, and the listeners on its events *)

(** [this.workflow.on('pause', (...args) => ...)] *)
Definition workflow_on_pause (reason : option Reason) (c : Controller) : Controller :=
  Sender_hold reason (emit (WorkflowStateChange (workflow c)) c).

(** Modelled from the spec: [lib/Workflow] is not part of the sources at
    hand.  Transition table of the specification: running, pause(reason?),
    paused; "duplicate transitions are no-ops". *)
Definition Workflow_pause (reason : option Reason) (c : Controller) : Controller :=
  match workflow c with
  | WORKFLOW_STATE_RUNNING => workflow_on_pause reason (setWorkflow WORKFLOW_STATE_PAUSED c)
  | _ => c
  end.

(** [this.workflow.on('start', ...)] *)
Definition workflow_on_start (c : Controller) : Controller :=
  Sender_rewind (emit (WorkflowStateChange (workflow c)) c).

(** [this.workflow.on('stop', ...)] *)
Definition workflow_on_stop (c : Controller) : Controller :=
  Sender_rewind (emit (WorkflowStateChange (workflow c)) c).

(** Modelled from the spec: [lib/Workflow] is not part of the sources at
    hand.  Transition table: idle, start, running. *)
Definition Workflow_start (c : Controller) : Controller :=
  match workflow c with
  | WORKFLOW_STATE_IDLE => workflow_on_start (setWorkflow WORKFLOW_STATE_RUNNING c)
  | _ => c
  end.

(** Modelled from the spec: [lib/Workflow] is not part of the sources at
    hand.  Transition table: any, stop, idle; a stop in idle is a duplicate
    transition. *)
Definition Workflow_stop (c : Controller) : Controller :=
  match workflow c with
  | WORKFLOW_STATE_IDLE => c
  | _ => workflow_on_stop (setWorkflow WORKFLOW_STATE_IDLE c)
  end.

(** ** The line preprocessors (the [dataFilter] of the Sender and of the
    Feeder) *)

(** [line[0] === '%'] *)
Definition startsWithPercent (line : string) : bool :=
  match line with
  | String c _ => N.eqb c PERCENT
  | EmptyString => false
  end.

(** [line.slice(1)] *)
Definition slice1 (line : string) : string :=
  match line with
  | String _ s => s
  | EmptyString => EmptyString
  end.

(** [_.intersection(words, ['M0', 'M1'])[0]]: the first word that is [M0] or
    [M1]. *)
Definition programMode (words : list string) : option string :=
  find (fun w => JsString.eqb w "M0" || JsString.eqb w "M1") words.

(** The dwell that replaces a [%wait] line. *)
Definition DWELL : string := "G4 P0.5 (" ++ WAIT ++ ")".

(** The [dataFilter] option given to [new Sender(...)].  Returns the line to
    send together with the controller after the side effects. *)
Definition senderDataFilter (line : string) (c : Controller) : string * Controller :=
  let line := stripComment line in
  let ctx := populateContext (controllerState c) (context (sender c)) in
  let c := setSender (setSenderContext ctx (sender c)) c in
  if startsWithPercent line then
    if JsString.eqb line WAIT then
      (DWELL, Sender_hold (Some (ReasonData WAIT)) c)
    else
      ("", setSender (setSenderContext (evaluateExpression (slice1 line) ctx) (sender c)) c)
  else
    let line := translateWithContext line ctx in
    let words := parseLineWords line in
    let c :=
      match programMode words with
      | Some m =>
          if JsString.eqb m "M0" then Workflow_pause (Some (ReasonData "M0")) c
          else if JsString.eqb m "M1" then Workflow_pause (Some (ReasonData "M1")) c
          else c
      | None => c
      end in
    let c :=
      if includes words "M6" then Workflow_pause (Some (ReasonData "M6")) c else c in
    (line, c).

(** The [dataFilter] option given to [new Feeder(...)]. *)
Definition feederDataFilter (line : string) (ctx : Ctx) (c : Controller)
  : string * Ctx * Controller :=
  let line := stripComment line in
  let ctx := populateContext (controllerState c) ctx in
  if startsWithPercent line then
    if JsString.eqb line WAIT then (DWELL, ctx, c)
    else ("", evaluateExpression (slice1 line) ctx, c)
  else
    let line := translateWithContext line ctx in
    let words := parseLineWords line in
    let c :=
      match programMode words with
      | Some m =>
          if JsString.eqb m "M0" then Feeder_hold (Some (ReasonData "M0")) c
          else if JsString.eqb m "M1" then Feeder_hold (Some (ReasonData "M1")) c
          else c
      | None => c
      end in
    let c :=
      if includes words "M6" then Feeder_hold (Some (ReasonData "M6")) c else c in
    (line, ctx, c).

(** ** The listeners on the data events *)

(** [this.feeder.on('data', (line = '', context = {}) => ...)] *)
Definition feeder_on_data (line : string) (ctx : Ctx) (c : Controller) : Controller :=
  if isClose c then c
  else if isAlarm (controllerState c) then Feeder_reset c
  else
    let line := trim line in
    if isEmpty line then c
    else connectionWrite (line ++ NL) (emit (ConnectionWrite (line ++ NL)) c).

(** [this.sender.on('data', (line = '', context = {}) => ...)] *)
Definition sender_on_data (line : string) (c : Controller) : Controller :=
  if isClose c then c
  else if WorkflowState_eqb (workflow c) WORKFLOW_STATE_IDLE then c
  else
    let line := trim line in
    if isEmpty line then c
    else connectionWrite (line ++ NL) c.

(** [this.sender.on('start', (startTime) => ...)] *)
Definition sender_on_start (startTime : Z) (c : Controller) : Controller :=
  setSenderFinishTime 0 c.

(** [this.sender.on('end', (finishTime) => ...)] *)
Definition sender_on_end (finishTime : Z) (c : Controller) : Controller :=
  setSenderFinishTime finishTime c.

(** ** The Sender: next *)

(** Modelled from the spec: [lib/Sender] is not part of the sources at hand.
    "start() captures startedAt and marks unfinished"; the Sender's start
    event runs the controller's listener. *)
Definition Sender_start (now : Z) (c : Controller) : Controller :=
  sender_on_start now (setSender (setTimes now 0 (sender c)) c).

(** [sp.queue.length === 0] *)
Definition queueIsEmpty (s : Sender) : bool :=
  match queue s with [] => true | _ => false end.

(** [lines[i] || ''] *)
Definition lineAt (l : list string) (i : Z) : string :=
  if i <? 0 then "" else nth (Z.to_nat i) l "".

(** Modelled from the spec: [lib/Sender] is not part of the sources at hand.
    The send loop of the character-counting protocol: while the Sender is
    not holding and lines remain, "next() dequeues from lines[sent] through
    the preprocessor; if preprocessor returns empty, sent still advances
    (silent advancement).  If non-empty, the line is enqueued
    (queue.push({index: sent, byteLen}), dataLength += byteLen, sent += 1),
    written to the transport with trailing \n".  A line is transmitted iff
    [dataLength + byteLen(line) + 1 <= bufferSize], or the queue is empty
    (the boundary case of the specification); "until this holds, next() is
    a no-op", so a line that does not fit leaves the controller as it was
    before the line was preprocessed.  A line that is advanced silently is
    never written, so no acknowledgement will come for it: it counts as
    received at once ([received += 1]), which is what lets "a program
    consisting of only blank/comment lines" complete "via the trailing
    %wait dwell" and reach [end] at [received == total].  Each round
    advances [sent] by one, so [total - sent] rounds are enough ([fuel]). *)
Fixpoint Sender_process (fuel : nat) (c : Controller) : Controller :=
  match fuel with
  | O => c
  | S fuel' =>
      let s := sender c in
      if sender_hold s || negb (sent s <? total s) then c
      else
        let '(line, c1) := senderDataFilter (lineAt (lines s) (sent s)) c in
        let s1 := sender c1 in
        let len := Z.of_nat (JsString.length line) in
        if isEmpty line then
          Sender_process fuel'
            (setSender (setReceived (received s1 + 1) (setSent (sent s1 + 1) s1)) c1)
        else if (dataLength s1 + len + 1 <=? bufferSize s1) || queueIsEmpty s1 then
          let s2 :=
            setSent (sent s1 + 1)
              (setQueue (dataLength s1 + len)
                 (queue s1 ++ [mkQueueEntry (sent s1) len]) s1) in
          Sender_process fuel' (sender_on_data line (setSender s2 c1))
        else c
  end.

(** Modelled from the spec: [lib/Sender] is not part of the sources at hand.
    [next()] does nothing without a loaded program.  The specification does
    not say when [start()] runs; here it runs at the first [next()] of a
    pass ([sent = 0] with lines to send).  After the send loop: "when
    received == total and queue is empty, emit end(finishedAt=now)", once
    per pass ([finishedAt = 0] marks the pass unfinished). *)
Definition Sender_next (now : Z) (c : Controller) : Controller :=
  if negb (loaded (sender c)) then c
  else
    let c :=
      if (sent (sender c) =? 0) && (0 <? total (sender c))
      then Sender_start now c else c in
    let c := Sender_process (Z.to_nat (total (sender c) - sent (sender c))) c in
    let s := sender c in
    if (received s =? total s) && queueIsEmpty s && (finishedAt s =? 0)
    then sender_on_end now (setSender (setTimes (startedAt s) now s) c)
    else c.

(** Modelled from the spec: [lib/Sender] is not part of the sources at hand.
    "load(name, text, context) assigns a program: lines = text.split(CR?LF);
    resets counters"; an invalid program is rejected with no state change.
    The controller appends the [%wait] dwell before it calls [load]. *)
Definition Sender_load (n text : string) (ctx : Ctx) (c : Controller)
  : bool * Controller :=
  if loadable n text
  then (true, setSender (setProgram n text ctx (splitLines text) (sender c)) c)
  else (false, c).

(** Modelled from the spec: [lib/Sender] is not part of the sources at hand.
    "load then unload restores initial Sender state"; the buffer size is
    kept, since it changes only in the status listener. *)
Definition Sender_unload (c : Controller) : Controller :=
  setSender
    (mkSender false None "" "" emptyCtx [] 0 0 0 0 0 (bufferSize (sender c)) 0 []) c.

(** ** The Feeder: next *)

(** Whether the transport took a line between two states: the log of the
    data written has grown. *)
Definition wrote (c c' : Controller) : bool :=
  (List.length (written c) <? List.length (written c'))%nat.

(** Modelled from the spec: [lib/Feeder] is not part of the sources at hand.
    "next() attempts to transmit the head if !hold": the head leaves the
    queue, goes through the preprocessor and is handed to the data
    listener.  "On successful write, pending=true": [pending] is raised
    when the listener wrote the line, and is down when it did not (the
    preprocessor emptied the line, the connection is closed, or the
    controller reports an alarm), so that "pending = true iff a line is in
    flight awaiting acknowledgement".  With nothing left to send the
    acknowledgement that led to this call clears [pending] ("on ok/error
    received ..., pending=false and next() is reattempted").  The test of
    [pending] before a new line is queued is the dispatcher's (command
    [gcode]). *)
Definition Feeder_next (c : Controller) : Controller :=
  let f := feeder c in
  if feeder_hold f then c
  else
    match feeder_queue f with
    | [] => setFeederPending false c
    | (line, ctx) :: q =>
        let '(line', ctx', c1) := feederDataFilter line ctx (setFeederQueue q c) in
        let c2 := feeder_on_data line' ctx' c1 in
        setFeederPending (wrote c1 c2) c2
    end.

(** ** The Workflow: resume *)

(** [this.workflow.on('resume', ...)] *)
Definition workflow_on_resume (now : Z) (c : Controller) : Controller :=
  Sender_next now
    (Sender_unhold (Feeder_reset (emit (WorkflowStateChange (workflow c)) c))).

(** Modelled from the spec: [lib/Workflow] is not part of the sources at
    hand.  Transition table: paused, resume, running. *)
Definition Workflow_resume (now : Z) (c : Controller) : Controller :=
  match workflow c with
  | WORKFLOW_STATE_PAUSED => workflow_on_resume now (setWorkflow WORKFLOW_STATE_RUNNING c)
  | _ => c
  end.

(** ** The listeners on the parser's events *)

(** [Number(_.get(res, 'buf.rx', 0)) || 0] *)
Definition rxOf (buf_rx : option Z) : Z :=
  match buf_rx with Some r => r | None => 0 end.

(** [this.controller.on('status', (res) => ...)]; [buf_rx] is [res.buf.rx]
    when the report has one. *)
Definition controller_on_status (raw : string) (buf_rx : option Z) (c : Controller)
  : Controller :=
  let c := setMaskQueryStatusReport false c in
  let c :=
    if replyStatusReport (actionMask c)
    then emit (ConnectionRead raw) (setReplyStatusReport false c)
    else c in
  let rx := rxOf buf_rx in
  if rx >? 0 then
    if negb (WorkflowState_eqb (workflow c) WORKFLOW_STATE_IDLE) then c
    else if negb (dataLength (sender c) =? 0) then c
    else
      let bufferSize' := rx - 8 in
      if bufferSize' >? bufferSize (sender c)
      then setSender (setBufferSize bufferSize' (sender c)) c
      else c
  else c.

(** [this.controller.on('ok', (res) => ...)] *)
Definition controller_on_ok (now : Z) (raw : string) (c : Controller) : Controller :=
  if maskQueryParserStateReply (actionMask c) then
    let c :=
      if replyParserState (actionMask c)
      then emit (ConnectionRead raw) (setReplyParserState false c)
      else c in
    setMaskQueryParserStateReply false c
  else
    let hold := sender_hold (sender c) in
    let sent := sent (sender c) in
    let received := received (sender c) in
    if WorkflowState_eqb (workflow c) WORKFLOW_STATE_RUNNING then
      let c := if hold && (received + 1 >=? sent) then Sender_unhold c else c in
      Sender_next now (Sender_ack c)
    else if WorkflowState_eqb (workflow c) WORKFLOW_STATE_PAUSED && (received <? sent) then
      Sender_next now (Sender_ack c)
    else
      Feeder_next (emit (ConnectionRead raw) c).

(** The annotated echo of the error listener:
    [`> ${line.trim()} (line=${received + 1})`] *)
Definition errorEcho (line : string) (received : Z) : string :=
  "> " ++ trim line ++ " (line=" ++ numberToString (received + 1) ++ ")".

(** [this.controller.on('error', (res) => ...)] *)
Definition controller_on_error (now : Z) (raw : string) (c : Controller) : Controller :=
  if WorkflowState_eqb (workflow c) WORKFLOW_STATE_RUNNING then
    let pauseError := negb ignoreErrors in
    let received := received (sender c) in
    let line := lineAt (lines (sender c)) received in
    let c := emit (ConnectionRead (errorEcho line received)) c in
    let c := emit (ConnectionRead raw) c in
    let c := if pauseError then Workflow_pause (Some (ReasonErr raw)) c else c in
    Sender_next now (Sender_ack c)
  else
    Feeder_next (emit (ConnectionRead raw) c).

(** [this.controller.on('alarm', (res) => ...)] *)
Definition controller_on_alarm (raw : string) (c : Controller) : Controller :=
  emit (ConnectionRead raw) c.

(** [this.controller.on('parserstate', (res) => ...)] *)
Definition controller_on_parserstate (raw : string) (c : Controller) : Controller :=
  let c := setMaskQueryParserStateState false c in
  let c := setMaskQueryParserStateReply true c in
  if replyParserState (actionMask c) then emit (ConnectionRead raw) c else c.

(** The listeners on [parameters], [version] and [others]. *)
Definition controller_on_others (raw : string) (c : Controller) : Controller :=
  emit (ConnectionRead raw) c.

(** ** Writing to the connection *)

(** [write(data, context)] *)
Definition write (data : string) (c : Controller) : Controller :=
  if isClose c then c
  else
    let cmd := trim data in
    let c := setReplyStatusReport (JsString.eqb cmd "?" || replyStatusReport (actionMask c)) c in
    let c := setReplyParserState (JsString.eqb cmd "$G" || replyParserState (actionMask c)) c in
    connectionWrite data (emit (ConnectionWrite data) c).

(** [writeln(data, context)] *)
Definition writeln (data : string) (c : Controller) : Controller :=
  if includes SMOOTHIE_REALTIME_COMMANDS data then write data c
  else write (data ++ NL) c.

(** ** The command dispatcher *)

(** The lines that the command [gcode] makes of its argument:
    [ensureArray(commands).join('\n').split(/\r?\n/)], filtered to the
    lines that do not trim to the empty string. *)
Definition gcodeData (commands : list string) : list string :=
  filter (fun line => negb (isEmpty (trim line))) (splitLines (joinLines commands)).

(** The handler of ['gcode']: [commands] is [ensureArray(commands)]; a
    missing context is the empty context. *)
Definition command_gcode (commands : list string) (ctx : Ctx) (c : Controller)
  : Controller :=
  let data := gcodeData commands in
  let c := Feeder_feed data ctx c in
  if negb (Feeder_isPending c) then Feeder_next c else c.

(** [this.event.trigger(name)]: [EventTrigger] calls the function given to
    its constructor once per hook; a hook of trigger ['system'] goes to the
    task runner, any other one to [this.command('gcode', commands)]. *)
Definition trigger (event : string) (c : Controller) : Controller :=
  fold_left
    (fun c hook =>
       if JsString.eqb (fst hook) "system" then c
       else command_gcode [snd hook] emptyCtx c)
    (eventHooks event) c.

(** The text appended to a program by ['sender:load']. *)
Definition dwell : string := "%wait ; Wait for the planner queue to empty".

(** The clamp of the two override handlers, on the value read and the
    argument. *)
Definition override (current value : Z) : Z :=
  if value =? 0 then 100
  else if current + value >? 200 then 200
  else if current + value <? 10 then 10
  else current + value.

(** The commands of the dispatcher.  ['lasertest'], ['macro:run'],
    ['macro:load'] and ['watchdir:load'] only call ['gcode'] and
    ['sender:load'] in turn and are sequences of the commands below. *)
Inductive Command : Type :=
| CmdSenderLoad (name content : string) (context : Ctx)
| CmdSenderUnload
| CmdSenderStart
| CmdSenderStop
| CmdSenderPause
| CmdSenderResume
| CmdFeederStart
| CmdFeederStop
| CmdFeedhold
| CmdCyclestart
| CmdHoming
| CmdSleep
| CmdUnlock
| CmdReset
| CmdOverrideFeed (value : Z)
| CmdOverrideSpindle (value : Z)
| CmdOverrideRapid
| CmdGcode (commands : list string) (context : Ctx)
| CmdUnknown (cmd : string).

(** [_.get(this.state, 'machineState', '')] *)
Definition cachedMachineState (c : Controller) : string :=
  match state c with
  | Some s => machineState s
  | None => ""
  end.

(** [command(cmd, ...args)] *)
Definition command (now : Z) (cmd : Command) (c : Controller) : Controller :=
  match cmd with
  | CmdSenderLoad n content ctx =>
      let '(ok, c) := Sender_load n (content ++ NL ++ dwell) ctx c in
      if negb ok then c
      else
        let c := emit (SenderLoad n content) c in
        let c := trigger "sender:load" c in
        Workflow_stop c
  | CmdSenderUnload =>
      let c := Workflow_stop c in
      let c := Sender_unload c in
      let c := emit SenderUnload c in
      trigger "sender:unload" c
  | CmdSenderStart =>
      let c := trigger "sender:start" c in
      let c := Workflow_start c in
      let c := Feeder_reset c in
      Sender_next now c
  | CmdSenderStop =>
      let c := trigger "sender:stop" c in
      let c := Workflow_stop c in
      if JsString.eqb (cachedMachineState c) SMOOTHIE_MACHINE_STATE_HOLD
      then write "~" c else c
  | CmdSenderPause =>
      let c := trigger "sender:pause" c in
      let c := Workflow_pause None c in
      write "!" c
  | CmdSenderResume =>
      let c := trigger "sender:resume" c in
      let c := write "~" c in
      Workflow_resume now c
  | CmdFeederStart =>
      if WorkflowState_eqb (workflow c) WORKFLOW_STATE_RUNNING then c
      else Feeder_next (Feeder_unhold (write "~" c))
  | CmdFeederStop => Feeder_reset c
  | CmdFeedhold => write "!" (trigger "feedhold" c)
  | CmdCyclestart => write "~" (trigger "cyclestart" c)
  | CmdHoming => writeln "$H" (trigger "homing" c)
  | CmdSleep => trigger "sleep" c
  | CmdUnlock => writeln "$X" c
  | CmdReset =>
      let c := Workflow_stop c in
      let c := Feeder_reset c in
      write (String CAN EmptyString) c
  | CmdOverrideFeed value =>
      let feedOverride := override (ovF (controllerState c)) value in
      let c := command_gcode ["M220S" ++ numberToString feedOverride] emptyCtx c in
      let s := controllerState c in
      setControllerState
        (mkSmoothieState (machineState s) (ovF s) (ovS s)
           (mkSmoothieStatus feedOverride (status_ovS (status s)) (statusRest (status s)))
           (stateRest s)) c
  | CmdOverrideSpindle value =>
      let spindleOverride := override (ovS (controllerState c)) value in
      let c := command_gcode ["M221S" ++ numberToString spindleOverride] emptyCtx c in
      let s := controllerState c in
      setControllerState
        (mkSmoothieState (machineState s) (ovF s) (ovS s)
           (mkSmoothieStatus (status_ovF (status s)) spindleOverride (statusRest (status s)))
           (stateRest s)) c
  | CmdOverrideRapid => c
  | CmdGcode commands ctx => command_gcode commands ctx c
  | CmdUnknown _ => c
  end.

(** ** The periodic queries *)

(** [const queryStatusReport = () => ...] *)
Definition queryStatusReport (now : Z) (c : Controller) : Controller :=
  if negb (ready c) then c
  else
    let lastQueryTime := timeQueryStatusReport (actionTime c) in
    let c :=
      if lastQueryTime >? 0 then
        let timespan := Z.abs (now - lastQueryTime) in
        let toleranceTime := 5000 in
        if timespan >=? toleranceTime then setMaskQueryStatusReport false c else c
      else c in
    if maskQueryStatusReport (actionMask c) then c
    else if isOpen c then
      connectionWrite "?" (setTimeQueryStatusReport now (setMaskQueryStatusReport true c))
    else c.

(** The function wrapped by [_.throttle] in [const queryParserState]. *)
Definition queryParserStateBody (now : Z) (c : Controller) : Controller :=
  if negb (ready c) then c
  else
    let c :=
      if WorkflowState_eqb (workflow c) WORKFLOW_STATE_IDLE && isIdle (controllerState c) then
        let lastQueryTime := timeQueryParserState (actionTime c) in
        if lastQueryTime >? 0 then
          let timespan := Z.abs (now - lastQueryTime) in
          let toleranceTime := 10000 in
          if timespan >=? toleranceTime then setMaskQueryParserState false false c else c
        else c
      else c in
    if maskQueryParserStateState (actionMask c) || maskQueryParserStateReply (actionMask c)
    then c
    else if isOpen c then
      connectionWrite ("$G" ++ NL)
        (setTimeQueryParserState now (setMaskQueryParserState true false c))
    else c.

(** The wait of the throttle, in milliseconds. *)
Definition throttleWait : Z := 500.

(** Modelled from the spec: [_.throttle] belongs to lodash, which is not
    part of the sources at hand.  "Throttled to at most one invocation per
    500 ms on the trailing edge": the wrapped function runs when it has not
    run during the last 500 ms; a call that comes sooner is kept for the
    trailing edge. *)
Definition throttleElapsed (now : Z) (t : Throttle) : bool :=
  match lastInvokeTime t with
  | None => true
  | Some last => now - last >=? throttleWait
  end.

(** A run of the wrapped function at [now], recorded by the throttle. *)
Definition invoke (now : Z) (c : Controller) : Controller :=
  queryParserStateBody now
    (setThrottle (mkThrottle (now :: invokeTimes (throttle c)) false) c).

(** [const queryParserState = _.throttle(() => ..., 500)], called: the
    wrapped function runs now if the wait has elapsed, else the call is
    kept for the trailing edge. *)
Definition queryParserState (now : Z) (c : Controller) : Controller :=
  if throttleElapsed now (throttle c)
  then invoke now c
  else setThrottle (mkThrottle (invokeTimes (throttle c)) true) c.

(** The throttle's timer: the trailing-edge run of a call that was kept. *)
Definition throttleTimer (now : Z) (c : Controller) : Controller :=
  if trailingPending (throttle c) && throttleElapsed now (throttle c)
  then invoke now c
  else c.

(** ** The 250 ms tick: [this.queryTimer = setInterval(() => ..., 250)]

    The status snapshots [feeder:status] and [sender:status], which depend
    on the change flags kept inside the Feeder and the Sender, are not part
    of the [emitted] log. *)
Definition tick (now : Z) (c : Controller) : Controller :=
  if isClose c then c
  else
    let zeroOffset :=
      isEqual (getWorkPosition (state c)) (getWorkPosition (Some (controllerState c))) in
    let c :=
      if negb (settingsSynced c)
      then emit ControllerSettings (setSettingsSynced true c) else c in
    let c :=
      if negb (stateSynced c)
      then emit ControllerState (syncState c) else c in
    if negb (ready c) then c
    else
      let c := queryStatusReport now c in
      let c := queryParserState now c in
      if senderFinishTime (actionTime c) >? 0 then
        let machineIdle := zeroOffset && isIdle (controllerState c) in
        let timespan := Z.abs (now - senderFinishTime (actionTime c)) in
        let toleranceTime := 500 in
        if negb machineIdle then setSenderFinishTime now c
        else if timespan >? toleranceTime then
          command now CmdSenderStop (setSenderFinishTime 0 c)
        else c
      else c.

(** ** Connection life cycle *)

(** [clearActionValues()] *)
Definition clearActionValues (c : Controller) : Controller :=
  setActionTime (mkActionTime 0 0 0)
    (setActionMask (mkActionMask false false false false false) c).

(** [sendInitCommands(i)] of [initController()]: the commands are
    [{ pauseAfter: 1000 }] and [{ cmd: 'version', pauseAfter: 50 }]; the
    timer that calls [sendInitCommands(i + 1)] is left to the environment. *)
Definition sendInitCommands (i : nat) (c : Controller) : Controller :=
  if isClose c then c
  else
    match i with
    | O => c
    | S O => connectionWrite ("version" ++ NL) c
    | _ => setReady true c
    end.

(** [open(callback)], with the outcome [ok] of [connection.open].  The
    command ['unload'] that is dispatched when a program is loaded is not a
    key of the handler table, so it is logged and changes nothing.  The
    broadcast of [connection:change] on [engine.io], here and in [close],
    does not go through [this.emit] and is not part of the [emitted] log. *)
Definition open (now : Z) (ok : bool) (c : Controller) : Controller :=
  if isOpen c then c
  else if negb ok then emit ConnectionError c
  else
    let c := emit ConnectionOpen (setIsOpen true c) in
    let c := Workflow_stop c in
    let c := clearActionValues c in
    let c := if loaded (sender c) then command now (CmdUnknown "unload") c else c in
    sendInitCommands 0 c.

(** [close(callback)] *)
Definition close (c : Controller) : Controller :=
  setIsOpen false (emit ConnectionClose (setReady false c)).

(** ** The event loop *)

(** The typed events of the response parser, each with its [raw] line. *)
Inductive ParserEvent : Type :=
| PStatus (raw : string) (buf_rx : option Z)
| POk (raw : string)
| PError (raw : string)
| PAlarm (raw : string)
| PParserstate (raw : string)
| PParameters (raw : string)
| PVersion (raw : string)
| POthers (raw : string).

(** Everything that makes the controller run: the parser replacing its
    state or settings object, a typed parser event, the 250 ms tick, the
    throttle's timer, a dispatcher command or a raw write from a session,
    and the connection's life cycle. *)
Inductive Event : Type :=
| EvParserState (s : SmoothieState Rest)
| EvParserSettings
| EvParser (e : ParserEvent)
| EvTick
| EvThrottleTimer
| EvCommand (cmd : Command)
| EvWrite (data : string)
| EvWriteln (data : string)
| EvOpen (ok : bool)
| EvClose
| EvConnectionError
| EvInit (i : nat).

Definition dispatch (now : Z) (e : ParserEvent) (c : Controller) : Controller :=
  match e with
  | PStatus raw buf_rx => controller_on_status raw buf_rx c
  | POk raw => controller_on_ok now raw c
  | PError raw => controller_on_error now raw c
  | PAlarm raw => controller_on_alarm raw c
  | PParserstate raw => controller_on_parserstate raw c
  | PParameters raw | PVersion raw | POthers raw => controller_on_others raw c
  end.

Definition step (now : Z) (e : Event) (c : Controller) : Controller :=
  match e with
  | EvParserState s => setControllerState s c
  | EvParserSettings => setSettingsSynced false c
  | EvParser e => dispatch now e c
  | EvTick => tick now c
  | EvThrottleTimer => throttleTimer now c
  | EvCommand cmd => command now cmd c
  | EvWrite data => write data c
  | EvWriteln data => writeln data c
  | EvOpen ok => open now ok c
  | EvClose => close c
  | EvConnectionError => setReady false c
  | EvInit i => sendInitCommands i c
  end.

(** A run: the events in order of arrival, each with the time it is
    handled at. *)
Fixpoint run (events : list (Z * Event)) (c : Controller) : Controller :=
  match events with
  | [] => c
  | (now, e) :: rest => run rest (step now e c)
  end.

(** The controller as its constructor leaves it; [s0] is the state the
    parser starts with.  The Sender's buffer size is [128 - 8]. *)
Definition initialController (s0 : SmoothieState Rest) : Controller :=
  mkController false false
    (mkActionMask false false false false false)
    (mkActionTime 0 0 0)
    (mkFeeder [] false None false)
    (mkSender false None "" "" emptyCtx [] 0 0 0 0 0 (128 - 8) 0 [])
    WORKFLOW_STATE_IDLE s0 None false false
    (mkThrottle [] false) [] [].

(** ** The sessions: [addSocket], [removeSocket] and [emit]

    A socket is identified with its [id], the key under which
    [this.sockets] holds it.  [sockets] lists the keys of [this.sockets] in
    the order of [Object.keys] for keys that are not array indices, the
    order of insertion; [delivered] is the record of the calls of
    [socket.emit], oldest first, each with the socket it went to. *)

(** What a socket is sent: an emission of [this.emit], or one of the
    messages that only [addSocket] sends. *)
Inductive Message : Type :=
| Told (e : Emit)
| MsgControllerType
| MsgSmoothieSettings
| MsgSmoothieState
| MsgFeederStatus
| MsgSenderStatus.

Record Sessions : Type := mkSessions {
  sockets : list string;
  delivered : list (string * Message)
}.

(** [socket.emit(...)] *)
Definition socketEmit (id : string) (m : Message) (s : Sessions) : Sessions :=
  mkSessions (sockets s) (delivered s ++ [(id, m)]).

(** [this.sockets[socket.id] = socket] *)
Definition register (id : string) (s : Sessions) : Sessions :=
  if includes (sockets s) id then s
  else mkSessions (sockets s ++ [id]) (delivered s).

(** [addSocket(socket)], before [destroy()]; [socket] is [None] for a
    missing argument, and [settingsEmpty] is [_.isEmpty(this.settings)], the
    settings being kept by the parser.  [this.state] is empty until the
    first tick copies the parser's state. *)
Definition addSocket (socket : option string) (settingsEmpty : bool)
    (c : Controller) (s : Sessions) : Sessions :=
  match socket with
  | None => s
  | Some id =>
      let s := register id s in
      let s := socketEmit id MsgControllerType s in
      let s := if isOpen c then socketEmit id (Told ConnectionOpen) s else s in
      let s :=
        if negb settingsEmpty
        then socketEmit id MsgSmoothieSettings (socketEmit id (Told ControllerSettings) s)
        else s in
      let s :=
        match state c with
        | Some _ => socketEmit id MsgSmoothieState (socketEmit id (Told ControllerState) s)
        | None => s
        end in
      let s := socketEmit id MsgFeederStatus s in
      let s := socketEmit id MsgSenderStatus s in
      let s :=
        if loaded (sender c)
        then socketEmit id (Told (SenderLoad (name (sender c)) (gcode (sender c)))) s
        else s in
      socketEmit id (Told (WorkflowStateChange (workflow c))) s
  end.

(** [removeSocket(socket)] *)
Definition removeSocket (socket : option string) (s : Sessions) : Sessions :=
  match socket with
  | None => s
  | Some id =>
      mkSessions (filter (fun k => negb (JsString.eqb k id)) (sockets s)) (delivered s)
  end.

(** [emit(eventName, ...args)]: one [socket.emit] per key of
    [this.sockets]. *)
Definition emitToSockets (e : Emit) (s : Sessions) : Sessions :=
  fold_left (fun s id => socketEmit id (Told e) s) (sockets s) s.

(** What happens to a controller with its sessions: a socket joins or
    leaves, or the controller handles an event, each emission of which goes
    through [emit] as it is made.  The emissions that the [emitted] log
    leaves out (the status snapshots of the tick and the copies sent for
    backward compatibility) are left out here as well. *)
Inductive SessionEvent : Type :=
| SeAdd (socket : option string) (settingsEmpty : bool)
| SeRemove (socket : option string)
| SeEvent (now : Z) (e : Event).

Definition sessionStep (ev : SessionEvent) (cs : Controller * Sessions)
  : Controller * Sessions :=
  let '(c, s) := cs in
  match ev with
  | SeAdd socket settingsEmpty => (c, addSocket socket settingsEmpty c s)
  | SeRemove socket => (c, removeSocket socket s)
  | SeEvent now e =>
      let c' := step now e c in
      (c', fold_left (fun s e => emitToSockets e s)
             (skipn (List.length (emitted c)) (emitted c')) s)
  end.

Definition sessionRun (events : list SessionEvent) (cs : Controller * Sessions)
  : Controller * Sessions :=
  fold_left (fun cs ev => sessionStep ev cs) events cs.

(** The workflow state that the socket [id] was told last, [acc] when the
    messages [d] tell it none. *)
Definition toldWorkflow (id : string) (acc : option WorkflowState)
    (d : list (string * Message)) : option WorkflowState :=
  fold_left
    (fun acc m =>
       if JsString.eqb (fst m) id then
         match snd m with
         | Told (WorkflowStateChange w) => Some w
         | _ => acc
         end
       else acc) d acc.

(** ** Vocabulary of the properties *)

Definition extends {A : Type} (l l' : list A) : Prop :=
  exists t, l' = (l ++ t)%list.

(** What every operation on the Sender, the Feeder and the Workflow leaves
    alone: the connection, the ready flag, the masks, the query times, the
    parser's state and its cached copy, the throttle and the Sender's
    buffer size. *)
Definition streamFrame (c c' : Controller) : Prop :=
  isOpen c' = isOpen c
  /\ ready c' = ready c
  /\ actionMask c' = actionMask c
  /\ timeQueryParserState (actionTime c') = timeQueryParserState (actionTime c)
  /\ timeQueryStatusReport (actionTime c') = timeQueryStatusReport (actionTime c)
  /\ controllerState c' = controllerState c
  /\ state c' = state c
  /\ stateSynced c' = stateSynced c
  /\ settingsSynced c' = settingsSynced c
  /\ throttle c' = throttle c
  /\ bufferSize (sender c') = bufferSize (sender c)
  /\ extends (written c) (written c')
  /\ extends (emitted c) (emitted c').

(** What sending program lines leaves alone besides: the Feeder and the
    program; the count of received lines does not go down. *)
Definition sendFrame (c c' : Controller) : Prop :=
  streamFrame c c'
  /\ feeder c' = feeder c
  /\ received (sender c) <= received (sender c')
  /\ gcode (sender c') = gcode (sender c)
  /\ lines (sender c') = lines (sender c)
  /\ total (sender c') = total (sender c).

(** What the Feeder's operations leave alone besides: the Sender, the
    workflow and the finish time. *)
Definition feederFrame (c c' : Controller) : Prop :=
  streamFrame c c'
  /\ sender c' = sender c
  /\ workflow c' = workflow c
  /\ actionTime c' = actionTime c.

(** What every handler except the tick, the throttle's timer and the status
    listener leaves alone: the throttle and the Sender's buffer size. *)
Definition quietFrame (c c' : Controller) : Prop :=
  throttle c' = throttle c /\ bufferSize (sender c') = bufferSize (sender c).

(** The two periodic queries leave the Sender, the workflow, the finish
    time and the parser's state alone. *)
Definition queryFrame (c c' : Controller) : Prop :=
  senderFinishTime (actionTime c') = senderFinishTime (actionTime c)
  /\ controllerState c' = controllerState c
  /\ workflow c' = workflow c
  /\ sender c' = sender c
  /\ feeder c' = feeder c.

(** The first round of the send loop of [next()]: the controller the loop
    starts from (after [start()], when a pass begins), the line that the
    preprocessor returns for [lines[sent]] together with the controller
    after it, and the test of the flow control. *)
Definition Sender_entry (now : Z) (c : Controller) : Controller :=
  if (sent (sender c) =? 0) && (0 <? total (sender c)) then Sender_start now c else c.

Definition Sender_head (now : Z) (c : Controller) : string * Controller :=
  senderDataFilter (lineAt (lines (sender c)) (sent (sender c))) (Sender_entry now c).

Definition Sender_fits (line : string) (c : Controller) : bool :=
  (dataLength (sender c) + Z.of_nat (JsString.length line) + 1 <=? bufferSize (sender c))
  || queueIsEmpty (sender c).

(** [k'] is [k] after an attempt to send the next line.  With nothing to
    send (no program, a hold, or every line sent) nothing is written and
    the counters stay.  Otherwise the next line is preprocessed: a line
    that comes out empty advances both counters; a line that does not fit
    the receive buffer of the machine leaves everything as it is; a line
    that fits advances [sent] and goes to the data listener of the Sender
    first, which writes it, trimmed and with a newline, when the connection
    is open, the workflow is not idle and the line does not trim to the
    empty string. *)
Definition Sender_attempted (now : Z) (k k' : Controller) : Prop :=
  let line := fst (Sender_head now k) in
  let k1 := snd (Sender_head now k) in
  (loaded (sender k) = false \/ sender_hold (sender k) = true
   \/ total (sender k) <= sent (sender k) ->
   written k' = written k
   /\ sent (sender k') = sent (sender k)
   /\ received (sender k') = received (sender k))
  /\ (loaded (sender k) = true -> sender_hold (sender k) = false ->
      sent (sender k) < total (sender k) ->
      (isEmpty line = true ->
       sent (sender k) + 1 <= sent (sender k')
       /\ received (sender k) + 1 <= received (sender k'))
      /\ (isEmpty line = false -> Sender_fits line k1 = false ->
          written k' = written k
          /\ sent (sender k') = sent (sender k)
          /\ received (sender k') = received (sender k))
      /\ (isEmpty line = false -> Sender_fits line k1 = true ->
          sent (sender k) + 1 <= sent (sender k')
          /\ exists rest,
              written k' =
                (written k
                 ++ (if isOpen k
                        && negb (WorkflowState_eqb (workflow k1) WORKFLOW_STATE_IDLE)
                        && negb (isEmpty (trim line))
                     then [(trim line ++ NL)%js] else [])
                 ++ rest)%list)).

Definition isSingleLine (line : string) : bool :=
  if list_eq_dec string_dec (gcodeData [line]) [line] then true else false.

(** The 10 s time-out of the query applies: workflow idle, machine idle, a
    query on record, and 10 s or more since then. *)
Definition parserStateQueryExpired (now : Z) (c : Controller) : bool :=
  WorkflowState_eqb (workflow c) WORKFLOW_STATE_IDLE
  && isIdle (controllerState c)
  && (timeQueryParserState (actionTime c) >? 0)
  && (Z.abs (now - timeQueryParserState (actionTime c)) >=? 10000).

(** A mask of the query is set and the time-out does not clear it. *)
Definition parserStateQueryMasked (now : Z) (c : Controller) : bool :=
  negb (parserStateQueryExpired now c)
  && (maskQueryParserStateState (actionMask c) || maskQueryParserStateReply (actionMask c)).

(** Times, newest first, that are at least the throttle's wait apart. *)
Fixpoint spaced (times : list Z) : Prop :=
  match times with
  | t :: earlier =>
      match earlier with
      | t' :: _ => throttleWait <= t - t'
      | [] => True
      end /\ spaced earlier
  | [] => True
  end.

(** Events in the order of their times, none before [t0]. *)
Fixpoint chronological (t0 : Z) (events : list (Z * Event)) : Prop :=
  match events with
  | [] => True
  | (t, _) :: rest => t0 <= t /\ chronological t rest
  end.

(** [c] occurs in [s]. *)
Fixpoint occurs (c : N) (s : string) : bool :=
  match s with
  | EmptyString => false
  | String d s' => N.eqb d c || occurs c s'
  end.

(** Every character of [s] passes [p]. *)
Fixpoint allChars (p : N -> bool) (s : string) : bool :=
  match s with
  | EmptyString => true
  | String c s' => p c && allChars p s'
  end.

(** A string that is empty or starts with something else than white
    space. *)
Definition startsClean (s : string) : Prop :=
  match s with
  | EmptyString => True
  | String c _ => isSpace c = false
  end.

(** The workflow state that the sessions were told last: [w] before the
    emissions [t], then the state of each [workflow:state] in turn. *)
Definition lastWorkflow (w : WorkflowState) (t : list Emit) : WorkflowState :=
  fold_left (fun w e => match e with WorkflowStateChange s => s | _ => w end) t w.

(** The emissions from [c] to [c'] end with the sessions knowing the
    workflow state of [c'], provided they knew that of [c]. *)
Definition announced (c c' : Controller) : Prop :=
  exists t, emitted c' = (emitted c ++ t)%list
            /\ lastWorkflow (workflow c) t = workflow c'.

(** The connection stays as it is, nothing is written on a closed
    connection, and every change of the workflow state is announced. *)
Definition conduct (c c' : Controller) : Prop :=
  isOpen c' = isOpen c
  /\ (isOpen c = false -> written c' = written c)
  /\ announced c c'.

(** The ready flag and the two echo flags stay as they are. *)
Definition flagsKept (c c' : Controller) : Prop :=
  ready c' = ready c
  /\ replyStatusReport (actionMask c') = replyStatusReport (actionMask c)
  /\ replyParserState (actionMask c') = replyParserState (actionMask c).

(** Both: what every command of the dispatcher, the tick and the listeners
    on [error], [alarm] and [parserstate] keep to. *)
Definition orderly (c c' : Controller) : Prop :=
  conduct c c' /\ flagsKept c c'.

(** The ready flag stays as it is and no echo flag is raised. *)
Definition flagsLowered (c c' : Controller) : Prop :=
  ready c' = ready c
  /\ (replyStatusReport (actionMask c') = true -> replyStatusReport (actionMask c) = true)
  /\ (replyParserState (actionMask c') = true -> replyParserState (actionMask c) = true).

(** The emissions from [c] to [c'] are changes of the workflow state
    only. *)
Definition workflowOnly (c c' : Controller) : Prop :=
  exists t, emitted c' = (emitted c ++ t)%list
            /\ Forall (fun e => exists s, e = WorkflowStateChange s) t.

(** The 5 s time-out of the status query applies. *)
Definition statusQueryExpired (now : Z) (c : Controller) : bool :=
  (timeQueryStatusReport (actionTime c) >? 0)
  && (Z.abs (now - timeQueryStatusReport (actionTime c)) >=? 5000).

(** The last workflow state among the emissions [t], [acc] when there is
    none. *)
Definition lastAnnounced (acc : option WorkflowState) (t : list Emit)
  : option WorkflowState :=
  fold_left (fun a e => match e with WorkflowStateChange w => Some w | _ => a end) t acc.

(** Every socket that is registered was told the workflow state as it
    is. *)
Definition informed (cs : Controller * Sessions) : Prop :=
  forall id, In id (sockets (snd cs)) ->
             toldWorkflow id None (delivered (snd cs)) = Some (workflow (fst cs)).

(** The messages of [d] that went to the socket [id]. *)
Definition deliveredTo (id : string) (d : list (string * Message))
  : list (string * Message) :=
  filter (fun m => JsString.eqb (fst m) id) d.

End Model.

(** ** A concrete set of collaborators, for evaluating the model

    Contexts are trivial, the parser's extra state is the work position as
    text, the machine is idle or in alarm when [machineState] says so, lines
    are translated to themselves and tokenized at single spaces, errors
    pause the workflow, no event hooks are configured and every non-empty
    program loads. *)

Fixpoint wordsFrom (cur : string) (s : string) : list string :=
  match s with
  | EmptyString => if isEmpty cur then [] else [cur]
  | String c s' =>
      if N.eqb c SPACE
      then (if isEmpty cur then wordsFrom EmptyString s' else cur :: wordsFrom EmptyString s')
      else wordsFrom (cur ++ String c EmptyString) s'
  end.

#[local] Instance demo : Collaborators := {|
  Ctx := unit;
  emptyCtx := tt;
  Rest := string;
  Position := string;
  isEqual := JsString.eqb;
  getWorkPosition := fun s => match s with Some s => stateRest s | None => "" end;
  isIdle := fun s => JsString.eqb (machineState s) "Idle";
  isAlarm := fun s => JsString.eqb (machineState s) "Alarm";
  populateContext := fun _ x => x;
  evaluateExpression := fun _ x => x;
  translateWithContext := fun line _ => line;
  parseLineWords := wordsFrom EmptyString;
  ignoreErrors := false;
  eventHooks := fun _ => [];
  loadable := fun _ text => negb (isEmpty text)
|}.

(** A parser state with machine state [m], both overrides at [ov] and work
    position [pos]. *)
Definition demoState (m : string) (ov : Z) (pos : string) : SmoothieState string :=
  mkSmoothieState m ov ov (mkSmoothieStatus ov ov pos) pos.

(** The start of a session: the connection opens at time 0, the
    initialisation sends [version] and sets the ready flag, the first tick
    sends both queries, and the machine answers them. *)
Definition demoBoot : list (Z * Event) :=
  [(0, EvOpen true); (1000, EvInit 1); (1050, EvInit 2); (1250, EvTick);
   (1260, EvParser (PStatus "<Idle|MPos:0,0,0|WPos:0,0,0>" None));
   (1270, EvParser (PParserstate "[G0 G54 G17 G21 G90 G94 M0 M5 M9 T0 F0. S0.]"));
   (1280, EvParser (POk "ok"))].

(** An open, ready controller over an idle machine. *)
Definition demoReady : Controller :=
  run demoBoot (initialController (demoState "Idle" 100 "0,0,0")).

(** The program [G1 X1 / G1 X2 / G1 X3] loaded into [demoReady]. *)
Definition demoLoaded : Controller :=
  step 1300 (EvCommand (CmdSenderLoad "job" ("G1 X1" ++ NL ++ "G1 X2" ++ NL ++ "G1 X3") tt))
    demoReady.

(** [demoLoaded] started at time 1400: the workflow is running and the
    three lines and the dwell are in flight. *)
Definition demoRunning : Controller :=
  step 1400 (EvCommand CmdSenderStart) demoLoaded.

(** [demoRunning] after the four acknowledgements of its four lines: the
    Sender has reported the end of the program at time 1800. *)
Definition demoFinished : Controller :=
  run [(1500, EvParser (POk "ok")); (1600, EvParser (POk "ok"));
       (1700, EvParser (POk "ok")); (1800, EvParser (POk "ok"))] demoRunning.

(** [demoFinished] with the machine still moving and the connection closed
    at time 1860. *)
Definition demoFinishedClosed : Controller :=
  run [(1850, EvParserState (demoState "Run" 100 "5,0,0")); (1860, EvClose)] demoFinished.

(** [demoReady] after the parser reported both overrides at 195. *)
Definition demo195 : Controller :=
  step 1300 (EvParserState (demoState "Idle" 195 "0,0,0")) demoReady.

(** [demoReady] after the parser reported both overrides at 150. *)
Definition demo150 : Controller :=
  step 1300 (EvParserState (demoState "Idle" 150 "0,0,0")) demoReady.

(** A program without a line to send (a no-break space, a comment, two
    spaces) loaded into [demoReady] and started at time 1400: the three
    lines are passed over and the dwell is in flight. *)
Definition demoBlank : Controller :=
  run [(1300, EvCommand (CmdSenderLoad "blank"
                           (String NBSP EmptyString ++ NL ++ "; only a comment" ++ NL ++ "  ")
                           tt));
       (1400, EvCommand CmdSenderStart)] demoReady.

(** [demoReady] after [gcode] was given two lines (the first is in flight,
    the second is queued) and the parser then reported the alarm state. *)
Definition demoAlarm : Controller :=
  run [(1300, EvCommand (CmdGcode ["G0 X1"; "G0 X2"] tt));
       (1310, EvParserState (demoState "Alarm" 100 "0,0,0"))] demoReady.

(** [demoRunning] after a parser-state report. *)
Definition demoParserState : Controller :=
  step 1450 (EvParser (PParserstate "[G0 G54 G17 G21 G90 G94 M0 M5 M9 T0 F0. S0.]"))
    demoRunning.

(** The start of a session followed by ticks every 250 ms and two firings
    of the throttle's timer. *)
Definition demoEvents : list (Z * Event) :=
  (demoBoot ++
   [(1500, EvTick); (1750, EvTick); (1760, EvThrottleTimer);
    (2000, EvTick); (2250, EvTick); (2260, EvThrottleTimer)])%list.

(** The start of a session, then a program loaded and started. *)
Definition demoStream : list (Z * Event) :=
  (demoBoot ++
   [(1300, EvCommand (CmdSenderLoad "job" ("G1 X1" ++ NL ++ "G1 X2" ++ NL ++ "G1 X3") tt));
    (1400, EvCommand CmdSenderStart)])%list.

(** A socket joins before the connection opens; a program is loaded and
    started; a second socket joins and the first one leaves. *)
Definition demoSessionEvents : list SessionEvent :=
  (SeAdd (Some "a") true :: map (fun te => SeEvent (fst te) (snd te)) demoStream
   ++ [SeAdd (Some "b") true; SeRemove (Some "a")])%list.

(** * Properties *)

Section Properties.

Context `{Collaborators}.

(** ** Basic facts *)

Lemma string_eqb_refl (s : string) : JsString.eqb s s = true.
Proof.
  induction s as [|c s IH]; simpl; [reflexivity|].
  rewrite N.eqb_refl, IH. reflexivity.
Qed.

Lemma string_eqb_eq (s t : string) : JsString.eqb s t = true <-> s = t.
Proof.
  split.
  - revert t. induction s as [|c s IH]; intros [|d t] E; simpl in E;
      try reflexivity; try discriminate E.
    apply andb_true_iff in E. destruct E as (E1 & E2).
    apply N.eqb_eq in E1. subst d. rewrite (IH t E2). reflexivity.
  - intro E. subst t. apply string_eqb_refl.
Qed.

Lemma string_eqb_sym (s t : string) : JsString.eqb s t = JsString.eqb t s.
Proof.
  revert t. induction s as [|c s IH]; intros [|d t]; simpl; try reflexivity.
  rewrite (N.eqb_sym c d), (IH t). reflexivity.
Qed.

Lemma string_eqb_spec (s t : string) : reflect (s = t) (JsString.eqb s t).
Proof.
  destruct (JsString.eqb s t) eqn:E; constructor.
  - apply string_eqb_eq, E.
  - intro K. apply string_eqb_eq in K. rewrite K in E. discriminate E.
Qed.

Lemma WorkflowState_eqb_eq (a b : WorkflowState) :
  WorkflowState_eqb a b = true <-> a = b.
Proof.
  destruct a, b; simpl; split; intro E; try reflexivity; discriminate E.
Qed.

Lemma WorkflowState_eqb_neq (a b : WorkflowState) :
  WorkflowState_eqb a b = false <-> a <> b.
Proof.
  destruct a, b; simpl; split; intro E; try reflexivity; try discriminate E;
    try (intro E'; discriminate E'); exfalso; apply E; reflexivity.
Qed.

Lemma isEmpty_true (s : string) : isEmpty s = true <-> s = "".
Proof.
  destruct s; simpl; split; intro E; try reflexivity; discriminate E.
Qed.

Lemma isEmpty_false (s : string) : isEmpty s = false <-> s <> "".
Proof.
  destruct s; simpl; split; intro E; try reflexivity; try discriminate E.
  - exfalso; apply E; reflexivity.
  - intro E'; discriminate E'.
Qed.

Lemma app_nil_inv {A : Type} (l l' : list A) : (l ++ l')%list = l -> l' = [].
Proof.
  intro E. apply (app_inv_head l). rewrite app_nil_r. exact E.
Qed.

(** ** The Sender's data listener *)

(** C9.  A line handed to the Sender's data listener is written to the
    transport, trimmed and followed by a newline, exactly when the
    connection is open, the workflow is running or paused and the trimmed
    line is not empty; when the workflow is idle, the connection is closed
    or the line trims to the empty string, nothing is written.  The
    listener changes nothing but the transport log. *)
Theorem sender_data_written_iff_streaming (line : string) (c : Controller) :
  (isOpen c = false \/ workflow c = WORKFLOW_STATE_IDLE \/ trim line = "" ->
   sender_on_data line c = c)
  /\ (written (sender_on_data line c) <> written c ->
      isOpen c = true
      /\ (workflow c = WORKFLOW_STATE_RUNNING \/ workflow c = WORKFLOW_STATE_PAUSED)
      /\ trim line <> "")
  /\ (isOpen c = true ->
      workflow c = WORKFLOW_STATE_RUNNING \/ workflow c = WORKFLOW_STATE_PAUSED ->
      trim line <> "" ->
      sender_on_data line c = connectionWrite (trim line ++ NL) c
      /\ written (sender_on_data line c) = (written c ++ [(trim line ++ NL)%js])%list).
Proof.
  unfold sender_on_data, isClose.
  destruct (isOpen c) eqn:Eo; simpl.
  - destruct (workflow c) eqn:Ew; simpl.
    + split; [reflexivity|]. split.
      * intro N. exfalso. apply N. reflexivity.
      * intros _ [E|E]; discriminate E.
    + destruct (isEmpty (trim line)) eqn:Ee.
      * apply isEmpty_true in Ee. split; [reflexivity|]. split.
        -- intro N. exfalso. apply N. reflexivity.
        -- intros _ _ N. exfalso. apply N. exact Ee.
      * apply isEmpty_false in Ee. split.
        -- intros [E|[E|E]]; [discriminate E|discriminate E|]. exfalso. apply Ee. exact E.
        -- split.
           ++ intros _. split; [reflexivity|]. split; [right; reflexivity|exact Ee].
           ++ intros _ _ _. split; reflexivity.
    + destruct (isEmpty (trim line)) eqn:Ee.
      * apply isEmpty_true in Ee. split; [reflexivity|]. split.
        -- intro N. exfalso. apply N. reflexivity.
        -- intros _ _ N. exfalso. apply N. exact Ee.
      * apply isEmpty_false in Ee. split.
        -- intros [E|[E|E]]; [discriminate E|discriminate E|]. exfalso. apply Ee. exact E.
        -- split.
           ++ intros _. split; [reflexivity|]. split; [left; reflexivity|exact Ee].
           ++ intros _ _ _. split; reflexivity.
  - split; [reflexivity|]. split.
    + intro N. exfalso. apply N. reflexivity.
    + intro E. discriminate E.
Qed.

(** ** Acknowledgements consumed by the parser-state query *)

(** C6.  An [ok] that arrives while the mask [queryParserState.reply] is
    set acknowledges a [$G] query: the raw line is surfaced once if
    [replyParserState] is set and not at all otherwise, both masks end up
    clear, and the Sender, the Feeder, the workflow and the transport are
    left as they were. *)
Theorem ok_consumed_by_parser_state_reply (now : Z) (raw : string) (c : Controller) :
  maskQueryParserStateReply (actionMask c) = true ->
  let c' := controller_on_ok now raw c in
  emitted c' =
    (emitted c ++ (if replyParserState (actionMask c) then [ConnectionRead raw] else []))%list
  /\ maskQueryParserStateReply (actionMask c') = false
  /\ replyParserState (actionMask c') = false
  /\ sender c' = sender c
  /\ feeder c' = feeder c
  /\ workflow c' = workflow c
  /\ written c' = written c.
Proof.
  intros M c'. subst c'. unfold controller_on_ok. rewrite M.
  destruct (replyParserState (actionMask c)) eqn:R; simpl.
  - repeat split; reflexivity.
  - rewrite app_nil_r, R. repeat split; reflexivity.
Qed.

(** C10.  A [parserstate] event sets the mask [queryParserState.reply]
    whatever the state of the controller: no [$G] query needs to be
    pending and the workflow may be running.  The next [ok] is then
    consumed by the mask and clears it, so the Sender and the Feeder are
    after the two events what they were before them. *)
Theorem parserstate_masks_next_ok (now : Z) (raw raw' : string) (c : Controller) :
  let c1 := controller_on_parserstate raw c in
  let c2 := controller_on_ok now raw' c1 in
  maskQueryParserStateReply (actionMask c1) = true
  /\ maskQueryParserStateState (actionMask c1) = false
  /\ sender c1 = sender c /\ feeder c1 = feeder c /\ workflow c1 = workflow c
  /\ sender c2 = sender c /\ feeder c2 = feeder c /\ workflow c2 = workflow c
  /\ written c2 = written c
  /\ maskQueryParserStateReply (actionMask c2) = false.
Proof.
  intros c1 c2.
  assert (M : maskQueryParserStateReply (actionMask c1) = true).
  { subst c1. unfold controller_on_parserstate. simpl.
    destruct (replyParserState (actionMask c)); reflexivity. }
  assert (F : sender c1 = sender c /\ feeder c1 = feeder c
              /\ workflow c1 = workflow c /\ written c1 = written c
              /\ maskQueryParserStateState (actionMask c1) = false).
  { subst c1. unfold controller_on_parserstate. simpl.
    destruct (replyParserState (actionMask c)); repeat split; reflexivity. }
  destruct F as (Fs & Ff & Fw & Fr & Fm).
  destruct (ok_consumed_by_parser_state_reply now raw' c1 M)
    as (_ & Mr & _ & Es & Ef & Ew & Er).
  fold c2 in Mr, Es, Ef, Ew, Er.
  repeat split; try assumption; congruence.
Qed.

(** ** Footprints

    Three nested footprints say what a family of operations leaves alone.
    Both logs only ever grow. *)

Lemma extends_refl {A : Type} (l : list A) : extends l l.
Proof. exists []. rewrite app_nil_r. reflexivity. Qed.

Lemma extends_trans {A : Type} (l1 l2 l3 : list A) :
  extends l1 l2 -> extends l2 l3 -> extends l1 l3.
Proof.
  intros [t1 E1] [t2 E2]. exists (t1 ++ t2)%list.
  rewrite E2, E1, app_assoc. reflexivity.
Qed.

Lemma extends_snoc {A : Type} (l : list A) (x : A) : extends l (l ++ [x])%list.
Proof. exists [x]. reflexivity. Qed.

Lemma streamFrame_refl (c : Controller) : streamFrame c c.
Proof.
  unfold streamFrame. repeat split; try reflexivity; apply extends_refl.
Qed.

Lemma streamFrame_trans (c1 c2 c3 : Controller) :
  streamFrame c1 c2 -> streamFrame c2 c3 -> streamFrame c1 c3.
Proof.
  unfold streamFrame.
  intros (A1 & A2 & A3 & A4 & A5 & A6 & A7 & A8 & A9 & A10 & A11 & A12 & A13)
         (B1 & B2 & B3 & B4 & B5 & B6 & B7 & B8 & B9 & B10 & B11 & B12 & B13).
  repeat split; try congruence; eapply extends_trans; eassumption.
Qed.

Lemma sendFrame_refl (c : Controller) : sendFrame c c.
Proof.
  unfold sendFrame. repeat split; try reflexivity; try apply Z.le_refl;
    apply streamFrame_refl.
Qed.

Lemma sendFrame_trans (c1 c2 c3 : Controller) :
  sendFrame c1 c2 -> sendFrame c2 c3 -> sendFrame c1 c3.
Proof.
  unfold sendFrame.
  intros (A0 & A1 & A2 & A3 & A4 & A5) (B0 & B1 & B2 & B3 & B4 & B5).
  split; [eapply streamFrame_trans; eassumption|].
  repeat split; try congruence. lia.
Qed.

Lemma feederFrame_refl (c : Controller) : feederFrame c c.
Proof.
  unfold feederFrame. repeat split; try reflexivity; apply streamFrame_refl.
Qed.

Lemma feederFrame_trans (c1 c2 c3 : Controller) :
  feederFrame c1 c2 -> feederFrame c2 c3 -> feederFrame c1 c3.
Proof.
  unfold feederFrame.
  intros (A0 & A1 & A2 & A3) (B0 & B1 & B2 & B3).
  split; [eapply streamFrame_trans; eassumption|].
  repeat split; congruence.
Qed.

(** Goals about one layer of field updates. *)
Ltac frame_fields :=
  unfold feederFrame, sendFrame, streamFrame; simpl;
  repeat split;
  first [ reflexivity | assumption | apply Z.le_refl | apply extends_refl
        | apply extends_snoc
        | (eapply extends_trans; [apply extends_snoc | apply extends_snoc])
        | lia ].

(** *** The Feeder *)

Lemma Feeder_hold_frame (r : option Reason) (c : Controller) :
  feederFrame c (Feeder_hold r c).
Proof. frame_fields. Qed.

Lemma Feeder_unhold_frame (c : Controller) : feederFrame c (Feeder_unhold c).
Proof. frame_fields. Qed.

Lemma Feeder_reset_frame (c : Controller) : feederFrame c (Feeder_reset c).
Proof. frame_fields. Qed.

Lemma Feeder_feed_frame (data : list string) (ctx : Ctx) (c : Controller) :
  feederFrame c (Feeder_feed data ctx c).
Proof. frame_fields. Qed.

Lemma setFeederPending_frame (b : bool) (c : Controller) :
  feederFrame c (setFeederPending b c).
Proof. frame_fields. Qed.

Lemma setFeederQueue_frame (q : list (string * Ctx)) (c : Controller) :
  feederFrame c (setFeederQueue q c).
Proof. frame_fields. Qed.

Lemma write_log_frame (data : string) (e : Emit) (c : Controller) :
  feederFrame c (connectionWrite data (emit e c)).
Proof. frame_fields. Qed.

Lemma emit_frame (e : Emit) (c : Controller) : feederFrame c (emit e c).
Proof. frame_fields. Qed.

Lemma feederDataFilter_frame (line : string) (ctx : Ctx) (c : Controller) :
  feederFrame c (snd (feederDataFilter line ctx c)).
Proof.
  unfold feederDataFilter.
  destruct (startsWithPercent (stripComment line)).
  - destruct (JsString.eqb (stripComment line) WAIT); apply feederFrame_refl.
  - cbv zeta. cbn [snd].
    set (words := parseLineWords _).
    eapply feederFrame_trans with
      (c2 := match programMode words with
             | Some m =>
                 if JsString.eqb m "M0" then Feeder_hold (Some (ReasonData "M0")) c
                 else if JsString.eqb m "M1" then Feeder_hold (Some (ReasonData "M1")) c
                 else c
             | None => c
             end).
    + destruct (programMode words) as [m|]; [|apply feederFrame_refl].
      destruct (JsString.eqb m "M0"); [apply Feeder_hold_frame|].
      destruct (JsString.eqb m "M1"); [apply Feeder_hold_frame|apply feederFrame_refl].
    + destruct (includes words "M6"); [apply Feeder_hold_frame|apply feederFrame_refl].
Qed.

Lemma feeder_on_data_frame (line : string) (ctx : Ctx) (c : Controller) :
  feederFrame c (feeder_on_data line ctx c).
Proof.
  unfold feeder_on_data.
  destruct (isClose c); [apply feederFrame_refl|].
  destruct (isAlarm (controllerState c)); [apply Feeder_reset_frame|].
  destruct (isEmpty (trim line)); [apply feederFrame_refl|apply write_log_frame].
Qed.

Lemma Feeder_next_frame (c : Controller) : feederFrame c (Feeder_next c).
Proof.
  unfold Feeder_next.
  destruct (feeder_hold (feeder c)); [apply feederFrame_refl|].
  destruct (feeder_queue (feeder c)) as [|[line ctx] q]; [apply setFeederPending_frame|].
  pose proof (feederDataFilter_frame line ctx (setFeederQueue q c)) as F.
  destruct (feederDataFilter line ctx (setFeederQueue q c)) as [[line' ctx'] c1].
  cbn [snd] in F.
  eapply feederFrame_trans; [apply setFeederQueue_frame|].
  eapply feederFrame_trans; [exact F|].
  eapply feederFrame_trans; [apply feeder_on_data_frame|].
  apply setFeederPending_frame.
Qed.

Lemma command_gcode_frame (commands : list string) (ctx : Ctx) (c : Controller) :
  feederFrame c (command_gcode commands ctx c).
Proof.
  unfold command_gcode.
  destruct (negb (Feeder_isPending _)).
  - eapply feederFrame_trans; [apply Feeder_feed_frame|apply Feeder_next_frame].
  - apply Feeder_feed_frame.
Qed.

Lemma trigger_frame (event : string) (c : Controller) :
  feederFrame c (trigger event c).
Proof.
  unfold trigger. generalize (eventHooks event). intro hooks. revert c.
  induction hooks as [|hook hooks IH]; intro c; simpl.
  - apply feederFrame_refl.
  - eapply feederFrame_trans; [|apply IH].
    destruct (JsString.eqb (fst hook) "system");
      [apply feederFrame_refl|apply command_gcode_frame].
Qed.

Lemma feederFrame_stream (c c' : Controller) : feederFrame c c' -> streamFrame c c'.
Proof. intros (F & _). exact F. Qed.

Lemma sendFrame_stream (c c' : Controller) : sendFrame c c' -> streamFrame c c'.
Proof. intros (F & _). exact F. Qed.

(** *** The Sender and the Workflow *)

Lemma Sender_hold_frame (r : option Reason) (c : Controller) :
  sendFrame c (Sender_hold r c).
Proof. frame_fields. Qed.

Lemma Sender_unhold_frame (c : Controller) : sendFrame c (Sender_unhold c).
Proof. frame_fields. Qed.

Lemma Sender_rewind_frame (c : Controller) : streamFrame c (Sender_rewind c).
Proof. frame_fields. Qed.

Lemma Sender_ack_frame (c : Controller) : streamFrame c (Sender_ack c).
Proof.
  unfold Sender_ack.
  destruct (received (sender c) <? sent (sender c)); [|apply streamFrame_refl].
  destruct (queue (sender c)); frame_fields.
Qed.

Lemma Workflow_pause_frame (r : option Reason) (c : Controller) :
  sendFrame c (Workflow_pause r c).
Proof.
  unfold Workflow_pause, workflow_on_pause.
  destruct (workflow c); try apply sendFrame_refl. frame_fields.
Qed.

Lemma Workflow_start_frame (c : Controller) : streamFrame c (Workflow_start c).
Proof.
  unfold Workflow_start, workflow_on_start.
  destruct (workflow c); try apply streamFrame_refl. frame_fields.
Qed.

Lemma Workflow_stop_frame (c : Controller) : streamFrame c (Workflow_stop c).
Proof.
  unfold Workflow_stop, workflow_on_stop.
  destruct (workflow c); try apply streamFrame_refl; frame_fields.
Qed.

Lemma senderDataFilter_frame (line : string) (c : Controller) :
  sendFrame c (snd (senderDataFilter line c)).
Proof.
  unfold senderDataFilter. cbv zeta.
  set (ctx := populateContext _ _).
  set (c0 := setSender (setSenderContext ctx (sender c)) c).
  assert (F0 : sendFrame c c0) by (subst c0; frame_fields).
  eapply sendFrame_trans; [exact F0|].
  destruct (startsWithPercent (stripComment line)).
  - destruct (JsString.eqb (stripComment line) WAIT); cbn [snd].
    + apply Sender_hold_frame.
    + frame_fields.
  - cbn [snd].
    set (words := parseLineWords _).
    eapply sendFrame_trans with
      (c2 := match programMode words with
             | Some m =>
                 if JsString.eqb m "M0" then Workflow_pause (Some (ReasonData "M0")) c0
                 else if JsString.eqb m "M1" then Workflow_pause (Some (ReasonData "M1")) c0
                 else c0
             | None => c0
             end).
    + destruct (programMode words) as [m|]; [|apply sendFrame_refl].
      destruct (JsString.eqb m "M0"); [apply Workflow_pause_frame|].
      destruct (JsString.eqb m "M1"); [apply Workflow_pause_frame|apply sendFrame_refl].
    + destruct (includes words "M6"); [apply Workflow_pause_frame|apply sendFrame_refl].
Qed.

Lemma sender_on_data_frame (line : string) (c : Controller) :
  sendFrame c (sender_on_data line c).
Proof.
  unfold sender_on_data.
  destruct (isClose c); [apply sendFrame_refl|].
  destruct (WorkflowState_eqb (workflow c) WORKFLOW_STATE_IDLE); [apply sendFrame_refl|].
  destruct (isEmpty (trim line)); [apply sendFrame_refl|frame_fields].
Qed.

Lemma Sender_process_frame (fuel : nat) (c : Controller) :
  sendFrame c (Sender_process fuel c).
Proof.
  revert c. induction fuel as [|fuel IH]; intro c; simpl.
  - apply sendFrame_refl.
  - destruct (sender_hold (sender c) || negb (sent (sender c) <? total (sender c)));
      [apply sendFrame_refl|].
    pose proof (senderDataFilter_frame (lineAt (lines (sender c)) (sent (sender c))) c) as F.
    destruct (senderDataFilter (lineAt (lines (sender c)) (sent (sender c))) c)
      as [line c1].
    cbn [snd] in F.
    destruct (isEmpty line).
    + eapply sendFrame_trans; [exact F|].
      eapply sendFrame_trans; [|apply IH]. frame_fields.
    + destruct ((dataLength (sender c1) + Z.of_nat (JsString.length line) + 1
                 <=? bufferSize (sender c1)) || queueIsEmpty (sender c1));
        [|apply sendFrame_refl].
      eapply sendFrame_trans; [exact F|].
      eapply sendFrame_trans; [|apply IH].
      eapply sendFrame_trans; [|apply sender_on_data_frame]. frame_fields.
Qed.

(** The fuel given to the send loop by [Sender_next] is enough: with
    [total - sent] rounds or more, one more round changes nothing. *)
Lemma senderDataFilter_sent (line : string) (c : Controller) :
  sent (sender (snd (senderDataFilter line c))) = sent (sender c).
Proof.
  assert (P : forall r k, sent (sender (Workflow_pause r k)) = sent (sender k)).
  { intros r k. unfold Workflow_pause. destruct (workflow k); reflexivity. }
  unfold senderDataFilter. cbv zeta.
  destruct (startsWithPercent (stripComment line)).
  - destruct (JsString.eqb (stripComment line) WAIT); reflexivity.
  - cbn [snd].
    destruct (programMode _) as [m|];
      [destruct (JsString.eqb m "M0"); [|destruct (JsString.eqb m "M1")]|];
      destruct (includes _ "M6"); rewrite ?P; reflexivity.
Qed.

Lemma sender_on_data_sender (line : string) (c : Controller) :
  sender (sender_on_data line c) = sender c.
Proof.
  unfold sender_on_data.
  destruct (isClose c); [reflexivity|].
  destruct (WorkflowState_eqb (workflow c) WORKFLOW_STATE_IDLE); [reflexivity|].
  destruct (isEmpty (trim line)); reflexivity.
Qed.

Lemma Sender_process_more_fuel (fuel : nat) (c : Controller) :
  total (sender c) - sent (sender c) <= Z.of_nat fuel ->
  Sender_process (S fuel) c = Sender_process fuel c.
Proof.
  revert c. induction fuel as [|fuel IH]; intros c L.
  - simpl. simpl in L.
    assert (E : (sent (sender c) <? total (sender c)) = false) by (apply Z.ltb_ge; lia).
    rewrite E, orb_true_r. reflexivity.
  - change (Sender_process (S (S fuel)) c) with
      (let s := sender c in
       if sender_hold s || negb (sent s <? total s) then c
       else
         let '(line, c1) := senderDataFilter (lineAt (lines s) (sent s)) c in
         let s1 := sender c1 in
         let len := Z.of_nat (JsString.length line) in
         if isEmpty line then
           Sender_process (S fuel)
             (setSender (setReceived (received s1 + 1) (setSent (sent s1 + 1) s1)) c1)
         else if (dataLength s1 + len + 1 <=? bufferSize s1) || queueIsEmpty s1 then
           let s2 :=
             setSent (sent s1 + 1)
               (setQueue (dataLength s1 + len)
                  (queue s1 ++ [mkQueueEntry (sent s1) len]) s1) in
           Sender_process (S fuel) (sender_on_data line (setSender s2 c1))
         else c).
    change (Sender_process (S fuel) c) with
      (let s := sender c in
       if sender_hold s || negb (sent s <? total s) then c
       else
         let '(line, c1) := senderDataFilter (lineAt (lines s) (sent s)) c in
         let s1 := sender c1 in
         let len := Z.of_nat (JsString.length line) in
         if isEmpty line then
           Sender_process fuel
             (setSender (setReceived (received s1 + 1) (setSent (sent s1 + 1) s1)) c1)
         else if (dataLength s1 + len + 1 <=? bufferSize s1) || queueIsEmpty s1 then
           let s2 :=
             setSent (sent s1 + 1)
               (setQueue (dataLength s1 + len)
                  (queue s1 ++ [mkQueueEntry (sent s1) len]) s1) in
           Sender_process fuel (sender_on_data line (setSender s2 c1))
         else c).
    cbv zeta.
    destruct (sender_hold (sender c) || negb (sent (sender c) <? total (sender c)));
      [reflexivity|].
    pose proof (senderDataFilter_frame (lineAt (lines (sender c)) (sent (sender c))) c) as F.
    pose proof (senderDataFilter_sent (lineAt (lines (sender c)) (sent (sender c))) c) as Sn.
    destruct (senderDataFilter (lineAt (lines (sender c)) (sent (sender c))) c)
      as [line c1].
    cbn [snd] in F, Sn. destruct F as (_ & _ & _ & _ & _ & Tt).
    destruct (isEmpty line).
    + apply IH. simpl. rewrite Tt, Sn. lia.
    + destruct ((dataLength (sender c1) + Z.of_nat (JsString.length line) + 1
                 <=? bufferSize (sender c1)) || queueIsEmpty (sender c1));
        [|reflexivity].
      apply IH. rewrite sender_on_data_sender. simpl. rewrite Tt, Sn. lia.
Qed.

Lemma Sender_process_enough (n m : nat) (c : Controller) :
  total (sender c) - sent (sender c) <= Z.of_nat n ->
  (n <= m)%nat ->
  Sender_process m c = Sender_process n c.
Proof.
  intros L Le. induction Le as [|m Le IH]; [reflexivity|].
  rewrite Sender_process_more_fuel; [exact IH|lia].
Qed.

Lemma Sender_start_frame (now : Z) (c : Controller) : sendFrame c (Sender_start now c).
Proof. frame_fields. Qed.

Lemma Sender_next_frame (now : Z) (c : Controller) : sendFrame c (Sender_next now c).
Proof.
  unfold Sender_next.
  destruct (negb (loaded (sender c))); [apply sendFrame_refl|].
  cbv zeta.
  set (c0 := if (sent (sender c) =? 0) && (0 <? total (sender c))
             then Sender_start now c else c).
  assert (F0 : sendFrame c c0).
  { subst c0. destruct ((sent (sender c) =? 0) && (0 <? total (sender c)));
      [apply Sender_start_frame|apply sendFrame_refl]. }
  set (c1 := Sender_process _ c0).
  assert (F1 : sendFrame c0 c1) by apply Sender_process_frame.
  eapply sendFrame_trans; [exact F0|].
  eapply sendFrame_trans; [exact F1|].
  destruct ((received (sender c1) =? total (sender c1)) && queueIsEmpty (sender c1)
            && (finishedAt (sender c1) =? 0));
    [frame_fields|apply sendFrame_refl].
Qed.

Lemma Workflow_resume_frame (now : Z) (c : Controller) :
  streamFrame c (Workflow_resume now c).
Proof.
  unfold Workflow_resume, workflow_on_resume.
  destruct (workflow c); try apply streamFrame_refl.
  eapply streamFrame_trans; [|apply sendFrame_stream, Sender_next_frame].
  frame_fields.
Qed.

(** The Sender and the Feeder loads and unloads. *)
Lemma Sender_load_frame (n text : string) (ctx : Ctx) (c : Controller) :
  streamFrame c (snd (Sender_load n text ctx c)).
Proof.
  unfold Sender_load. destruct (loadable n text); cbn [snd];
    [frame_fields|apply streamFrame_refl].
Qed.

Lemma Sender_unload_frame (c : Controller) : streamFrame c (Sender_unload c).
Proof. frame_fields. Qed.

(** ** Acknowledgements routed to the Sender *)

Lemma Sender_ack_received (c : Controller) :
  received (sender c) < sent (sender c) ->
  received (sender (Sender_ack c)) = received (sender c) + 1
  /\ queue (sender (Sender_ack c)) = tl (queue (sender c)).
Proof.
  intro L. unfold Sender_ack.
  apply Z.ltb_lt in L. rewrite L.
  destruct (queue (sender c)) eqn:Q; simpl; rewrite ?Q; split; reflexivity.
Qed.

Lemma Sender_ack_caught_up (c : Controller) :
  sent (sender c) <= received (sender c) -> Sender_ack c = c.
Proof.
  intro L. unfold Sender_ack.
  apply Z.ltb_ge in L. rewrite L. reflexivity.
Qed.

Lemma Sender_ack_keeps (c : Controller) :
  workflow (Sender_ack c) = workflow c
  /\ sender_hold (sender (Sender_ack c)) = sender_hold (sender c)
  /\ sender_holdReason (sender (Sender_ack c)) = sender_holdReason (sender c)
  /\ sent (sender (Sender_ack c)) = sent (sender c)
  /\ feeder (Sender_ack c) = feeder c.
Proof.
  unfold Sender_ack.
  destruct (received (sender c) <? sent (sender c)); [|repeat split; reflexivity].
  destruct (queue (sender c)); repeat split; reflexivity.
Qed.

Lemma Sender_next_received (now : Z) (c : Controller) :
  received (sender c) <= received (sender (Sender_next now c)).
Proof.
  destruct (Sender_next_frame now c) as (_ & _ & R & _). exact R.
Qed.

(** Under hold the send loop does nothing. *)
Lemma Sender_process_hold (fuel : nat) (c : Controller) :
  sender_hold (sender c) = true -> Sender_process fuel c = c.
Proof.
  intro E. destruct fuel as [|fuel]; simpl; [reflexivity|].
  rewrite E. reflexivity.
Qed.

Lemma Sender_next_hold (now : Z) (c : Controller) :
  sender_hold (sender c) = true ->
  workflow (Sender_next now c) = workflow c
  /\ sender_hold (sender (Sender_next now c)) = true
  /\ sent (sender (Sender_next now c)) = sent (sender c)
  /\ written (Sender_next now c) = written c
  /\ emitted (Sender_next now c) = emitted c.
Proof.
  intro E. unfold Sender_next.
  destruct (negb (loaded (sender c))); [repeat split; try reflexivity; exact E|].
  cbv zeta.
  set (c0 := if (sent (sender c) =? 0) && (0 <? total (sender c))
             then Sender_start now c else c).
  assert (K : workflow c0 = workflow c /\ sender_hold (sender c0) = true
              /\ sent (sender c0) = sent (sender c)
              /\ written c0 = written c /\ emitted c0 = emitted c).
  { subst c0. destruct ((sent (sender c) =? 0) && (0 <? total (sender c)));
      simpl; repeat split; try reflexivity; exact E. }
  destruct K as (K1 & K2 & K3 & K4 & K5).
  rewrite (Sender_process_hold _ c0 K2).
  destruct ((received (sender c0) =? total (sender c0)) && queueIsEmpty (sender c0)
            && (finishedAt (sender c0) =? 0)); simpl; repeat split; assumption.
Qed.

(** ** The attempt to send the next line *)

Lemma senderDataFilter_received (line : string) (c : Controller) :
  received (sender (snd (senderDataFilter line c))) = received (sender c).
Proof.
  assert (P : forall r k, received (sender (Workflow_pause r k)) = received (sender k)).
  { intros r k. unfold Workflow_pause. destruct (workflow k); reflexivity. }
  unfold senderDataFilter. cbv zeta.
  destruct (startsWithPercent (stripComment line)).
  - destruct (JsString.eqb (stripComment line) WAIT); reflexivity.
  - cbn [snd].
    destruct (programMode _) as [m|];
      [destruct (JsString.eqb m "M0"); [|destruct (JsString.eqb m "M1")]|];
      destruct (includes _ "M6"); rewrite ?P; reflexivity.
Qed.

Lemma senderDataFilter_written (line : string) (c : Controller) :
  written (snd (senderDataFilter line c)) = written c.
Proof.
  assert (P : forall r k, written (Workflow_pause r k) = written k).
  { intros r k. unfold Workflow_pause. destruct (workflow k); reflexivity. }
  unfold senderDataFilter. cbv zeta.
  destruct (startsWithPercent (stripComment line)).
  - destruct (JsString.eqb (stripComment line) WAIT); reflexivity.
  - cbn [snd].
    destruct (programMode _) as [m|];
      [destruct (JsString.eqb m "M0"); [|destruct (JsString.eqb m "M1")]|];
      destruct (includes _ "M6"); rewrite ?P; reflexivity.
Qed.

Lemma sender_on_data_written (line : string) (c : Controller) :
  written (sender_on_data line c) =
    (written c
     ++ if isOpen c && negb (WorkflowState_eqb (workflow c) WORKFLOW_STATE_IDLE)
           && negb (isEmpty (trim line))
        then [(trim line ++ NL)%js] else [])%list.
Proof.
  unfold sender_on_data, isClose.
  destruct (isOpen c); simpl; [|rewrite app_nil_r; reflexivity].
  destruct (WorkflowState_eqb (workflow c) WORKFLOW_STATE_IDLE); simpl;
    [rewrite app_nil_r; reflexivity|].
  destruct (isEmpty (trim line)); simpl; [rewrite app_nil_r; reflexivity|reflexivity].
Qed.

Lemma Sender_process_sent (fuel : nat) (c : Controller) :
  sent (sender c) <= sent (sender (Sender_process fuel c)).
Proof.
  revert c. induction fuel as [|fuel IH]; intro c; simpl; [lia|].
  destruct (sender_hold (sender c) || negb (sent (sender c) <? total (sender c))); [lia|].
  pose proof (senderDataFilter_sent (lineAt (lines (sender c)) (sent (sender c))) c) as Sn.
  destruct (senderDataFilter (lineAt (lines (sender c)) (sent (sender c))) c) as [line c1].
  cbn [snd] in Sn.
  destruct (isEmpty line).
  - match goal with |- _ <= sent (sender (Sender_process fuel ?x)) =>
      pose proof (IH x) as K end.
    simpl in K. lia.
  - destruct ((dataLength (sender c1) + Z.of_nat (JsString.length line) + 1
               <=? bufferSize (sender c1)) || queueIsEmpty (sender c1)); [|lia].
    match goal with |- _ <= sent (sender (Sender_process fuel ?x)) =>
      pose proof (IH x) as K end.
    rewrite sender_on_data_sender in K. simpl in K. lia.
Qed.

(** What [next()] does after its send loop: the report of the end. *)
Lemma Sender_end_keeps (now : Z) (c : Controller) :
  let s := sender c in
  let c' := if (received s =? total s) && queueIsEmpty s && (finishedAt s =? 0)
            then sender_on_end now (setSender (setTimes (startedAt s) now s) c)
            else c in
  written c' = written c
  /\ sent (sender c') = sent (sender c)
  /\ received (sender c') = received (sender c).
Proof.
  cbv zeta.
  destruct ((received (sender c) =? total (sender c)) && queueIsEmpty (sender c)
            && (finishedAt (sender c) =? 0)); repeat split; reflexivity.
Qed.

Lemma Sender_entry_keeps (now : Z) (c : Controller) :
  sender_hold (sender (Sender_entry now c)) = sender_hold (sender c)
  /\ sent (sender (Sender_entry now c)) = sent (sender c)
  /\ received (sender (Sender_entry now c)) = received (sender c)
  /\ total (sender (Sender_entry now c)) = total (sender c)
  /\ lines (sender (Sender_entry now c)) = lines (sender c)
  /\ written (Sender_entry now c) = written c
  /\ isOpen (Sender_entry now c) = isOpen c.
Proof.
  unfold Sender_entry.
  destruct ((sent (sender c) =? 0) && (0 <? total (sender c))); repeat split; reflexivity.
Qed.

Lemma Sender_next_attempted (now : Z) (k : Controller) :
  Sender_attempted now k (Sender_next now k).
Proof.
  unfold Sender_attempted, Sender_head, Sender_next. cbv zeta.
  fold (Sender_entry now k).
  destruct (Sender_entry_keeps now k) as (Eh & Es & Er & Et & El & Ew & Eo).
  set (k0 := Sender_entry now k) in *.
  set (fuel := Z.to_nat (total (sender k0) - sent (sender k0))).
  pose proof (Sender_end_keeps now (Sender_process fuel k0)) as T. cbv zeta in T.
  destruct T as (Tw & Ts & Tr).
  split.
  - intros [L|[Hd|Tt]].
    + rewrite L. simpl. repeat split; reflexivity.
    + destruct (negb (loaded (sender k))); [repeat split; reflexivity|].
      rewrite Tw, Ts, Tr, (Sender_process_hold fuel k0); [|rewrite Eh; exact Hd].
      repeat split; assumption.
    + destruct (negb (loaded (sender k))); [repeat split; reflexivity|].
      assert (F : fuel = O) by (subst fuel; rewrite Et, Es; lia).
      rewrite Tw, Ts, Tr, F. simpl. repeat split; assumption.
  - intros L Hd Lt. rewrite L. cbn [negb].
    rewrite Tw, Ts, Tr.
    assert (F : exists n, fuel = S n).
    { subst fuel. rewrite Et, Es.
      destruct (Z.to_nat (total (sender k) - sent (sender k))) as [|n] eqn:E; [lia|].
      exists n. reflexivity. }
    destruct F as (n & F). rewrite F.
    assert (G : sender_hold (sender k0) || negb (sent (sender k0) <? total (sender k0))
                = false).
    { rewrite Eh, Hd, Es, Et. simpl. apply negb_false_iff, Z.ltb_lt. exact Lt. }
    cbn [Sender_process]. cbv zeta. rewrite G, El, Es.
    pose proof (senderDataFilter_frame (lineAt (lines (sender k)) (sent (sender k))) k0) as Fr.
    pose proof (senderDataFilter_sent (lineAt (lines (sender k)) (sent (sender k))) k0) as Fs.
    pose proof (senderDataFilter_received (lineAt (lines (sender k)) (sent (sender k))) k0)
      as Fv.
    pose proof (senderDataFilter_written (lineAt (lines (sender k)) (sent (sender k))) k0)
      as Fw.
    destruct (senderDataFilter (lineAt (lines (sender k)) (sent (sender k))) k0)
      as [line k1].
    cbn [fst snd] in *.
    destruct Fr as ((Fo & _) & _).
    split; [|split].
    + intro E. rewrite E.
      match goal with |- _ <= sent (sender (Sender_process n ?x)) /\ _ =>
        pose proof (Sender_process_sent n x) as K1;
        destruct (Sender_process_frame n x) as (_ & _ & K2 & _) end.
      simpl in K1, K2. lia.
    + intros E Nf. rewrite E. unfold Sender_fits in Nf. rewrite Nf.
      repeat split; assumption.
    + intros E Ft. rewrite E. unfold Sender_fits in Ft. rewrite Ft.
      match goal with |- _ <= sent (sender (Sender_process n ?x)) /\ _ =>
        pose proof (Sender_process_sent n x) as K1;
        destruct (Sender_process_frame n x)
          as ((_ & _ & _ & _ & _ & _ & _ & _ & _ & _ & _ & [rest K2] & _) & _) end.
      rewrite sender_on_data_sender in K1. simpl in K1.
      split; [lia|].
      exists rest. rewrite K2, sender_on_data_written. simpl.
      rewrite Fw, Ew, Fo, Eo, <- app_assoc. reflexivity.
Qed.

Lemma Sender_next_hold_received (now : Z) (c : Controller) :
  sender_hold (sender c) = true ->
  received (sender (Sender_next now c)) = received (sender c).
Proof.
  intro Hd. destruct (Sender_next_attempted now c) as (A & _).
  apply A. right. left. exact Hd.
Qed.

(** C2.  An [ok] that is not consumed by the parser-state query goes to
    the Sender while it has lines to acknowledge.  Workflow running: a hold
    is cleared first when the Sender is holding and [received + 1 >= sent];
    then comes one [ack()], which acknowledges exactly one line as long as
    [received < sent] ([received] grows by one and the head of the queue
    leaves) and nothing once [received = sent]; then one [next()], the
    attempt to send the next line ([Sender_attempted]), after which
    [received] is no less.  Workflow paused: the same [ack()] and [next()],
    without the release of the hold, as long as [received < sent]; once
    [received = sent] the event no longer touches the Sender nor the
    workflow. *)
Theorem ok_acknowledges_one_line (now : Z) (raw : string) (c : Controller) :
  maskQueryParserStateReply (actionMask c) = false ->
  let hold := sender_hold (sender c) in
  let nsent := sent (sender c) in
  let nreceived := received (sender c) in
  let c' := controller_on_ok now raw c in
  (workflow c = WORKFLOW_STATE_RUNNING ->
   let c1 := if hold && (nreceived + 1 >=? nsent) then Sender_unhold c else c in
   let c2 := Sender_ack c1 in
   c' = Sender_next now c2
   /\ (hold = true -> nreceived + 1 >= nsent -> sender_hold (sender c1) = false)
   /\ (nreceived < nsent ->
       received (sender c2) = nreceived + 1
       /\ queue (sender c2) = tl (queue (sender c))
       /\ nreceived + 1 <= received (sender c'))
   /\ (nsent <= nreceived -> c2 = c1 /\ nreceived <= received (sender c'))
   /\ Sender_attempted now c2 c')
  /\ (workflow c = WORKFLOW_STATE_PAUSED ->
      (nreceived < nsent ->
       c' = Sender_next now (Sender_ack c)
       /\ received (sender (Sender_ack c)) = nreceived + 1
       /\ queue (sender (Sender_ack c)) = tl (queue (sender c))
       /\ nreceived + 1 <= received (sender c')
       /\ Sender_attempted now (Sender_ack c) c')
      /\ (nsent <= nreceived -> sender c' = sender c /\ workflow c' = workflow c)).
Proof.
  intros M hold nsent nreceived c'.
  subst c'. unfold controller_on_ok. rewrite M. fold hold nsent nreceived.
  split; intro W; rewrite W; simpl.
  - set (c1 := if hold && (nreceived + 1 >=? nsent) then Sender_unhold c else c).
    assert (E : sender c1 = setSenderHold (sender_hold (sender c1))
                              (sender_holdReason (sender c)) (sender c)).
    { subst c1. destruct (hold && (nreceived + 1 >=? nsent)); simpl.
      - reflexivity.
      - destruct (sender c); reflexivity. }
    assert (Er : received (sender c1) = nreceived) by (rewrite E; reflexivity).
    assert (Es : sent (sender c1) = nsent) by (rewrite E; reflexivity).
    assert (Eq : queue (sender c1) = queue (sender c)) by (rewrite E; reflexivity).
    pose proof (Sender_next_received now (Sender_ack c1)) as Mn.
    split; [reflexivity|]. split; [|split; [|split]].
    + intros Hh Hr. subst c1. rewrite Hh. simpl.
      apply Z.ge_le, Z.geb_le in Hr. rewrite Hr. reflexivity.
    + intro L.
      destruct (Sender_ack_received c1) as (A1 & A2); [rewrite Er, Es; exact L|].
      rewrite A1 in Mn. rewrite A1, A2, Er, Eq.
      split; [reflexivity|]. split; [reflexivity|]. rewrite Er in Mn. exact Mn.
    + intro L.
      assert (A : Sender_ack c1 = c1) by (apply Sender_ack_caught_up; rewrite Er, Es; exact L).
      split; [exact A|]. rewrite A in Mn |- *. rewrite Er in Mn. exact Mn.
    + apply Sender_next_attempted.
  - split.
    + intro L. pose proof L as L'. apply Z.ltb_lt in L'. rewrite L'.
      destruct (Sender_ack_received c L) as (A1 & A2).
      pose proof (Sender_next_received now (Sender_ack c)) as Mn.
      rewrite A1 in Mn. rewrite A1, A2.
      split; [reflexivity|]. split; [reflexivity|]. split; [reflexivity|].
      split; [exact Mn|apply Sender_next_attempted].
    + intro L. pose proof L as L'. apply Z.ltb_ge in L'. rewrite L'.
      destruct (Feeder_next_frame (emit (ConnectionRead raw) c)) as (_ & Fs & Fw & _).
      rewrite Fs, Fw. simpl. split; [reflexivity|exact W].
Qed.

(** ** Errors reported by the machine *)

Lemma Workflow_pause_running (r : option Reason) (c : Controller) :
  workflow c = WORKFLOW_STATE_RUNNING ->
  workflow (Workflow_pause r c) = WORKFLOW_STATE_PAUSED
  /\ sender_hold (sender (Workflow_pause r c)) = true
  /\ sender_holdReason (sender (Workflow_pause r c)) = r
  /\ emitted (Workflow_pause r c)
     = (emitted c ++ [WorkflowStateChange WORKFLOW_STATE_PAUSED])%list.
Proof.
  intro W. unfold Workflow_pause. rewrite W. repeat split; reflexivity.
Qed.

(** C4.  An [error] while the workflow is running: the sessions get the
    annotated echo [> <line> (line=<n>)] of the line at index [received],
    with [n = received + 1], and right after it the raw error; if
    [ignoreErrors] is false the workflow is paused with the reason
    [{ err: raw }], which holds the Sender; in both cases the Sender then
    gets one [ack()], by which [received] grows by one while
    [received < sent], and one [next()], the attempt to send the next line
    ([Sender_attempted]), which under the hold of the pause writes nothing
    and leaves the counters alone.  When the workflow is not running the
    raw error is surfaced and the Feeder's [next()] is called; the Sender
    is not touched. *)
Theorem error_echoed_then_acknowledged (now : Z) (raw : string) (c : Controller) :
  let n := received (sender c) in
  let echo :=
    ("> " ++ trim (lineAt (lines (sender c)) n)
          ++ " (line=" ++ numberToString (n + 1) ++ ")")%js in
  let c1 := emit (ConnectionRead raw) (emit (ConnectionRead echo) c) in
  let c2 := if ignoreErrors then c1 else Workflow_pause (Some (ReasonErr raw)) c1 in
  let c' := controller_on_error now raw c in
  (workflow c = WORKFLOW_STATE_RUNNING ->
   c' = Sender_next now (Sender_ack c2)
   /\ (exists rest,
         emitted c' = (emitted c ++ [ConnectionRead echo; ConnectionRead raw] ++ rest)%list)
   /\ (ignoreErrors = false ->
       workflow c' = WORKFLOW_STATE_PAUSED
       /\ sender_hold (sender c') = true
       /\ sender_holdReason (sender c2) = Some (ReasonErr raw)
       /\ emitted c' =
          (emitted c ++ [ConnectionRead echo; ConnectionRead raw;
                         WorkflowStateChange WORKFLOW_STATE_PAUSED])%list
       /\ written c' = written c
       /\ sent (sender c') = sent (sender c)
       /\ received (sender c') = received (sender (Sender_ack c2)))
   /\ (ignoreErrors = true -> c2 = c1)
   /\ (n < sent (sender c) ->
       received (sender (Sender_ack c2)) = n + 1
       /\ queue (sender (Sender_ack c2)) = tl (queue (sender c))
       /\ n + 1 <= received (sender c'))
   /\ (sent (sender c) <= n -> Sender_ack c2 = c2)
   /\ Sender_attempted now (Sender_ack c2) c')
  /\ (workflow c <> WORKFLOW_STATE_RUNNING ->
      c' = Feeder_next (emit (ConnectionRead raw) c)
      /\ sender c' = sender c
      /\ exists rest, emitted c' = (emitted c ++ [ConnectionRead raw] ++ rest)%list).
Proof.
  intros n echo c1 c2 c'. split; intro W.
  - assert (E : c' = Sender_next now (Sender_ack c2)).
    { subst c' c2 c1 echo n. unfold controller_on_error, errorEcho.
      rewrite W. simpl. destruct ignoreErrors; reflexivity. }
    assert (W1 : workflow c1 = WORKFLOW_STATE_RUNNING) by exact W.
    assert (F12 : sendFrame c1 c2).
    { subst c2. destruct ignoreErrors; [apply sendFrame_refl|apply Workflow_pause_frame]. }
    assert (S12 : sent (sender c2) = sent (sender c)
                  /\ received (sender c2) = n
                  /\ queue (sender c2) = queue (sender c)
                  /\ written c2 = written c).
    { subst c2. destruct ignoreErrors; [repeat split; reflexivity|].
      unfold Workflow_pause. rewrite W1. repeat split; reflexivity. }
    destruct S12 as (S12 & R12 & Q12 & W12).
    assert (Ea : emitted (Sender_ack c2) = emitted c2 /\ written (Sender_ack c2) = written c2).
    { unfold Sender_ack. destruct (received (sender c2) <? sent (sender c2));
        [|split; reflexivity].
      destruct (queue (sender c2)); split; reflexivity. }
    destruct Ea as (Ea & Ew).
    split; [exact E|]. split; [|split; [|split; [|split; [|split]]]].
    + pose proof (streamFrame_trans _ _ _ (sendFrame_stream _ _ F12)
                    (streamFrame_trans _ _ _ (Sender_ack_frame c2)
                       (sendFrame_stream _ _ (Sender_next_frame now (Sender_ack c2))))) as F.
      rewrite <- E in F.
      destruct F as (_ & _ & _ & _ & _ & _ & _ & _ & _ & _ & _ & _ & [rest Er]).
      exists rest. rewrite Er. subst c1. simpl. rewrite <- !app_assoc. reflexivity.
    + intro I.
      assert (E2 : c2 = Workflow_pause (Some (ReasonErr raw)) c1).
      { subst c2. rewrite I. reflexivity. }
      destruct (Workflow_pause_running (Some (ReasonErr raw)) c1 W1) as (P1 & P2 & P3 & P4).
      rewrite <- E2 in P1, P2, P3, P4.
      destruct (Sender_ack_keeps c2) as (K1 & K2 & _ & K4 & _).
      destruct (Sender_next_hold now (Sender_ack c2)) as (N1 & N2 & N3 & N4 & N5);
        [rewrite K2; exact P2|].
      pose proof (Sender_next_hold_received now (Sender_ack c2)) as N6.
      rewrite E, N1, N2, N3, N4, N5, K1, K4, P1, Ea, Ew, P4, W12, S12.
      split; [reflexivity|]. split; [reflexivity|]. split; [exact P3|].
      split; [subst c1; simpl; rewrite <- !app_assoc; reflexivity|].
      split; [reflexivity|]. split; [reflexivity|].
      apply N6. rewrite K2. exact P2.
    + intro I. subst c2. rewrite I. reflexivity.
    + intro L.
      destruct (Sender_ack_received c2) as (A1 & A2); [rewrite R12, S12; exact L|].
      pose proof (Sender_next_received now (Sender_ack c2)) as Mn.
      rewrite A1, R12 in Mn. rewrite A1, A2, R12, Q12, E.
      split; [reflexivity|]. split; [reflexivity|exact Mn].
    + intro L. apply Sender_ack_caught_up. rewrite R12, S12. exact L.
    + rewrite E. apply Sender_next_attempted.
  - assert (E : c' = Feeder_next (emit (ConnectionRead raw) c)).
    { subst c'. unfold controller_on_error.
      apply WorkflowState_eqb_neq in W. rewrite W. reflexivity. }
    split; [exact E|].
    destruct (Feeder_next_frame (emit (ConnectionRead raw) c)) as (Fst & Fs & _).
    rewrite <- E in Fst, Fs. split; [exact Fs|].
    destruct Fst as (_ & _ & _ & _ & _ & _ & _ & _ & _ & _ & _ & _ & [rest Er]).
    exists rest. rewrite Er. simpl. rewrite <- app_assoc. reflexivity.
Qed.

(** ** The Sender's buffer size *)

Lemma quietFrame_refl (c : Controller) : quietFrame c c.
Proof. split; reflexivity. Qed.

Lemma quietFrame_trans (c1 c2 c3 : Controller) :
  quietFrame c1 c2 -> quietFrame c2 c3 -> quietFrame c1 c3.
Proof. intros (A1 & A2) (B1 & B2). split; congruence. Qed.

Lemma streamFrame_quiet (c c' : Controller) : streamFrame c c' -> quietFrame c c'.
Proof.
  intros (_ & _ & _ & _ & _ & _ & _ & _ & _ & T & B & _). split; assumption.
Qed.

Lemma sendFrame_quiet (c c' : Controller) : sendFrame c c' -> quietFrame c c'.
Proof. intro F. apply streamFrame_quiet, sendFrame_stream, F. Qed.

Lemma feederFrame_quiet (c c' : Controller) : feederFrame c c' -> quietFrame c c'.
Proof. intro F. apply streamFrame_quiet, feederFrame_stream, F. Qed.

Lemma write_quiet (data : string) (c : Controller) : quietFrame c (write data c).
Proof.
  unfold write. destruct (isClose c); [apply quietFrame_refl|split; reflexivity].
Qed.

Lemma writeln_quiet (data : string) (c : Controller) : quietFrame c (writeln data c).
Proof.
  unfold writeln. destruct (includes SMOOTHIE_REALTIME_COMMANDS data); apply write_quiet.
Qed.

(** One operation applied to a controller, recognised by its head. *)
Ltac quiet_op :=
  lazymatch goal with
  | |- quietFrame _ (write _ _) => apply write_quiet
  | |- quietFrame _ (writeln _ _) => apply writeln_quiet
  | |- quietFrame _ (trigger _ _) => apply feederFrame_quiet, trigger_frame
  | |- quietFrame _ (command_gcode _ _ _) => apply feederFrame_quiet, command_gcode_frame
  | |- quietFrame _ (Feeder_next _) => apply feederFrame_quiet, Feeder_next_frame
  | |- quietFrame _ (Feeder_reset _) => apply feederFrame_quiet, Feeder_reset_frame
  | |- quietFrame _ (Feeder_unhold _) => apply feederFrame_quiet, Feeder_unhold_frame
  | |- quietFrame _ (emit _ _) => apply feederFrame_quiet, emit_frame
  | |- quietFrame _ (Sender_next _ _) => apply sendFrame_quiet, Sender_next_frame
  | |- quietFrame _ (Workflow_pause _ _) => apply sendFrame_quiet, Workflow_pause_frame
  | |- quietFrame _ (Sender_unhold _) => apply sendFrame_quiet, Sender_unhold_frame
  | |- quietFrame _ (Workflow_stop _) => apply streamFrame_quiet, Workflow_stop_frame
  | |- quietFrame _ (Workflow_start _) => apply streamFrame_quiet, Workflow_start_frame
  | |- quietFrame _ (Workflow_resume _ _) => apply streamFrame_quiet, Workflow_resume_frame
  | |- quietFrame _ (Sender_unload _) => apply streamFrame_quiet, Sender_unload_frame
  | |- quietFrame _ (Sender_ack _) => apply streamFrame_quiet, Sender_ack_frame
  end.

(** A chain of operations, peeled from the outside. *)
Ltac quiet_chain :=
  lazymatch goal with
  | |- quietFrame ?c ?c => apply quietFrame_refl
  | |- _ => eapply quietFrame_trans; [|solve [quiet_op]]; quiet_chain
  end.

Lemma command_quiet (now : Z) (cmd : Command) (c : Controller) :
  quietFrame c (command now cmd c).
Proof.
  destruct cmd; unfold command; try solve [quiet_chain].
  - match goal with
    | |- context [Sender_load ?n ?t ?x ?k] =>
        pose proof (Sender_load_frame n t x k) as F;
        destruct (Sender_load n t x k) as [ok c1]
    end.
    cbn [snd] in F. apply streamFrame_quiet in F.
    destruct ok; simpl; [|exact F].
    eapply quietFrame_trans; [exact F|]. quiet_chain.
  - cbv zeta.
    match goal with |- context [if ?b then _ else _] => destruct b end; quiet_chain.
  - destruct (WorkflowState_eqb (workflow c) WORKFLOW_STATE_RUNNING); quiet_chain.
  - eapply quietFrame_trans; [apply feederFrame_quiet, command_gcode_frame|].
    split; reflexivity.
  - eapply quietFrame_trans; [apply feederFrame_quiet, command_gcode_frame|].
    split; reflexivity.
Qed.

Lemma controller_on_ok_quiet (now : Z) (raw : string) (c : Controller) :
  quietFrame c (controller_on_ok now raw c).
Proof.
  unfold controller_on_ok.
  destruct (maskQueryParserStateReply (actionMask c)).
  - destruct (replyParserState (actionMask c)); split; reflexivity.
  - cbv zeta.
    destruct (WorkflowState_eqb (workflow c) WORKFLOW_STATE_RUNNING).
    + match goal with |- context [if ?b then _ else _] => destruct b end; quiet_chain.
    + match goal with |- context [if ?b then _ else _] => destruct b end; quiet_chain.
Qed.

Lemma controller_on_error_quiet (now : Z) (raw : string) (c : Controller) :
  quietFrame c (controller_on_error now raw c).
Proof.
  unfold controller_on_error.
  destruct (WorkflowState_eqb (workflow c) WORKFLOW_STATE_RUNNING).
  - cbv zeta. destruct (negb ignoreErrors); quiet_chain.
  - quiet_chain.
Qed.

Lemma open_quiet (now : Z) (ok : bool) (c : Controller) : quietFrame c (open now ok c).
Proof.
  unfold open.
  destruct (isOpen c); [apply quietFrame_refl|].
  destruct ok; simpl; [|split; reflexivity].
  set (c1 := emit ConnectionOpen (setIsOpen true c)).
  assert (F1 : quietFrame c c1) by (split; reflexivity).
  set (c2 := Workflow_stop c1).
  assert (F2 : quietFrame c1 c2) by (subst c2; quiet_chain).
  eapply quietFrame_trans; [exact F1|].
  eapply quietFrame_trans; [exact F2|].
  assert (F3 : quietFrame c2 (clearActionValues c2)) by (split; reflexivity).
  eapply quietFrame_trans; [exact F3|].
  unfold sendInitCommands.
  match goal with |- context [if loaded ?s then _ else _] => destruct (loaded s) end;
    simpl; match goal with |- context [if ?b then _ else _] => destruct b end;
    apply quietFrame_refl.
Qed.

Lemma sendInitCommands_quiet (i : nat) (c : Controller) :
  quietFrame c (sendInitCommands i c).
Proof.
  unfold sendInitCommands.
  destruct (isClose c); [apply quietFrame_refl|].
  destruct i as [|[|i]]; split; reflexivity.
Qed.

Lemma queryStatusReport_quiet (now : Z) (c : Controller) :
  quietFrame c (queryStatusReport now c).
Proof.
  unfold queryStatusReport.
  destruct (ready c); simpl; [|apply quietFrame_refl].
  destruct (timeQueryStatusReport (actionTime c) >? 0);
    [destruct (Z.abs (now - timeQueryStatusReport (actionTime c)) >=? 5000)|];
    simpl;
    repeat match goal with |- context [if ?b then _ else _] => destruct b end;
    split; reflexivity.
Qed.

Lemma queryParserStateBody_bufferSize (now : Z) (c : Controller) :
  bufferSize (sender (queryParserStateBody now c)) = bufferSize (sender c).
Proof.
  unfold queryParserStateBody.
  destruct (ready c); simpl; [|reflexivity].
  destruct (WorkflowState_eqb (workflow c) WORKFLOW_STATE_IDLE && isIdle (controllerState c));
    [destruct (timeQueryParserState (actionTime c) >? 0);
     [destruct (Z.abs (now - timeQueryParserState (actionTime c)) >=? 10000)|]|];
    simpl;
    repeat match goal with |- context [if ?b then _ else _] => destruct b end;
    reflexivity.
Qed.

Lemma queryParserState_bufferSize (now : Z) (c : Controller) :
  bufferSize (sender (queryParserState now c)) = bufferSize (sender c).
Proof.
  unfold queryParserState, invoke.
  destruct (throttleElapsed now (throttle c)); [|reflexivity].
  rewrite queryParserStateBody_bufferSize. reflexivity.
Qed.

Lemma throttleTimer_bufferSize (now : Z) (c : Controller) :
  bufferSize (sender (throttleTimer now c)) = bufferSize (sender c).
Proof.
  unfold throttleTimer, invoke.
  destruct (trailingPending (throttle c) && throttleElapsed now (throttle c)); [|reflexivity].
  rewrite queryParserStateBody_bufferSize. reflexivity.
Qed.

Lemma tick_bufferSize (now : Z) (c : Controller) :
  bufferSize (sender (tick now c)) = bufferSize (sender c).
Proof.
  unfold tick.
  destruct (isClose c); [reflexivity|]. cbv zeta.
  set (c1 := if negb (settingsSynced c) then _ else c).
  assert (E1 : bufferSize (sender c1) = bufferSize (sender c))
    by (subst c1; destruct (negb (settingsSynced c)); reflexivity).
  set (c2 := if negb (stateSynced c1) then _ else c1).
  assert (E2 : bufferSize (sender c2) = bufferSize (sender c1))
    by (subst c2; destruct (negb (stateSynced c1)); reflexivity).
  destruct (ready c2); simpl; [|congruence].
  set (c3 := queryStatusReport now c2).
  assert (E3 : bufferSize (sender c3) = bufferSize (sender c2))
    by (subst c3; apply queryStatusReport_quiet).
  set (c4 := queryParserState now c3).
  assert (E4 : bufferSize (sender c4) = bufferSize (sender c3))
    by (subst c4; apply queryParserState_bufferSize).
  destruct (senderFinishTime (actionTime c4) >? 0); [|congruence].
  match goal with |- context [if negb ?b then _ else _] => destruct b end; simpl.
  - destruct (Z.abs (now - senderFinishTime (actionTime c4)) >? 500); [|congruence].
    destruct (command_quiet now CmdSenderStop (setSenderFinishTime 0 c4)) as (_ & B).
    simpl in B. simpl. rewrite B. congruence.
  - congruence.
Qed.

(** The status listener is the one place where the buffer size is
    assigned. *)
Lemma controller_on_status_bufferSize (raw : string) (buf_rx : option Z) (c : Controller) :
  bufferSize (sender (controller_on_status raw buf_rx c)) =
    if (rxOf buf_rx >? 0)
       && WorkflowState_eqb (workflow c) WORKFLOW_STATE_IDLE
       && (dataLength (sender c) =? 0)
    then Z.max (bufferSize (sender c)) (rxOf buf_rx - 8)
    else bufferSize (sender c).
Proof.
  unfold controller_on_status. cbv zeta.
  set (c1 := if replyStatusReport _ then _ else _).
  assert (E : sender c1 = sender c /\ workflow c1 = workflow c).
  { subst c1. simpl. destruct (replyStatusReport (actionMask c)); split; reflexivity. }
  destruct E as (Es & Ew). rewrite Ew, Es.
  destruct (rxOf buf_rx >? 0); simpl; [|rewrite Es; reflexivity].
  destruct (WorkflowState_eqb (workflow c) WORKFLOW_STATE_IDLE); simpl;
    [|rewrite Es; reflexivity].
  destruct (dataLength (sender c) =? 0); simpl; [|rewrite Es; reflexivity].
  destruct (rxOf buf_rx - 8 >? bufferSize (sender c)) eqn:G; simpl; rewrite ?Es.
  - apply Z.gtb_lt in G. lia.
  - assert (rxOf buf_rx - 8 <= bufferSize (sender c)).
    { destruct (Z.gtb_spec (rxOf buf_rx - 8) (bufferSize (sender c))); [discriminate|lia]. }
    lia.
Qed.

Lemma dispatch_bufferSize (now : Z) (e : ParserEvent) (c : Controller) :
  (forall raw buf_rx, e <> PStatus raw buf_rx) ->
  bufferSize (sender (dispatch now e c)) = bufferSize (sender c).
Proof.
  intro N. destruct e; simpl.
  - exfalso. apply (N raw buf_rx). reflexivity.
  - apply controller_on_ok_quiet.
  - apply controller_on_error_quiet.
  - reflexivity.
  - unfold controller_on_parserstate. simpl.
    destruct (replyParserState (actionMask c)); reflexivity.
  - reflexivity.
  - reflexivity.
  - reflexivity.
Qed.

(** One event either leaves the buffer size alone or is a status report
    that raises it. *)
Lemma step_bufferSize (now : Z) (e : Event) (c : Controller) :
  bufferSize (sender (step now e c)) = bufferSize (sender c)
  \/ exists raw R,
       e = EvParser (PStatus raw (Some R))
       /\ R > 0
       /\ workflow c = WORKFLOW_STATE_IDLE
       /\ dataLength (sender c) = 0
       /\ bufferSize (sender c) < R - 8
       /\ bufferSize (sender (step now e c)) = R - 8.
Proof.
  destruct e as [s| |e| | |cmd|data|data|ok| | |i]; simpl;
    try (left; reflexivity).
  - destruct e as [raw buf_rx|raw|raw|raw|raw|raw|raw|raw];
      try (left; apply dispatch_bufferSize; intros r b E; discriminate E).
    simpl. rewrite controller_on_status_bufferSize.
    destruct (rxOf buf_rx >? 0) eqn:G; simpl; [|left; reflexivity].
    destruct (WorkflowState_eqb (workflow c) WORKFLOW_STATE_IDLE) eqn:W; simpl;
      [|left; reflexivity].
    destruct (dataLength (sender c) =? 0) eqn:D; simpl; [|left; reflexivity].
    destruct (Z_lt_le_dec (bufferSize (sender c)) (rxOf buf_rx - 8)) as [L|L].
    + right. destruct buf_rx as [R|]; [|discriminate G].
      simpl in *. exists raw, R.
      apply Z.gtb_lt in G. apply WorkflowState_eqb_eq in W. apply Z.eqb_eq in D.
      repeat split; try assumption; lia.
    + left. lia.
  - left. apply tick_bufferSize.
  - left. apply throttleTimer_bufferSize.
  - left. apply command_quiet.
  - left. apply write_quiet.
  - left. apply writeln_quiet.
  - left. apply open_quiet.
  - left. apply sendInitCommands_quiet.
Qed.

(** C5.  The Sender's buffer size is assigned in one place.  An event
    changes it only if it is a status report that carries [buf.rx = R] with
    [R > 0], received while the workflow is idle and no sent byte is
    unacknowledged ([dataLength = 0]); such a report sets it to the maximum
    of its value and [R - 8]; so over any sequence of events the buffer
    size never decreases. *)
Theorem bufferSize_raised_only_by_idle_status :
  (forall (now : Z) (e : Event) (c : Controller),
      bufferSize (sender (step now e c)) <> bufferSize (sender c) ->
      exists raw R,
        e = EvParser (PStatus raw (Some R))
        /\ R > 0
        /\ workflow c = WORKFLOW_STATE_IDLE
        /\ dataLength (sender c) = 0)
  /\ (forall (now : Z) (raw : string) (R : Z) (c : Controller),
        R > 0 ->
        workflow c = WORKFLOW_STATE_IDLE ->
        dataLength (sender c) = 0 ->
        bufferSize (sender (step now (EvParser (PStatus raw (Some R))) c))
        = Z.max (bufferSize (sender c)) (R - 8))
  /\ (forall (events : list (Z * Event)) (c : Controller),
        bufferSize (sender c) <= bufferSize (sender (run events c))).
Proof.
  split; [|split].
  - intros now e c N.
    destruct (step_bufferSize now e c) as [E|(raw & R & E & G & W & D & _)].
    + exfalso. apply N. exact E.
    + exists raw, R. repeat split; assumption.
  - intros now raw R c G W D. simpl.
    rewrite controller_on_status_bufferSize. simpl.
    apply Z.gt_lt, Z.gtb_lt in G. rewrite G.
    apply WorkflowState_eqb_eq in W. rewrite W.
    apply Z.eqb_eq in D. rewrite D. reflexivity.
  - intros events. induction events as [|[now e] events IH]; intro c; simpl.
    + lia.
    + specialize (IH (step now e c)).
      destruct (step_bufferSize now e c) as [E|(raw & R & _ & _ & _ & _ & L & E)]; lia.
Qed.

(** ** Alarm *)

Lemma feederDataFilter_written (line : string) (ctx : Ctx) (c : Controller) :
  written (snd (feederDataFilter line ctx c)) = written c.
Proof.
  unfold feederDataFilter.
  destruct (startsWithPercent (stripComment line)).
  - destruct (JsString.eqb (stripComment line) WAIT); reflexivity.
  - cbv zeta. cbn [snd].
    destruct (programMode _) as [m|];
      [destruct (JsString.eqb m "M0"); [|destruct (JsString.eqb m "M1")]|];
      destruct (includes _ "M6"); reflexivity.
Qed.

Lemma feeder_on_data_alarm (line : string) (ctx : Ctx) (c : Controller) :
  isAlarm (controllerState c) = true ->
  written (feeder_on_data line ctx c) = written c
  /\ (isOpen c = true -> feeder_on_data line ctx c = Feeder_reset c).
Proof.
  intro A. unfold feeder_on_data, isClose.
  destruct (isOpen c); simpl; rewrite ?A; split; try reflexivity.
  intro E. discriminate E.
Qed.

Lemma Feeder_next_alarm (c : Controller) :
  isAlarm (controllerState c) = true ->
  written (Feeder_next c) = written c
  /\ (isOpen c = true -> feeder_hold (feeder c) = false -> feeder_queue (feeder c) <> [] ->
      feeder (Feeder_next c) = mkFeeder [] false None false).
Proof.
  intro A. unfold Feeder_next.
  destruct (feeder_hold (feeder c)) eqn:Hd.
  - split; [reflexivity|]. intros _ E. discriminate E.
  - destruct (feeder_queue (feeder c)) as [|[line ctx] q] eqn:Q.
    + split; [reflexivity|]. intros _ _ N. exfalso. apply N. reflexivity.
    + pose proof (feederDataFilter_frame line ctx (setFeederQueue q c)) as F.
      pose proof (feederDataFilter_written line ctx (setFeederQueue q c)) as Wr.
      destruct (feederDataFilter line ctx (setFeederQueue q c)) as [[line' ctx'] c1].
      cbn [snd] in F, Wr.
      destruct F as ((Fo & _ & _ & _ & _ & Fc & _) & _).
      simpl in Fo, Fc, Wr.
      destruct (feeder_on_data_alarm line' ctx' c1) as (D1 & D2).
      { rewrite Fc. exact A. }
      split.
      * simpl. rewrite D1. exact Wr.
      * intros O _ _. unfold wrote. rewrite D1, Nat.ltb_irrefl.
        rewrite D2; [reflexivity|]. rewrite Fo. exact O.
Qed.

Lemma command_gcode_alarm (commands : list string) (ctx : Ctx) (c : Controller) :
  isAlarm (controllerState c) = true ->
  written (command_gcode commands ctx c) = written c.
Proof.
  intro A. unfold command_gcode.
  destruct (negb (Feeder_isPending _)); [|reflexivity].
  destruct (Feeder_next_alarm (Feeder_feed (gcodeData commands) ctx c)) as (E & _);
    [exact A|].
  rewrite E. reflexivity.
Qed.

(** C7, as amended.  The [alarm] listener surfaces the raw line and does
    nothing else: the Feeder keeps its queue, its hold and its pending
    flag.  The Feeder is reset where its data listener runs: a line that the
    Feeder hands over while the connection is open and the controller
    reports the alarm state resets the Feeder (queue dropped, hold and
    pending cleared) instead of being written.  While the controller
    reports the alarm state no Feeder line reaches the transport, whether it
    comes from [next()] or from the command [gcode]. *)
Theorem alarm_surfaced_feeder_reset_when_sending
  (raw line : string) (ctx : Ctx) (commands : list string) (c : Controller) :
  (let c' := controller_on_alarm raw c in
   emitted c' = (emitted c ++ [ConnectionRead raw])%list
   /\ feeder c' = feeder c
   /\ sender c' = sender c
   /\ workflow c' = workflow c
   /\ written c' = written c)
  /\ (isAlarm (controllerState c) = true ->
      written (feeder_on_data line ctx c) = written c
      /\ written (Feeder_next c) = written c
      /\ written (command_gcode commands ctx c) = written c
      /\ (isOpen c = true ->
          feeder_on_data line ctx c = Feeder_reset c
          /\ feeder (feeder_on_data line ctx c) = mkFeeder [] false None false
          /\ (feeder_hold (feeder c) = false -> feeder_queue (feeder c) <> [] ->
              feeder (Feeder_next c) = mkFeeder [] false None false))).
Proof.
  split.
  - cbv zeta. unfold controller_on_alarm. repeat split; reflexivity.
  - intro A.
    destruct (feeder_on_data_alarm line ctx c A) as (D1 & D2).
    destruct (Feeder_next_alarm c A) as (N1 & N2).
    split; [exact D1|]. split; [exact N1|].
    split; [apply command_gcode_alarm; exact A|].
    intro O. split; [apply D2; exact O|].
    split; [rewrite (D2 O); reflexivity|].
    intros Hd Q. apply N2; assumption.
Qed.

(** ** End-of-program detection in the tick *)

Lemma write_keeps (data : string) (c : Controller) :
  workflow (write data c) = workflow c
  /\ actionTime (write data c) = actionTime c
  /\ sender (write data c) = sender c.
Proof.
  unfold write. destruct (isClose c); repeat split; reflexivity.
Qed.

Lemma Workflow_stop_idle (c : Controller) :
  workflow (Workflow_stop c) = WORKFLOW_STATE_IDLE
  /\ actionTime (Workflow_stop c) = actionTime c.
Proof.
  unfold Workflow_stop. destruct (workflow c) eqn:W; repeat split; try reflexivity; exact W.
Qed.

Lemma command_sender_stop (now : Z) (c : Controller) :
  workflow (command now CmdSenderStop c) = WORKFLOW_STATE_IDLE
  /\ actionTime (command now CmdSenderStop c) = actionTime c.
Proof.
  unfold command. cbv zeta.
  destruct (trigger_frame "sender:stop" c) as (_ & _ & _ & Ta).
  destruct (Workflow_stop_idle (trigger "sender:stop" c)) as (W & A).
  match goal with |- context [if ?b then _ else _] => destruct b end.
  - destruct (write_keeps "~" (Workflow_stop (trigger "sender:stop" c))) as (K1 & K2 & _).
    rewrite K1, K2, W, A, Ta. split; reflexivity.
  - rewrite W, A, Ta. split; reflexivity.
Qed.

Lemma queryStatusReport_frame (now : Z) (c : Controller) :
  queryFrame c (queryStatusReport now c).
Proof.
  unfold queryStatusReport, queryFrame.
  destruct (ready c); simpl; [|repeat split; reflexivity].
  destruct (timeQueryStatusReport (actionTime c) >? 0);
    [destruct (Z.abs (now - timeQueryStatusReport (actionTime c)) >=? 5000)|];
    simpl;
    repeat match goal with |- context [if ?b then _ else _] => destruct b end;
    repeat split; reflexivity.
Qed.

Lemma queryParserStateBody_frame (now : Z) (c : Controller) :
  queryFrame c (queryParserStateBody now c)
  /\ throttle (queryParserStateBody now c) = throttle c.
Proof.
  unfold queryParserStateBody, queryFrame.
  destruct (ready c); simpl; [|repeat split; reflexivity].
  destruct (WorkflowState_eqb (workflow c) WORKFLOW_STATE_IDLE && isIdle (controllerState c));
    [destruct (timeQueryParserState (actionTime c) >? 0);
     [destruct (Z.abs (now - timeQueryParserState (actionTime c)) >=? 10000)|]|];
    simpl;
    repeat match goal with |- context [if ?b then _ else _] => destruct b end;
    repeat split; reflexivity.
Qed.

Lemma queryParserState_frame (now : Z) (c : Controller) :
  queryFrame c (queryParserState now c).
Proof.
  unfold queryParserState, invoke.
  destruct (throttleElapsed now (throttle c)).
  - apply (queryParserStateBody_frame now
             (setThrottle (mkThrottle (now :: invokeTimes (throttle c)) false) c)).
  - unfold queryFrame. repeat split; reflexivity.
Qed.

(** The end-of-program check of a tick that reaches it. *)
Lemma tick_when_open_and_ready (now : Z) (c : Controller) :
  isOpen c = true ->
  ready c = true ->
  senderFinishTime (actionTime c) > 0 ->
  let zeroOffset :=
    isEqual (getWorkPosition (state c)) (getWorkPosition (Some (controllerState c))) in
  let machineIdle := zeroOffset && isIdle (controllerState c) in
  let timespan := Z.abs (now - senderFinishTime (actionTime c)) in
  let c' := tick now c in
  (machineIdle = false -> senderFinishTime (actionTime c') = now)
  /\ (machineIdle = true -> timespan > 500 ->
      senderFinishTime (actionTime c') = 0
      /\ workflow c' = WORKFLOW_STATE_IDLE
      /\ exists c0, c' = command now CmdSenderStop (setSenderFinishTime 0 c0))
  /\ (machineIdle = true -> timespan <= 500 ->
      senderFinishTime (actionTime c') = senderFinishTime (actionTime c)
      /\ workflow c' = workflow c).
Proof.
  intros O R S zeroOffset machineIdle timespan c'.
  subst c'. unfold tick, isClose. rewrite O. cbn [negb]. cbv zeta. fold zeroOffset.
  set (c1 := if negb (settingsSynced c) then _ else c).
  assert (E1 : ready c1 = ready c /\ queryFrame c c1).
  { subst c1. unfold queryFrame.
    destruct (negb (settingsSynced c)); repeat split; reflexivity. }
  set (c2 := if negb (stateSynced c1) then _ else c1).
  assert (E2 : ready c2 = ready c1 /\ queryFrame c1 c2).
  { subst c2. unfold queryFrame.
    destruct (negb (stateSynced c1)); repeat split; reflexivity. }
  destruct E1 as (R1 & F1 & C1 & W1 & _). destruct E2 as (R2 & F2 & C2 & W2 & _).
  rewrite R2, R1, R. cbn [negb].
  set (c3 := queryStatusReport now c2).
  destruct (queryStatusReport_frame now c2) as (F3 & C3 & W3 & _). fold c3 in F3, C3, W3.
  set (c4 := queryParserState now c3).
  destruct (queryParserState_frame now c3) as (F4 & C4 & W4 & _). fold c4 in F4, C4, W4.
  assert (F : senderFinishTime (actionTime c4) = senderFinishTime (actionTime c))
    by congruence.
  assert (C : controllerState c4 = controllerState c) by congruence.
  assert (W : workflow c4 = workflow c) by congruence.
  rewrite F, C. fold machineIdle timespan.
  apply Z.gt_lt, Z.gtb_lt in S. rewrite S.
  destruct machineIdle; cbn [negb].
  - split; [intro E; discriminate E|].
    destruct (timespan >? 500) eqn:T.
    + destruct (command_sender_stop now (setSenderFinishTime 0 c4)) as (K1 & K2).
      split.
      * intros _ _. rewrite K1, K2. repeat split; try reflexivity.
        exists c4. reflexivity.
      * intros _ L. apply Z.gtb_lt in T. lia.
    + split.
      * intros _ L. apply Z.gt_lt, Z.gtb_lt in L. rewrite L in T. discriminate T.
      * intros _ _. split; assumption.
  - split; [intros _; reflexivity|].
    split; intro E; discriminate E.
Qed.

(** C8, as amended.  On a tick at which the connection is open and the
    ready flag is set, with [senderFinishTime > 0]: if the machine is not
    idle, or its work position differs from the work position of the state
    cached at the previous tick, [senderFinishTime] becomes the current
    time; if the machine is idle at that position and the current time is
    more than 500 ms away from [senderFinishTime], [senderFinishTime]
    becomes 0 and the command [sender:stop] runs, which leaves the workflow
    idle; otherwise [senderFinishTime] stays.  A tick with the connection
    closed changes nothing at all, and a tick with the ready flag clear
    leaves [senderFinishTime] and the workflow as they are. *)
Theorem tick_detects_end_of_program (now : Z) (c : Controller) :
  let zeroOffset :=
    isEqual (getWorkPosition (state c)) (getWorkPosition (Some (controllerState c))) in
  let machineIdle := zeroOffset && isIdle (controllerState c) in
  let timespan := Z.abs (now - senderFinishTime (actionTime c)) in
  let c' := tick now c in
  (isOpen c = true -> ready c = true -> senderFinishTime (actionTime c) > 0 ->
   (machineIdle = false -> senderFinishTime (actionTime c') = now)
   /\ (machineIdle = true -> timespan > 500 ->
       senderFinishTime (actionTime c') = 0
       /\ workflow c' = WORKFLOW_STATE_IDLE
       /\ exists c0, c' = command now CmdSenderStop (setSenderFinishTime 0 c0))
   /\ (machineIdle = true -> timespan <= 500 ->
       senderFinishTime (actionTime c') = senderFinishTime (actionTime c)
       /\ workflow c' = workflow c))
  /\ (isOpen c = false -> c' = c)
  /\ (ready c = false ->
      senderFinishTime (actionTime c') = senderFinishTime (actionTime c)
      /\ workflow c' = workflow c
      /\ written c' = written c).
Proof.
  intros zeroOffset machineIdle timespan c'. split; [|split].
  - intros O R S. exact (tick_when_open_and_ready now c O R S).
  - intro O. subst c'. unfold tick, isClose. rewrite O. reflexivity.
  - intro R. subst c'. unfold tick.
    destruct (isClose c); [repeat split; reflexivity|]. cbv zeta.
    set (c1 := if negb (settingsSynced c) then _ else c).
    assert (E1 : ready c1 = ready c /\ actionTime c1 = actionTime c
                 /\ workflow c1 = workflow c /\ written c1 = written c).
    { subst c1. destruct (negb (settingsSynced c)); repeat split; reflexivity. }
    set (c2 := if negb (stateSynced c1) then _ else c1).
    assert (E2 : ready c2 = ready c1 /\ actionTime c2 = actionTime c1
                 /\ workflow c2 = workflow c1 /\ written c2 = written c1).
    { subst c2. destruct (negb (stateSynced c1)); repeat split; reflexivity. }
    destruct E1 as (R1 & A1 & W1 & Wr1). destruct E2 as (R2 & A2 & W2 & Wr2).
    rewrite R2, R1, R. cbn [negb].
    rewrite A2, A1, W2, W1, Wr2, Wr1. repeat split; reflexivity.
Qed.

(** ** Overrides *)

(** The override commands for the values 10 to 200 are single lines. *)
Lemma override_lines_checked :
  forallb
    (fun k =>
       isSingleLine ("M220S" ++ numberToString (10 + Z.of_nat k))
       && isSingleLine ("M221S" ++ numberToString (10 + Z.of_nat k)))
    (seq 0 191) = true.
Proof. vm_compute. reflexivity. Qed.

Lemma override_lines_single (v : Z) :
  10 <= v <= 200 ->
  gcodeData ["M220S" ++ numberToString v] = ["M220S" ++ numberToString v]
  /\ gcodeData ["M221S" ++ numberToString v] = ["M221S" ++ numberToString v].
Proof.
  intro B.
  pose proof override_lines_checked as K.
  rewrite forallb_forall in K.
  specialize (K (Z.to_nat (v - 10))).
  replace (10 + Z.of_nat (Z.to_nat (v - 10))) with v in K by lia.
  assert (I : In (Z.to_nat (v - 10)) (seq 0 191)) by (apply in_seq; lia).
  apply K in I. apply andb_true_iff in I. destruct I as (I1 & I2).
  unfold isSingleLine in I1, I2.
  destruct (list_eq_dec string_dec (gcodeData ["M220S" ++ numberToString v]) _);
    [|discriminate I1].
  destruct (list_eq_dec string_dec (gcodeData ["M221S" ++ numberToString v]) _);
    [|discriminate I2].
  split; assumption.
Qed.

Lemma override_range (current value : Z) :
  10 <= override current value <= 200
  /\ (value = 0 -> override current value = 100)
  /\ (value <> 0 -> override current value = Z.max 10 (Z.min 200 (current + value))).
Proof.
  unfold override.
  destruct (Z.eqb_spec value 0) as [E|E].
  - repeat split; lia.
  - destruct (Z.gtb_spec (current + value) 200);
      [|destruct (Z.ltb_spec (current + value) 10)]; repeat split; lia.
Qed.

(** The command [gcode] with one line of text: the line joins the Feeder's
    queue, and the Feeder is asked for its next line unless one is in
    flight. *)
Lemma command_gcode_single (line : string) (ctx : Ctx) (c : Controller) :
  gcodeData [line] = [line] ->
  let c1 := Feeder_feed [line] ctx c in
  feeder_queue (feeder c1) = (feeder_queue (feeder c) ++ [(line, ctx)])%list
  /\ command_gcode [line] ctx c = if Feeder_isPending c then c1 else Feeder_next c1.
Proof.
  intros D c1. split; [reflexivity|].
  unfold command_gcode. rewrite D. fold c1.
  unfold Feeder_isPending. simpl. destruct (feeder_pending (feeder c)); reflexivity.
Qed.

(** C3, as amended.  [override:feed(value)] computes the new value from
    the current one, the member [ovF] that the handler reads: 100 when
    [value] is 0, else the current value plus [value], clamped to 10..200.
    The command text is [M220S<v>], without a space; it goes through the
    command [gcode]: it is appended to the Feeder's queue and the Feeder is
    asked for its next line unless a line is in flight.  Apart from the
    state that the parser keeps ([this.controller.state], which the handler
    replaces), the controller after the command is the controller after
    that [gcode].  [override:spindle] does the same with [ovS] and
    [M221S<v>]. *)
Theorem override_clamped_and_fed (now value : Z) (c : Controller) :
  let s := controllerState c in
  let vF := override (ovF s) value in
  let vS := override (ovS s) value in
  let lineF := ("M220S" ++ numberToString vF)%js in
  let lineS := ("M221S" ++ numberToString vS)%js in
  let fedF := Feeder_feed [lineF] emptyCtx c in
  let fedS := Feeder_feed [lineS] emptyCtx c in
  let cF := command now (CmdOverrideFeed value) c in
  let cS := command now (CmdOverrideSpindle value) c in
  (value = 0 -> vF = 100 /\ vS = 100)
  /\ (value <> 0 ->
      vF = Z.max 10 (Z.min 200 (ovF s + value))
      /\ vS = Z.max 10 (Z.min 200 (ovS s + value)))
  /\ feeder_queue (feeder fedF) = (feeder_queue (feeder c) ++ [(lineF, emptyCtx)])%list
  /\ feeder_queue (feeder fedS) = (feeder_queue (feeder c) ++ [(lineS, emptyCtx)])%list
  /\ command_gcode [lineF] emptyCtx c = (if Feeder_isPending c then fedF else Feeder_next fedF)
  /\ command_gcode [lineS] emptyCtx c = (if Feeder_isPending c then fedS else Feeder_next fedS)
  /\ cF = setControllerState (controllerState cF) (command_gcode [lineF] emptyCtx c)
  /\ cS = setControllerState (controllerState cS) (command_gcode [lineS] emptyCtx c).
Proof.
  intros s vF vS lineF lineS fedF fedS cF cS.
  destruct (override_range (ovF s) value) as (BF & ZF & NF).
  destruct (override_range (ovS s) value) as (BS & ZS & NS).
  destruct (override_lines_single vF BF) as (LF & _).
  destruct (override_lines_single vS BS) as (_ & LS).
  destruct (command_gcode_single lineF emptyCtx c LF) as (QF & GF).
  destruct (command_gcode_single lineS emptyCtx c LS) as (QS & GS).
  split; [intro Z0; split; [apply ZF|apply ZS]; exact Z0|].
  split; [intro N0; split; [apply NF|apply NS]; exact N0|].
  split; [exact QF|]. split; [exact QS|].
  split; [exact GF|]. split; [exact GS|].
  split.
  - subst cF. unfold command. cbv zeta. fold s vF lineF. reflexivity.
  - subst cS. unfold command. cbv zeta. fold s vS lineS. reflexivity.
Qed.

(** ** The parser-state query *)

Lemma queryParserStateBody_written (now : Z) (c : Controller) :
  written (queryParserStateBody now c) =
    if ready c && negb (parserStateQueryMasked now c) && isOpen c
    then (written c ++ [("$G" ++ NL)%js])%list
    else written c.
Proof.
  unfold queryParserStateBody, parserStateQueryMasked, parserStateQueryExpired.
  destruct (ready c); simpl; [|reflexivity].
  destruct (WorkflowState_eqb (workflow c) WORKFLOW_STATE_IDLE && isIdle (controllerState c));
    simpl.
  - destruct (timeQueryParserState (actionTime c) >? 0); simpl.
    + destruct (Z.abs (now - timeQueryParserState (actionTime c)) >=? 10000); simpl.
      * destruct (isOpen c); reflexivity.
      * destruct (maskQueryParserStateState (actionMask c));
          destruct (maskQueryParserStateReply (actionMask c));
          destruct (isOpen c); reflexivity.
    + destruct (maskQueryParserStateState (actionMask c));
        destruct (maskQueryParserStateReply (actionMask c));
        destruct (isOpen c); reflexivity.
  - destruct (maskQueryParserStateState (actionMask c));
      destruct (maskQueryParserStateReply (actionMask c));
      destruct (isOpen c); reflexivity.
Qed.

Lemma invoke_throttle (now : Z) (c : Controller) :
  throttle (invoke now c) = mkThrottle (now :: invokeTimes (throttle c)) false.
Proof.
  unfold invoke.
  destruct (queryParserStateBody_frame now
              (setThrottle (mkThrottle (now :: invokeTimes (throttle c)) false) c))
    as (_ & T).
  rewrite T. reflexivity.
Qed.

(** A throttled call either runs the wrapped function, 500 ms or more after
    its last run, or writes nothing. *)
Lemma queryParserState_cases (now : Z) (c : Controller) :
  (throttleElapsed now (throttle c) = true
   /\ queryParserState now c = invoke now c
   /\ invokeTimes (throttle (queryParserState now c)) = now :: invokeTimes (throttle c))
  \/ (throttleElapsed now (throttle c) = false
      /\ written (queryParserState now c) = written c
      /\ invokeTimes (throttle (queryParserState now c)) = invokeTimes (throttle c)).
Proof.
  unfold queryParserState.
  destruct (throttleElapsed now (throttle c)).
  - left. rewrite invoke_throttle. repeat split; reflexivity.
  - right. repeat split; reflexivity.
Qed.

Lemma throttleTimer_cases (now : Z) (c : Controller) :
  (throttleElapsed now (throttle c) = true
   /\ throttleTimer now c = invoke now c
   /\ invokeTimes (throttle (throttleTimer now c)) = now :: invokeTimes (throttle c))
  \/ (throttleTimer now c = c).
Proof.
  unfold throttleTimer.
  destruct (trailingPending (throttle c)); simpl; [|right; reflexivity].
  destruct (throttleElapsed now (throttle c)).
  - left. rewrite invoke_throttle. repeat split; reflexivity.
  - right. reflexivity.
Qed.

Lemma tick_invokeTimes (now : Z) (c : Controller) :
  invokeTimes (throttle (tick now c)) = invokeTimes (throttle c)
  \/ (throttleElapsed now (throttle c) = true
      /\ invokeTimes (throttle (tick now c)) = now :: invokeTimes (throttle c)).
Proof.
  unfold tick.
  destruct (isClose c); [left; reflexivity|]. cbv zeta.
  set (c1 := if negb (settingsSynced c) then _ else c).
  assert (E1 : throttle c1 = throttle c)
    by (subst c1; destruct (negb (settingsSynced c)); reflexivity).
  set (c2 := if negb (stateSynced c1) then _ else c1).
  assert (E2 : throttle c2 = throttle c1)
    by (subst c2; destruct (negb (stateSynced c1)); reflexivity).
  destruct (ready c2); cbn [negb]; [|left; congruence].
  set (c3 := queryStatusReport now c2).
  assert (E3 : throttle c3 = throttle c2) by (subst c3; apply queryStatusReport_quiet).
  set (c4 := queryParserState now c3).
  assert (E : throttle c3 = throttle c) by congruence.
  assert (K : invokeTimes (throttle c4) = invokeTimes (throttle c)
              \/ (throttleElapsed now (throttle c) = true
                  /\ invokeTimes (throttle c4) = now :: invokeTimes (throttle c))).
  { destruct (queryParserState_cases now c3) as [(A1 & _ & A3)|(_ & _ & A3)];
      fold c4 in A3; rewrite E in *; [right; split; assumption|left; assumption]. }
  assert (L : forall c5, throttle c5 = throttle c4 ->
              invokeTimes (throttle c5) = invokeTimes (throttle c)
              \/ (throttleElapsed now (throttle c) = true
                  /\ invokeTimes (throttle c5) = now :: invokeTimes (throttle c))).
  { intros c5 E5. rewrite E5. exact K. }
  destruct (senderFinishTime (actionTime c4) >? 0); [|exact K].
  match goal with |- context [if negb ?b then _ else _] => destruct b end; cbn [negb].
  - destruct (Z.abs (now - senderFinishTime (actionTime c4)) >? 500); [|exact K].
    apply L. apply (command_quiet now CmdSenderStop (setSenderFinishTime 0 c4)).
  - apply L. reflexivity.
Qed.

Lemma controller_on_status_throttle (raw : string) (buf_rx : option Z) (c : Controller) :
  throttle (controller_on_status raw buf_rx c) = throttle c.
Proof.
  unfold controller_on_status. cbv zeta.
  set (c1 := if replyStatusReport _ then _ else _).
  assert (E : throttle c1 = throttle c).
  { subst c1. simpl. destruct (replyStatusReport (actionMask c)); reflexivity. }
  repeat match goal with |- context [if ?b then _ else _] => destruct b end; exact E.
Qed.

(** One event either leaves the record of the throttle alone or adds the
    current time to it, 500 ms or more after the newest entry. *)
Lemma step_invokeTimes (now : Z) (e : Event) (c : Controller) :
  invokeTimes (throttle (step now e c)) = invokeTimes (throttle c)
  \/ (throttleElapsed now (throttle c) = true
      /\ invokeTimes (throttle (step now e c)) = now :: invokeTimes (throttle c)).
Proof.
  destruct e as [s| |e| | |cmd|data|data|ok| | |i]; simpl;
    try (left; reflexivity).
  - left. f_equal.
    destruct e; simpl; try reflexivity.
    + apply controller_on_status_throttle.
    + apply controller_on_ok_quiet.
    + apply controller_on_error_quiet.
    + unfold controller_on_parserstate. simpl.
      destruct (replyParserState (actionMask c)); reflexivity.
  - apply tick_invokeTimes.
  - destruct (throttleTimer_cases now c) as [(A1 & _ & A3)|A].
    + right. split; assumption.
    + left. rewrite A. reflexivity.
  - left. f_equal. apply command_quiet.
  - left. f_equal. apply write_quiet.
  - left. f_equal. apply writeln_quiet.
  - left. f_equal. apply open_quiet.
  - left. f_equal. apply sendInitCommands_quiet.
Qed.

Lemma run_spaced (events : list (Z * Event)) (t0 : Z) (c : Controller) :
  chronological t0 events ->
  spaced (invokeTimes (throttle c)) ->
  (forall t, lastInvokeTime (throttle c) = Some t -> t <= t0) ->
  spaced (invokeTimes (throttle (run events c))).
Proof.
  revert t0 c. induction events as [|[now e] events IH]; intros t0 c Ch Sp Last; simpl.
  - exact Sp.
  - destruct Ch as (Le & Ch).
    apply (IH now (step now e c) Ch).
    + destruct (step_invokeTimes now e c) as [E|(El & E)]; rewrite E; [exact Sp|].
      simpl. split; [|exact Sp].
      unfold throttleElapsed, lastInvokeTime in El.
      destruct (invokeTimes (throttle c)) as [|t' earlier]; [exact I|].
      apply Z.geb_le in El. exact El.
    + intros t Et. unfold lastInvokeTime in Et, Last.
      destruct (step_invokeTimes now e c) as [E|(El & E)]; rewrite E in Et.
      * specialize (Last t Et). lia.
      * inversion Et. lia.
Qed.

(** C1, as amended.  The function wrapped by the throttle writes at most
    one [$G] per run, and writes it exactly when the controller is ready,
    the connection is open and no mask of the query is set once the 10 s
    time-out has been applied; the time-out, not the write, is what requires
    an idle workflow and an idle machine, so with both masks clear [$G] is
    written whatever the workflow state.  The throttle runs the wrapped
    function only when 500 ms or more have passed since its last run: in a
    run of the controller from its initial state with events in
    chronological order, the times at which the wrapped function ran are
    at least 500 ms apart. *)
Theorem parser_state_query_throttled_and_masked :
  (forall (now : Z) (c : Controller),
      written (queryParserStateBody now c) =
        if ready c && negb (parserStateQueryMasked now c) && isOpen c
        then (written c ++ [("$G" ++ NL)%js])%list
        else written c)
  /\ (forall (now : Z) (c : Controller),
        ready c = true ->
        isOpen c = true ->
        maskQueryParserStateState (actionMask c) = false ->
        maskQueryParserStateReply (actionMask c) = false ->
        written (queryParserStateBody now c) = (written c ++ [("$G" ++ NL)%js])%list)
  /\ (forall (now : Z) (c : Controller),
        (throttleElapsed now (throttle c) = true
         /\ queryParserState now c = invoke now c
         /\ invokeTimes (throttle (queryParserState now c)) = now :: invokeTimes (throttle c))
        \/ (throttleElapsed now (throttle c) = false
            /\ written (queryParserState now c) = written c
            /\ invokeTimes (throttle (queryParserState now c)) = invokeTimes (throttle c)))
  /\ (forall (s0 : SmoothieState Rest) (t0 : Z) (events : list (Z * Event)),
        chronological t0 events ->
        spaced (invokeTimes (throttle (run events (initialController s0))))).
Proof.
  split; [exact queryParserStateBody_written|].
  split; [|split; [exact queryParserState_cases|]].
  - intros now c R O Ms Mr.
    rewrite queryParserStateBody_written. unfold parserStateQueryMasked.
    rewrite R, O, Ms, Mr, andb_false_r. reflexivity.
  - intros s0 t0 events Ch.
    apply (run_spaced events t0 (initialController s0) Ch).
    + exact I.
    + intros t E. discriminate E.
Qed.

End Properties.

(** * The properties at concrete inputs *)

(** C1, the claim as stated fails: the workflow of [demoRunning] is running,
    and the tick at time 1750, 500 ms after the query of the first tick,
    writes the status query and then [$G]. *)
Lemma parser_state_query_written_while_running :
  workflow demoRunning = WORKFLOW_STATE_RUNNING
  /\ written (step 1750 EvTick demoRunning)
     = (written demoRunning ++ ["?"; ("$G" ++ NL)%js])%list.
Proof. vm_compute. split; reflexivity. Qed.

(** C1 at a concrete input: the runs of the wrapped function over
    [demoEvents] are at least 500 ms apart, and with both masks clear the
    wrapped function writes [$G] in the running workflow of [demoRunning]. *)
Lemma parser_state_query_witness :
  chronological 0 demoEvents
  /\ spaced (invokeTimes (throttle (run demoEvents (initialController (demoState "Idle" 100 "0,0,0")))))
  /\ written (queryParserStateBody 1750 demoRunning)
     = (written demoRunning ++ [("$G" ++ NL)%js])%list.
Proof.
  assert (Ch : chronological 0 demoEvents) by (simpl; repeat split; lia).
  destruct parser_state_query_throttled_and_masked as (_ & B & _ & T).
  split; [exact Ch|]. split.
  - exact (T (demoState "Idle" 100 "0,0,0") 0 demoEvents Ch).
  - apply B; vm_compute; reflexivity.
Defined.

(** The runs of the wrapped function over [demoEvents]. *)
Example parser_state_query_runs :
  invokeTimes (throttle (run demoEvents (initialController (demoState "Idle" 100 "0,0,0"))))
  = [2250; 1750; 1250].
Proof. vm_compute. reflexivity. Qed.

(** C2 at a concrete input: the first [ok] of [demoRunning]. *)
Lemma ok_acknowledges_one_line_witness :
  maskQueryParserStateReply (actionMask demoRunning) = false
  /\ workflow demoRunning = WORKFLOW_STATE_RUNNING
  /\ received (sender demoRunning) < sent (sender demoRunning)
  /\ received (sender (controller_on_ok 1500 "ok" demoRunning))
     = received (sender demoRunning) + 1.
Proof.
  assert (M : maskQueryParserStateReply (actionMask demoRunning) = false) by (vm_compute; reflexivity).
  assert (W : workflow demoRunning = WORKFLOW_STATE_RUNNING) by (vm_compute; reflexivity).
  assert (L : received (sender demoRunning) < sent (sender demoRunning)) by (vm_compute; reflexivity).
  split; [exact M|]. split; [exact W|]. split; [exact L|].
  destruct (ok_acknowledges_one_line 1500 "ok" demoRunning M) as (R & _).
  destruct (R W) as (_ & _ & A & _ & T).
  destruct (A L) as (A1 & _ & _).
  destruct T as (T1 & _).
  destruct T1 as (_ & _ & T3); [right; left; vm_compute; reflexivity|].
  rewrite T3. exact A1.
Defined.

(** C3, the claim as stated fails: from [ovF = 195] the command
    [override:feed(10)] writes [M220S200], newline included, and no text
    with a space in it. *)
Lemma override_feed_text_has_no_space :
  written (step 1310 (EvCommand (CmdOverrideFeed 10)) demo195)
  = (written demo195 ++ [("M220S200" ++ NL)%js])%list
  /\ existsb (JsString.eqb ("M220 S200" ++ NL))
       (written (step 1310 (EvCommand (CmdOverrideFeed 10)) demo195)) = false.
Proof. vm_compute. repeat split; reflexivity. Qed.

(** C3 at a concrete input: from 195, [+10] sends [M220S200] and [0] sends
    [M221S100]. *)
Lemma override_clamped_and_fed_witness :
  written (command 1310 (CmdOverrideFeed 10) demo195)
  = (written demo195 ++ [("M220S200" ++ NL)%js])%list
  /\ written (command 1310 (CmdOverrideSpindle 0) demo195)
     = (written demo195 ++ [("M221S100" ++ NL)%js])%list.
Proof.
  split.
  - destruct (override_clamped_and_fed 1310 10 demo195)
      as (_ & _ & _ & _ & _ & _ & E & _). rewrite E. vm_compute. reflexivity.
  - destruct (override_clamped_and_fed 1310 0 demo195)
      as (_ & _ & _ & _ & _ & _ & _ & E). rewrite E. vm_compute. reflexivity.
Defined.

(** The scenario of the specification: from 195, [+10] sends the value 200,
    a further [+10] sends 200 again and [0] sends 100. *)
Example override_feed_scenario :
  written
    (run [(1310, EvCommand (CmdOverrideFeed 10)); (1320, EvParser (POk "ok"));
          (1330, EvCommand (CmdOverrideFeed 10)); (1340, EvParser (POk "ok"));
          (1350, EvCommand (CmdOverrideFeed 0))] demo195)
  = (written demo195
     ++ [("M220S200" ++ NL)%js; ("M220S200" ++ NL)%js; ("M220S100" ++ NL)%js])%list.
Proof. vm_compute. reflexivity. Qed.

(** C4 at a concrete input: an error on the first line of [demoRunning],
    with [ignoreErrors] false. *)
Lemma error_echoed_then_acknowledged_witness :
  workflow demoRunning = WORKFLOW_STATE_RUNNING
  /\ workflow (controller_on_error 1500 "error: bad" demoRunning) = WORKFLOW_STATE_PAUSED
  /\ emitted (controller_on_error 1500 "error: bad" demoRunning)
     = (emitted demoRunning
        ++ [ConnectionRead "> G1 X1 (line=1)"; ConnectionRead "error: bad";
            WorkflowStateChange WORKFLOW_STATE_PAUSED])%list
  /\ received (sender (controller_on_error 1500 "error: bad" demoRunning)) = 1.
Proof.
  assert (W : workflow demoRunning = WORKFLOW_STATE_RUNNING) by (vm_compute; reflexivity).
  destruct (error_echoed_then_acknowledged 1500 "error: bad" demoRunning) as (R & _).
  destruct (R W) as (_ & _ & P & _ & A & _ & _).
  assert (I : ignoreErrors = false) by (vm_compute; reflexivity).
  assert (L : received (sender demoRunning) < sent (sender demoRunning))
    by (vm_compute; reflexivity).
  destruct (P I) as (P1 & _ & _ & P4 & _ & _ & P7).
  destruct (A L) as (A1 & _ & _).
  split; [exact W|]. split; [exact P1|]. split.
  - rewrite P4. vm_compute. reflexivity.
  - rewrite P7, A1. vm_compute. reflexivity.
Defined.

(** C5 at a concrete input. *)
Lemma bufferSize_raised_only_by_idle_status_witness :
  bufferSize (sender (step 1300 (EvParser (PStatus "<Idle>" (Some 200))) demoReady)) = 192
  /\ bufferSize (sender demoReady)
     <= bufferSize (sender (run [(1300, EvParser (PStatus "<Idle>" (Some 200)));
                                 (1550, EvParser (PStatus "<Idle>" (Some 100)))] demoReady)).
Proof.
  destruct bufferSize_raised_only_by_idle_status as (_ & B & M).
  split.
  - apply (B 1300 "<Idle>" 200 demoReady); vm_compute; reflexivity.
  - apply M.
Defined.

(** The scenario of the specification: [buf.rx = 200] makes the buffer size
    192, and a later [buf.rx = 100] leaves it there. *)
Example bufferSize_scenario :
  bufferSize (sender demoReady) = 120
  /\ bufferSize (sender (step 1300 (EvParser (PStatus "<Idle>" (Some 200))) demoReady)) = 192
  /\ bufferSize (sender (run [(1300, EvParser (PStatus "<Idle>" (Some 200)));
                              (1550, EvParser (PStatus "<Idle>" (Some 100)))] demoReady))
     = 192.
Proof. vm_compute. repeat split; reflexivity. Qed.

(** C6 at a concrete input: the [ok] after the parser-state report of
    [demoParserState]. *)
Lemma ok_consumed_by_parser_state_reply_witness :
  maskQueryParserStateReply (actionMask demoParserState) = true
  /\ sender (controller_on_ok 1460 "ok" demoParserState) = sender demoParserState
  /\ feeder (controller_on_ok 1460 "ok" demoParserState) = feeder demoParserState
  /\ emitted (controller_on_ok 1460 "ok" demoParserState) = emitted demoParserState.
Proof.
  assert (M : maskQueryParserStateReply (actionMask demoParserState) = true) by (vm_compute; reflexivity).
  destruct (ok_consumed_by_parser_state_reply 1460 "ok" demoParserState M)
    as (E & _ & _ & Es & Ef & _).
  split; [exact M|]. split; [exact Es|]. split; [exact Ef|].
  rewrite E. vm_compute. reflexivity.
Defined.

(** C7, the claim as stated fails: the alarm event of [demoAlarm], whose
    parser reports the alarm state, leaves the second line in the Feeder's
    queue and the pending flag set; the Feeder is reset by the
    acknowledgement that comes next. *)
Lemma alarm_event_keeps_feeder :
  isAlarm (controllerState demoAlarm) = true
  /\ feeder (step 1320 (EvParser (PAlarm "ALARM: Hard limit")) demoAlarm)
     = mkFeeder [("G0 X2", tt)] false None true
  /\ emitted (step 1320 (EvParser (PAlarm "ALARM: Hard limit")) demoAlarm)
     = (emitted demoAlarm ++ [ConnectionRead "ALARM: Hard limit"])%list
  /\ feeder (run [(1320, EvParser (PAlarm "ALARM: Hard limit")); (1330, EvParser (POk "ok"))]
               demoAlarm)
     = mkFeeder [] false None false.
Proof. vm_compute. repeat split; reflexivity. Qed.

(** C7 at a concrete input. *)
Lemma alarm_surfaced_feeder_reset_when_sending_witness :
  isAlarm (controllerState demoAlarm) = true
  /\ isOpen demoAlarm = true
  /\ feeder (controller_on_alarm "ALARM: Hard limit" demoAlarm) = feeder demoAlarm
  /\ written (Feeder_next demoAlarm) = written demoAlarm
  /\ feeder (feeder_on_data "G0 X2" tt demoAlarm) = mkFeeder [] false None false.
Proof.
  assert (A : isAlarm (controllerState demoAlarm) = true) by (vm_compute; reflexivity).
  assert (O : isOpen demoAlarm = true) by (vm_compute; reflexivity).
  destruct (alarm_surfaced_feeder_reset_when_sending
              "ALARM: Hard limit" "G0 X2" (tt : @Ctx demo) [] demoAlarm) as ((_ & F & _) & R).
  destruct (R A) as (_ & N & _ & S).
  destruct (S O) as (_ & D & _).
  split; [exact A|]. split; [exact O|]. split; [exact F|]. split; [exact N|exact D].
Defined.

(** C8, the claim as stated fails: with the connection closed the tick
    leaves [senderFinishTime] at 1800 although the machine is not idle. *)
Lemma tick_on_closed_connection_keeps_finish_time :
  senderFinishTime (actionTime demoFinishedClosed) = 1800
  /\ isIdle (controllerState demoFinishedClosed) = false
  /\ isOpen demoFinishedClosed = false
  /\ senderFinishTime (actionTime (step 5000 EvTick demoFinishedClosed)) = 1800.
Proof. vm_compute. repeat split; reflexivity. Qed.

(** C8 at a concrete input: the tick 700 ms after the end of the program of
    [demoFinished], the machine idle where the cached state has it. *)
Lemma tick_detects_end_of_program_witness :
  isOpen demoFinished = true
  /\ ready demoFinished = true
  /\ senderFinishTime (actionTime demoFinished) > 0
  /\ senderFinishTime (actionTime (tick 2500 demoFinished)) = 0
  /\ workflow (tick 2500 demoFinished) = WORKFLOW_STATE_IDLE.
Proof.
  assert (O : isOpen demoFinished = true) by (vm_compute; reflexivity).
  assert (R : ready demoFinished = true) by (vm_compute; reflexivity).
  assert (S : senderFinishTime (actionTime demoFinished) > 0) by (vm_compute; reflexivity).
  destruct (tick_detects_end_of_program 2500 demoFinished) as (K & _).
  destruct (K O R S) as (_ & T & _).
  assert (Hi : isEqual (getWorkPosition (state demoFinished))
                 (getWorkPosition (Some (controllerState demoFinished)))
               && isIdle (controllerState demoFinished) = true)
    by (vm_compute; reflexivity).
  assert (Ht : Z.abs (2500 - senderFinishTime (actionTime demoFinished)) > 500)
    by (vm_compute; reflexivity).
  destruct (T Hi Ht) as (T1 & T2 & _).
  split; [exact O|]. split; [exact R|]. split; [exact S|]. split; [exact T1|exact T2].
Defined.

(** C9 at concrete inputs: a line in the running workflow of [demoRunning]
    and in the idle workflow of [demoReady]. *)
Lemma sender_data_written_iff_streaming_witness :
  written (sender_on_data "  G1 X9 " demoRunning)
  = (written demoRunning ++ [("G1 X9" ++ NL)%js])%list
  /\ sender_on_data "  G1 X9 " demoReady = demoReady.
Proof.
  destruct (sender_data_written_iff_streaming "  G1 X9 " demoRunning) as (_ & _ & W).
  destruct (sender_data_written_iff_streaming "  G1 X9 " demoReady) as (I & _).
  split.
  - destruct W as (_ & W); [vm_compute; reflexivity|left; vm_compute; reflexivity
                           |vm_compute; discriminate|].
    rewrite W. vm_compute. reflexivity.
  - apply I. right. left. vm_compute. reflexivity.
Defined.

(** C10 at a concrete input: a parser-state report in the running workflow
    of [demoRunning], then an [ok]. *)
Lemma parserstate_masks_next_ok_witness :
  maskQueryParserStateReply (actionMask demoParserState) = true
  /\ sender (controller_on_ok 1460 "ok" demoParserState) = sender demoRunning.
Proof.
  destruct (parserstate_masks_next_ok 1460
              "[G0 G54 G17 G21 G90 G94 M0 M5 M9 T0 F0. S0.]" "ok" demoRunning)
    as (M & _ & _ & _ & _ & S & _).
  split; [exact M|exact S].
Defined.

(** * Further properties of the controller *)

(** ** Comments and white space *)

Lemma occurs_append (c : N) (s t : string) :
  occurs c (s ++ t) = occurs c s || occurs c t.
Proof.
  induction s as [|d s IH]; simpl; [reflexivity|].
  rewrite IH, orb_assoc. reflexivity.
Qed.

Lemma isSpace_not_semicolon (c : N) : isSpace c = true -> N.eqb c SEMICOLON = false.
Proof.
  intro S. destruct (N.eqb_spec c SEMICOLON) as [E|E]; [|reflexivity].
  subst c. discriminate S.
Qed.

Lemma isLineTerminator_space (c : N) : isLineTerminator c = true -> isSpace c = true.
Proof.
  unfold isLineTerminator. intro T.
  repeat (apply orb_true_iff in T; destruct T as [T|T]);
    apply N.eqb_eq in T; subst c; reflexivity.
Qed.

Lemma removeComments_no_semicolon (s : string) :
  forall (inComment : bool) (pending : string),
    occurs SEMICOLON pending = false ->
    occurs SEMICOLON (removeComments inComment pending s) = false.
Proof.
  induction s as [|c s IH]; intros inComment pending P; simpl.
  - destruct inComment; [reflexivity|exact P].
  - destruct inComment.
    + destruct (isLineTerminator c) eqn:T.
      * apply IH. simpl.
        rewrite (isSpace_not_semicolon c (isLineTerminator_space c T)). reflexivity.
      * apply IH. reflexivity.
    + destruct (N.eqb c SEMICOLON) eqn:E; [apply IH; reflexivity|].
      destruct (isSpace c).
      * apply IH. rewrite occurs_append, P. simpl. rewrite E. reflexivity.
      * rewrite occurs_append, P. simpl. rewrite E. apply IH. reflexivity.
Qed.

Lemma append_assoc (s t u : string) : ((s ++ t) ++ u = s ++ (t ++ u))%js.
Proof. induction s as [|c s IH]; simpl; [reflexivity|rewrite IH; reflexivity]. Qed.

Lemma removeComments_without_semicolon (s : string) :
  forall pending : string,
    occurs SEMICOLON s = false ->
    removeComments false pending s = (pending ++ s)%js.
Proof.
  induction s as [|c s IH]; intros pending N; simpl.
  - induction pending as [|d p IHp]; simpl; [reflexivity|rewrite <- IHp; reflexivity].
  - simpl in N. apply orb_false_iff in N. destruct N as (E & N). rewrite E.
    destruct (isSpace c).
    + rewrite (IH _ N), append_assoc. reflexivity.
    + rewrite (IH _ N). reflexivity.
Qed.

Lemma trimStart_occurs (c : N) (s : string) :
  occurs c s = false -> occurs c (trimStart s) = false.
Proof.
  induction s as [|d s IH]; simpl; intro N; [reflexivity|].
  apply orb_false_iff in N. destruct N as (E & N).
  destruct (isSpace d); [apply IH; exact N|].
  simpl. rewrite E, N. reflexivity.
Qed.

Lemma trimEnd_occurs (c : N) (s : string) :
  occurs c s = false -> occurs c (trimEnd s) = false.
Proof.
  induction s as [|d s IH]; simpl; intro N; [reflexivity|].
  apply orb_false_iff in N. destruct N as (E & N).
  specialize (IH N).
  destruct (trimEnd s) as [|e t].
  - destruct (isSpace d); simpl; [reflexivity|rewrite E; reflexivity].
  - simpl. simpl in IH. rewrite E, IH. reflexivity.
Qed.

Lemma trimEnd_idempotent (s : string) : trimEnd (trimEnd s) = trimEnd s.
Proof.
  induction s as [|c s IH]; simpl; [reflexivity|].
  destruct (trimEnd s) as [|d t] eqn:T.
  - destruct (isSpace c) eqn:S; simpl; [reflexivity|rewrite S; reflexivity].
  - change (trimEnd (String c (String d t))) with
      (match trimEnd (String d t) with
       | EmptyString => if isSpace c then EmptyString else String c EmptyString
       | u => String c u
       end).
    rewrite IH. reflexivity.
Qed.

Lemma trimStart_startsClean (s : string) : startsClean (trimStart s).
Proof.
  induction s as [|c s IH]; simpl; [exact I|].
  destruct (isSpace c) eqn:S; [exact IH|exact S].
Qed.

Lemma trimStart_of_startsClean (s : string) : startsClean s -> trimStart s = s.
Proof.
  destruct s as [|c s]; simpl; intro C; [reflexivity|]. rewrite C. reflexivity.
Qed.

Lemma trimEnd_startsClean (s : string) : startsClean s -> startsClean (trimEnd s).
Proof.
  destruct s as [|c s]; simpl; intro C; [exact I|].
  destruct (trimEnd s); [rewrite C|]; exact C.
Qed.

Lemma trim_idempotent (s : string) : trim (trim s) = trim s.
Proof.
  unfold trim.
  rewrite (trimStart_of_startsClean (trimEnd (trimStart s))).
  - apply trimEnd_idempotent.
  - apply trimEnd_startsClean, trimStart_startsClean.
Qed.

Lemma trim_trimmed (s : string) :
  trimStart (trim s) = trim s /\ trimEnd (trim s) = trim s.
Proof.
  unfold trim. split.
  - apply trimStart_of_startsClean, trimEnd_startsClean, trimStart_startsClean.
  - apply trimEnd_idempotent.
Qed.

(** X1.  [line.replace(/\s*;.*/g, '').trim()], the first step of both data
    filters: the result holds no semicolon, has no white space at either
    end, and is left as it is by a second pass; a line without a semicolon
    is only trimmed. *)
Theorem stripComment_removes_comments_once (line : string) :
  occurs SEMICOLON (stripComment line) = false
  /\ trimStart (stripComment line) = stripComment line
  /\ trimEnd (stripComment line) = stripComment line
  /\ stripComment (stripComment line) = stripComment line
  /\ (occurs SEMICOLON line = false -> stripComment line = trim line).
Proof.
  assert (N : occurs SEMICOLON (stripComment line) = false).
  { unfold stripComment, trim.
    apply trimEnd_occurs, trimStart_occurs, removeComments_no_semicolon. reflexivity. }
  destruct (trim_trimmed (removeComments false EmptyString line)) as (T1 & T2).
  split; [exact N|]. split; [exact T1|]. split; [exact T2|]. split.
  - unfold stripComment at 1.
    rewrite (removeComments_without_semicolon _ EmptyString N). simpl.
    unfold stripComment. apply trim_idempotent.
  - intro L. unfold stripComment.
    rewrite (removeComments_without_semicolon _ EmptyString L). reflexivity.
Qed.

(** ** Closed connections and the announcement of the workflow state *)

Section Conduct.

Context `{Collaborators}.

Lemma lastWorkflow_app (w : WorkflowState) (t u : list Emit) :
  lastWorkflow w (t ++ u) = lastWorkflow (lastWorkflow w t) u.
Proof. unfold lastWorkflow. apply fold_left_app. Qed.

Lemma announced_refl (c : Controller) : announced c c.
Proof. exists []. split; [symmetry; apply app_nil_r|reflexivity]. Qed.

Lemma announced_trans (c1 c2 c3 : Controller) :
  announced c1 c2 -> announced c2 c3 -> announced c1 c3.
Proof.
  intros (t & E1 & L1) (u & E2 & L2). exists (t ++ u)%list. split.
  - rewrite E2, E1, app_assoc. reflexivity.
  - rewrite lastWorkflow_app, L1. exact L2.
Qed.

Lemma conduct_refl (c : Controller) : conduct c c.
Proof.
  split; [reflexivity|]. split; [intros _; reflexivity|apply announced_refl].
Qed.

Lemma conduct_trans (c1 c2 c3 : Controller) :
  conduct c1 c2 -> conduct c2 c3 -> conduct c1 c3.
Proof.
  intros (O1 & W1 & A1) (O2 & W2 & A2). split; [congruence|]. split.
  - intro O. rewrite W2, W1; [reflexivity|exact O|congruence].
  - eapply announced_trans; eassumption.
Qed.

(** Goals about one layer of field updates that does not write. *)
Ltac conduct_fields :=
  unfold conduct, announced; simpl;
  split; [reflexivity|];
  split; [intros _; reflexivity|];
  first [ exists []; split; [symmetry; apply app_nil_r|reflexivity]
        | eexists [_]; split; reflexivity ].

(** A branch that is taken on an open connection only. *)
Ltac conduct_open O :=
  unfold conduct, announced; simpl;
  split; [reflexivity|];
  split; [let C := fresh "C" in
         intro C; unfold isClose in O; rewrite C in O; discriminate O|];
  first [ exists []; split; [symmetry; apply app_nil_r|reflexivity]
        | eexists [_]; split; reflexivity
        | eexists [_; _]; split; reflexivity ].

Lemma Feeder_hold_conduct (r : option Reason) (c : Controller) :
  conduct c (Feeder_hold r c).
Proof. conduct_fields. Qed.

Lemma Feeder_unhold_conduct (c : Controller) : conduct c (Feeder_unhold c).
Proof. conduct_fields. Qed.

Lemma Feeder_reset_conduct (c : Controller) : conduct c (Feeder_reset c).
Proof. conduct_fields. Qed.

Lemma Feeder_feed_conduct (data : list string) (ctx : Ctx) (c : Controller) :
  conduct c (Feeder_feed data ctx c).
Proof. conduct_fields. Qed.

Lemma setFeederPending_conduct (b : bool) (c : Controller) :
  conduct c (setFeederPending b c).
Proof. conduct_fields. Qed.

Lemma setFeederQueue_conduct (q : list (string * Ctx)) (c : Controller) :
  conduct c (setFeederQueue q c).
Proof. conduct_fields. Qed.

Lemma feederDataFilter_conduct (line : string) (ctx : Ctx) (c : Controller) :
  conduct c (snd (feederDataFilter line ctx c)).
Proof.
  unfold feederDataFilter.
  destruct (startsWithPercent (stripComment line)).
  - destruct (JsString.eqb (stripComment line) WAIT); apply conduct_refl.
  - cbv zeta. cbn [snd].
    set (words := parseLineWords _).
    eapply conduct_trans with
      (c2 := match programMode words with
             | Some m =>
                 if JsString.eqb m "M0" then Feeder_hold (Some (ReasonData "M0")) c
                 else if JsString.eqb m "M1" then Feeder_hold (Some (ReasonData "M1")) c
                 else c
             | None => c
             end).
    + destruct (programMode words) as [m|]; [|apply conduct_refl].
      destruct (JsString.eqb m "M0"); [apply Feeder_hold_conduct|].
      destruct (JsString.eqb m "M1"); [apply Feeder_hold_conduct|apply conduct_refl].
    + destruct (includes words "M6"); [apply Feeder_hold_conduct|apply conduct_refl].
Qed.

Lemma feeder_on_data_conduct (line : string) (ctx : Ctx) (c : Controller) :
  conduct c (feeder_on_data line ctx c).
Proof.
  unfold feeder_on_data.
  destruct (isClose c) eqn:O; [apply conduct_refl|].
  destruct (isAlarm (controllerState c)); [apply Feeder_reset_conduct|].
  destruct (isEmpty (trim line)); [apply conduct_refl|conduct_open O].
Qed.

Lemma Feeder_next_conduct (c : Controller) : conduct c (Feeder_next c).
Proof.
  unfold Feeder_next.
  destruct (feeder_hold (feeder c)); [apply conduct_refl|].
  destruct (feeder_queue (feeder c)) as [|[line ctx] q]; [apply setFeederPending_conduct|].
  pose proof (feederDataFilter_conduct line ctx (setFeederQueue q c)) as F.
  destruct (feederDataFilter line ctx (setFeederQueue q c)) as [[line' ctx'] c1].
  cbn [snd] in F.
  eapply conduct_trans; [apply setFeederQueue_conduct|].
  eapply conduct_trans; [exact F|].
  eapply conduct_trans; [apply feeder_on_data_conduct|].
  apply setFeederPending_conduct.
Qed.

Lemma command_gcode_conduct (commands : list string) (ctx : Ctx) (c : Controller) :
  conduct c (command_gcode commands ctx c).
Proof.
  unfold command_gcode.
  destruct (negb (Feeder_isPending _)).
  - eapply conduct_trans; [apply Feeder_feed_conduct|apply Feeder_next_conduct].
  - apply Feeder_feed_conduct.
Qed.

Lemma trigger_conduct (event : string) (c : Controller) :
  conduct c (trigger event c).
Proof.
  unfold trigger. generalize (eventHooks event). intro hooks. revert c.
  induction hooks as [|hook hooks IH]; intro c; simpl.
  - apply conduct_refl.
  - eapply conduct_trans; [|apply IH].
    destruct (JsString.eqb (fst hook) "system");
      [apply conduct_refl|apply command_gcode_conduct].
Qed.

Lemma Sender_hold_conduct (r : option Reason) (c : Controller) :
  conduct c (Sender_hold r c).
Proof. conduct_fields. Qed.

Lemma Sender_unhold_conduct (c : Controller) : conduct c (Sender_unhold c).
Proof. conduct_fields. Qed.

Lemma Sender_rewind_conduct (c : Controller) : conduct c (Sender_rewind c).
Proof. conduct_fields. Qed.

Lemma Sender_ack_conduct (c : Controller) : conduct c (Sender_ack c).
Proof.
  unfold Sender_ack.
  destruct (received (sender c) <? sent (sender c)); [|apply conduct_refl].
  destruct (queue (sender c)); conduct_fields.
Qed.

Lemma Workflow_pause_conduct (r : option Reason) (c : Controller) :
  conduct c (Workflow_pause r c).
Proof.
  unfold Workflow_pause, workflow_on_pause.
  destruct (workflow c) eqn:W; try apply conduct_refl.
  unfold conduct, announced; simpl. rewrite W.
  split; [reflexivity|]. split; [intros _; reflexivity|].
  eexists [_]. split; reflexivity.
Qed.

Lemma Workflow_start_conduct (c : Controller) : conduct c (Workflow_start c).
Proof.
  unfold Workflow_start, workflow_on_start.
  destruct (workflow c) eqn:W; try apply conduct_refl.
  unfold conduct, announced; simpl. rewrite W.
  split; [reflexivity|]. split; [intros _; reflexivity|].
  eexists [_]. split; reflexivity.
Qed.

Lemma Workflow_stop_conduct (c : Controller) : conduct c (Workflow_stop c).
Proof.
  unfold Workflow_stop, workflow_on_stop.
  destruct (workflow c) eqn:W; try apply conduct_refl;
    unfold conduct, announced; simpl; rewrite W;
    (split; [reflexivity|]); (split; [intros _; reflexivity|]);
    eexists [_]; split; reflexivity.
Qed.

Lemma senderDataFilter_conduct (line : string) (c : Controller) :
  conduct c (snd (senderDataFilter line c)).
Proof.
  unfold senderDataFilter. cbv zeta.
  set (ctx := populateContext _ _).
  set (c0 := setSender (setSenderContext ctx (sender c)) c).
  assert (F0 : conduct c c0) by (subst c0; conduct_fields).
  eapply conduct_trans; [exact F0|].
  destruct (startsWithPercent (stripComment line)).
  - destruct (JsString.eqb (stripComment line) WAIT); cbn [snd].
    + apply Sender_hold_conduct.
    + conduct_fields.
  - cbn [snd].
    set (words := parseLineWords _).
    eapply conduct_trans with
      (c2 := match programMode words with
             | Some m =>
                 if JsString.eqb m "M0" then Workflow_pause (Some (ReasonData "M0")) c0
                 else if JsString.eqb m "M1" then Workflow_pause (Some (ReasonData "M1")) c0
                 else c0
             | None => c0
             end).
    + destruct (programMode words) as [m|]; [|apply conduct_refl].
      destruct (JsString.eqb m "M0"); [apply Workflow_pause_conduct|].
      destruct (JsString.eqb m "M1"); [apply Workflow_pause_conduct|apply conduct_refl].
    + destruct (includes words "M6"); [apply Workflow_pause_conduct|apply conduct_refl].
Qed.

Lemma sender_on_data_conduct (line : string) (c : Controller) :
  conduct c (sender_on_data line c).
Proof.
  unfold sender_on_data.
  destruct (isClose c) eqn:O; [apply conduct_refl|].
  destruct (WorkflowState_eqb (workflow c) WORKFLOW_STATE_IDLE); [apply conduct_refl|].
  destruct (isEmpty (trim line)); [apply conduct_refl|conduct_open O].
Qed.

Lemma Sender_process_conduct (fuel : nat) (c : Controller) :
  conduct c (Sender_process fuel c).
Proof.
  revert c. induction fuel as [|fuel IH]; intro c; simpl.
  - apply conduct_refl.
  - destruct (sender_hold (sender c) || negb (sent (sender c) <? total (sender c)));
      [apply conduct_refl|].
    pose proof (senderDataFilter_conduct (lineAt (lines (sender c)) (sent (sender c))) c) as F.
    destruct (senderDataFilter (lineAt (lines (sender c)) (sent (sender c))) c)
      as [line c1].
    cbn [snd] in F.
    destruct (isEmpty line).
    + eapply conduct_trans; [exact F|].
      eapply conduct_trans; [|apply IH]. conduct_fields.
    + destruct ((dataLength (sender c1) + Z.of_nat (JsString.length line) + 1
                 <=? bufferSize (sender c1)) || queueIsEmpty (sender c1));
        [|apply conduct_refl].
      eapply conduct_trans; [exact F|].
      eapply conduct_trans; [|apply IH].
      eapply conduct_trans; [|apply sender_on_data_conduct]. conduct_fields.
Qed.

Lemma Sender_start_conduct (now : Z) (c : Controller) : conduct c (Sender_start now c).
Proof. conduct_fields. Qed.

Lemma Sender_next_conduct (now : Z) (c : Controller) : conduct c (Sender_next now c).
Proof.
  unfold Sender_next.
  destruct (negb (loaded (sender c))); [apply conduct_refl|].
  cbv zeta.
  set (c0 := if (sent (sender c) =? 0) && (0 <? total (sender c))
             then Sender_start now c else c).
  assert (F0 : conduct c c0).
  { subst c0. destruct ((sent (sender c) =? 0) && (0 <? total (sender c)));
      [apply Sender_start_conduct|apply conduct_refl]. }
  set (c1 := Sender_process _ c0).
  assert (F1 : conduct c0 c1) by apply Sender_process_conduct.
  eapply conduct_trans; [exact F0|].
  eapply conduct_trans; [exact F1|].
  destruct ((received (sender c1) =? total (sender c1)) && queueIsEmpty (sender c1)
            && (finishedAt (sender c1) =? 0));
    [conduct_fields|apply conduct_refl].
Qed.

Lemma Workflow_resume_conduct (now : Z) (c : Controller) :
  conduct c (Workflow_resume now c).
Proof.
  unfold Workflow_resume, workflow_on_resume.
  destruct (workflow c) eqn:W; try apply conduct_refl.
  eapply conduct_trans; [|apply Sender_next_conduct].
  unfold conduct, announced; simpl. rewrite W.
  split; [reflexivity|]. split; [intros _; reflexivity|].
  eexists [_]. split; reflexivity.
Qed.

Lemma Sender_load_conduct (n text : string) (ctx : Ctx) (c : Controller) :
  conduct c (snd (Sender_load n text ctx c)).
Proof.
  unfold Sender_load. destruct (loadable n text); cbn [snd];
    [conduct_fields|apply conduct_refl].
Qed.

Lemma Sender_unload_conduct (c : Controller) : conduct c (Sender_unload c).
Proof. conduct_fields. Qed.

Lemma flagsKept_refl (c : Controller) : flagsKept c c.
Proof. repeat split; reflexivity. Qed.

Lemma flagsKept_trans (c1 c2 c3 : Controller) :
  flagsKept c1 c2 -> flagsKept c2 c3 -> flagsKept c1 c3.
Proof. intros (A1 & B1 & C1) (A2 & B2 & C2). repeat split; congruence. Qed.

Lemma streamFrame_flagsKept (c c' : Controller) : streamFrame c c' -> flagsKept c c'.
Proof.
  intros (_ & R & M & _). repeat split; [exact R|rewrite M; reflexivity..].
Qed.

Lemma orderly_refl (c : Controller) : orderly c c.
Proof. split; [apply conduct_refl|apply flagsKept_refl]. Qed.

Lemma orderly_trans (c1 c2 c3 : Controller) :
  orderly c1 c2 -> orderly c2 c3 -> orderly c1 c3.
Proof.
  intros (A1 & B1) (A2 & B2).
  split; [eapply conduct_trans|eapply flagsKept_trans]; eassumption.
Qed.

Lemma orderly_stream (c c' : Controller) :
  conduct c c' -> streamFrame c c' -> orderly c c'.
Proof. intros A B. split; [exact A|apply streamFrame_flagsKept, B]. Qed.

(** ** Writing *)

Lemma write_conduct (data : string) (c : Controller) : conduct c (write data c).
Proof.
  unfold write. destruct (isClose c) eqn:O; [apply conduct_refl|conduct_open O].
Qed.

Lemma writeln_conduct (data : string) (c : Controller) : conduct c (writeln data c).
Proof.
  unfold writeln. destruct (includes SMOOTHIE_REALTIME_COMMANDS data); apply write_conduct.
Qed.

(** A write of something else than the two queries keeps the echo flags. *)
Lemma write_orderly (data : string) (c : Controller) :
  JsString.eqb (trim data) "?" = false ->
  JsString.eqb (trim data) "$G" = false ->
  orderly c (write data c).
Proof.
  intros Q G. split; [apply write_conduct|].
  unfold write. destruct (isClose c); [apply flagsKept_refl|].
  unfold flagsKept. simpl. rewrite Q, G. repeat split; reflexivity.
Qed.

Lemma emit_conduct (e : Emit) (c : Controller) :
  (forall s, e <> WorkflowStateChange s) -> conduct c (emit e c).
Proof.
  intro N. unfold conduct, announced. simpl.
  split; [reflexivity|]. split; [intros _; reflexivity|].
  exists [e]. split; [reflexivity|].
  destruct e; try reflexivity. exfalso. eapply N. reflexivity.
Qed.

(** One operation applied to a controller, recognised by its head. *)
Ltac orderly_op :=
  lazymatch goal with
  | |- orderly _ (write _ _) => apply write_orderly; reflexivity
  | |- orderly _ (writeln _ _) => unfold writeln; simpl; apply write_orderly; reflexivity
  | |- orderly _ (trigger _ _) =>
      apply orderly_stream; [apply trigger_conduct|apply feederFrame_stream, trigger_frame]
  | |- orderly _ (command_gcode _ _ _) =>
      apply orderly_stream;
      [apply command_gcode_conduct|apply feederFrame_stream, command_gcode_frame]
  | |- orderly _ (Feeder_next _) =>
      apply orderly_stream; [apply Feeder_next_conduct|apply feederFrame_stream, Feeder_next_frame]
  | |- orderly _ (Feeder_reset _) =>
      apply orderly_stream;
      [apply Feeder_reset_conduct|apply feederFrame_stream, Feeder_reset_frame]
  | |- orderly _ (Feeder_unhold _) =>
      apply orderly_stream;
      [apply Feeder_unhold_conduct|apply feederFrame_stream, Feeder_unhold_frame]
  | |- orderly _ (emit _ _) =>
      apply orderly_stream;
      [apply emit_conduct; intros ? ?; discriminate|apply feederFrame_stream, emit_frame]
  | |- orderly _ (Sender_next _ _) =>
      apply orderly_stream; [apply Sender_next_conduct|apply sendFrame_stream, Sender_next_frame]
  | |- orderly _ (Workflow_pause _ _) =>
      apply orderly_stream;
      [apply Workflow_pause_conduct|apply sendFrame_stream, Workflow_pause_frame]
  | |- orderly _ (Sender_unhold _) =>
      apply orderly_stream;
      [apply Sender_unhold_conduct|apply sendFrame_stream, Sender_unhold_frame]
  | |- orderly _ (Workflow_stop _) =>
      apply orderly_stream; [apply Workflow_stop_conduct|apply Workflow_stop_frame]
  | |- orderly _ (Workflow_start _) =>
      apply orderly_stream; [apply Workflow_start_conduct|apply Workflow_start_frame]
  | |- orderly _ (Workflow_resume _ _) =>
      apply orderly_stream; [apply Workflow_resume_conduct|apply Workflow_resume_frame]
  | |- orderly _ (Sender_unload _) =>
      apply orderly_stream; [apply Sender_unload_conduct|apply Sender_unload_frame]
  | |- orderly _ (Sender_ack _) =>
      apply orderly_stream; [apply Sender_ack_conduct|apply Sender_ack_frame]
  end.

(** A chain of operations, peeled from the outside. *)
Ltac orderly_chain :=
  lazymatch goal with
  | |- orderly ?c ?c => apply orderly_refl
  | |- _ => eapply orderly_trans; [|solve [orderly_op]]; orderly_chain
  end.

Lemma setControllerState_orderly (s : SmoothieState Rest) (c : Controller) :
  orderly c (setControllerState s c).
Proof. split; [conduct_fields|repeat split; reflexivity]. Qed.

Lemma command_orderly (now : Z) (cmd : Command) (c : Controller) :
  orderly c (command now cmd c).
Proof.
  destruct cmd; unfold command; try solve [orderly_chain].
  - match goal with
    | |- context [Sender_load ?n ?t ?x ?k] =>
        pose proof (Sender_load_frame n t x k) as F;
        pose proof (Sender_load_conduct n t x k) as G;
        destruct (Sender_load n t x k) as [ok c1]
    end.
    cbn [snd] in F, G. pose proof (orderly_stream _ _ G F) as K.
    destruct ok; simpl; [|exact K].
    eapply orderly_trans; [exact K|]. orderly_chain.
  - cbv zeta.
    match goal with |- context [if ?b then _ else _] => destruct b end; orderly_chain.
  - destruct (WorkflowState_eqb (workflow c) WORKFLOW_STATE_RUNNING); orderly_chain.
  - cbv zeta. eapply orderly_trans; [|apply setControllerState_orderly]. orderly_chain.
  - cbv zeta. eapply orderly_trans; [|apply setControllerState_orderly]. orderly_chain.
Qed.

(** ** The listeners, the queries and the tick *)

Ltac split_ifs :=
  repeat match goal with
         | |- context [if ?b then _ else _] => destruct b eqn:?
         end.

Lemma flagsKept_lowered (c c' : Controller) : flagsKept c c' -> flagsLowered c c'.
Proof. intros (R & A & B). repeat split; congruence. Qed.

Lemma controller_on_status_conduct (raw : string) (buf_rx : option Z) (c : Controller) :
  conduct c (controller_on_status raw buf_rx c).
Proof.
  unfold controller_on_status. cbv zeta. simpl.
  destruct (replyStatusReport (actionMask c)); split_ifs; conduct_fields.
Qed.

Lemma controller_on_status_flags (raw : string) (buf_rx : option Z) (c : Controller) :
  flagsLowered c (controller_on_status raw buf_rx c).
Proof.
  unfold controller_on_status, flagsLowered. cbv zeta. simpl.
  destruct (replyStatusReport (actionMask c)) eqn:R; split_ifs; simpl;
    repeat split; intros; congruence.
Qed.

Lemma controller_on_ok_conduct (now : Z) (raw : string) (c : Controller) :
  conduct c (controller_on_ok now raw c).
Proof.
  unfold controller_on_ok.
  destruct (maskQueryParserStateReply (actionMask c)).
  - destruct (replyParserState (actionMask c)); conduct_fields.
  - cbv zeta.
    destruct (WorkflowState_eqb (workflow c) WORKFLOW_STATE_RUNNING).
    + eapply conduct_trans; [|apply Sender_next_conduct].
      eapply conduct_trans; [|apply Sender_ack_conduct].
      match goal with |- context [if ?b then _ else _] => destruct b end;
        [apply Sender_unhold_conduct|apply conduct_refl].
    + match goal with |- context [if ?b then _ else _] => destruct b end.
      * eapply conduct_trans; [apply Sender_ack_conduct|apply Sender_next_conduct].
      * eapply conduct_trans; [|apply Feeder_next_conduct].
        apply emit_conduct. intros ? ?. discriminate.
Qed.

Lemma controller_on_ok_flags (now : Z) (raw : string) (c : Controller) :
  flagsLowered c (controller_on_ok now raw c).
Proof.
  unfold controller_on_ok.
  destruct (maskQueryParserStateReply (actionMask c)).
  - unfold flagsLowered.
    destruct (replyParserState (actionMask c)) eqn:R; simpl;
      repeat split; intros; congruence.
  - cbv zeta. apply flagsKept_lowered.
    destruct (WorkflowState_eqb (workflow c) WORKFLOW_STATE_RUNNING).
    + eapply flagsKept_trans;
        [|apply streamFrame_flagsKept, sendFrame_stream, Sender_next_frame].
      eapply flagsKept_trans; [|apply streamFrame_flagsKept, Sender_ack_frame].
      match goal with |- context [if ?b then _ else _] => destruct b end;
        [apply streamFrame_flagsKept, sendFrame_stream, Sender_unhold_frame
        |apply flagsKept_refl].
    + match goal with |- context [if ?b then _ else _] => destruct b end.
      * eapply flagsKept_trans;
          [apply streamFrame_flagsKept, Sender_ack_frame
          |apply streamFrame_flagsKept, sendFrame_stream, Sender_next_frame].
      * eapply flagsKept_trans;
          [apply streamFrame_flagsKept, feederFrame_stream, emit_frame
          |apply streamFrame_flagsKept, feederFrame_stream, Feeder_next_frame].
Qed.

Lemma controller_on_error_stream (now : Z) (raw : string) (c : Controller) :
  streamFrame c (controller_on_error now raw c).
Proof.
  unfold controller_on_error.
  destruct (WorkflowState_eqb (workflow c) WORKFLOW_STATE_RUNNING).
  - cbv zeta.
    eapply streamFrame_trans; [|apply sendFrame_stream, Sender_next_frame].
    eapply streamFrame_trans; [|apply Sender_ack_frame].
    eapply streamFrame_trans; [apply feederFrame_stream, emit_frame|].
    eapply streamFrame_trans; [apply feederFrame_stream, emit_frame|].
    destruct (negb ignoreErrors);
      [apply sendFrame_stream, Workflow_pause_frame|apply streamFrame_refl].
  - eapply streamFrame_trans; [apply feederFrame_stream, emit_frame|].
    apply feederFrame_stream, Feeder_next_frame.
Qed.

Lemma controller_on_error_orderly (now : Z) (raw : string) (c : Controller) :
  orderly c (controller_on_error now raw c).
Proof.
  unfold controller_on_error.
  destruct (WorkflowState_eqb (workflow c) WORKFLOW_STATE_RUNNING).
  - cbv zeta. destruct (negb ignoreErrors); orderly_chain.
  - orderly_chain.
Qed.

Lemma controller_on_parserstate_orderly (raw : string) (c : Controller) :
  orderly c (controller_on_parserstate raw c).
Proof.
  unfold controller_on_parserstate. cbv zeta. simpl.
  destruct (replyParserState (actionMask c));
    (split; [conduct_fields|repeat split; reflexivity]).
Qed.

Lemma queryStatusReport_orderly (now : Z) (c : Controller) :
  orderly c (queryStatusReport now c).
Proof.
  unfold queryStatusReport.
  destruct (ready c); simpl; [|apply orderly_refl].
  destruct (isOpen c) eqn:O;
    (destruct (timeQueryStatusReport (actionTime c) >? 0);
     [destruct (Z.abs (now - timeQueryStatusReport (actionTime c)) >=? 5000)|]);
    simpl; rewrite ?O;
    destruct (maskQueryStatusReport (actionMask c));
    (split; [|repeat split; reflexivity]);
    unfold conduct, announced; simpl;
    (split; [reflexivity|]); (split; [intro; try reflexivity; congruence|]);
    exists []; (split; [symmetry; apply app_nil_r|reflexivity]).
Qed.

Lemma queryParserStateBody_orderly (now : Z) (c : Controller) :
  orderly c (queryParserStateBody now c).
Proof.
  unfold queryParserStateBody.
  destruct (ready c); simpl; [|apply orderly_refl].
  destruct (isOpen c) eqn:O;
    (destruct (WorkflowState_eqb (workflow c) WORKFLOW_STATE_IDLE && isIdle (controllerState c));
     [destruct (timeQueryParserState (actionTime c) >? 0);
      [destruct (Z.abs (now - timeQueryParserState (actionTime c)) >=? 10000)|]|]);
    simpl; rewrite ?O;
    destruct (maskQueryParserStateState (actionMask c));
    destruct (maskQueryParserStateReply (actionMask c)); simpl;
    (split; [|repeat split; reflexivity]);
    unfold conduct, announced; simpl;
    (split; [reflexivity|]); (split; [intro; try reflexivity; congruence|]);
    exists []; (split; [symmetry; apply app_nil_r|reflexivity]).
Qed.

Lemma setThrottle_orderly (t : Throttle) (c : Controller) : orderly c (setThrottle t c).
Proof. split; [conduct_fields|repeat split; reflexivity]. Qed.

Lemma invoke_orderly (now : Z) (c : Controller) : orderly c (invoke now c).
Proof.
  unfold invoke.
  eapply orderly_trans; [apply setThrottle_orderly|apply queryParserStateBody_orderly].
Qed.

Lemma queryParserState_orderly (now : Z) (c : Controller) :
  orderly c (queryParserState now c).
Proof.
  unfold queryParserState.
  destruct (throttleElapsed now (throttle c));
    [apply invoke_orderly|apply setThrottle_orderly].
Qed.

Lemma throttleTimer_orderly (now : Z) (c : Controller) :
  orderly c (throttleTimer now c).
Proof.
  unfold throttleTimer.
  destruct (trailingPending (throttle c) && throttleElapsed now (throttle c));
    [apply invoke_orderly|apply orderly_refl].
Qed.

Lemma tick_orderly (now : Z) (c : Controller) : orderly c (tick now c).
Proof.
  unfold tick.
  destruct (isClose c); [apply orderly_refl|]. cbv zeta.
  set (c1 := if negb (settingsSynced c) then _ else c).
  assert (E1 : orderly c c1).
  { subst c1. destruct (negb (settingsSynced c)); [|apply orderly_refl].
    split; [conduct_fields|repeat split; reflexivity]. }
  set (c2 := if negb (stateSynced c1) then _ else c1).
  assert (E2 : orderly c1 c2).
  { subst c2. destruct (negb (stateSynced c1)); [|apply orderly_refl].
    split; [conduct_fields|repeat split; reflexivity]. }
  eapply orderly_trans; [exact E1|].
  eapply orderly_trans; [exact E2|].
  destruct (ready c2); cbn [negb]; [|apply orderly_refl].
  set (c3 := queryStatusReport now c2).
  assert (E3 : orderly c2 c3) by (subst c3; apply queryStatusReport_orderly).
  set (c4 := queryParserState now c3).
  assert (E4 : orderly c3 c4) by (subst c4; apply queryParserState_orderly).
  eapply orderly_trans; [exact E3|].
  eapply orderly_trans; [exact E4|].
  destruct (senderFinishTime (actionTime c4) >? 0); [|apply orderly_refl].
  match goal with |- context [if negb ?b then _ else _] => destruct b end; cbn [negb].
  - destruct (Z.abs (now - senderFinishTime (actionTime c4)) >? 500); [|apply orderly_refl].
    eapply orderly_trans; [|apply command_orderly].
    split; [conduct_fields|repeat split; reflexivity].
  - split; [conduct_fields|repeat split; reflexivity].
Qed.

Lemma sendInitCommands_conduct (i : nat) (c : Controller) :
  conduct c (sendInitCommands i c).
Proof.
  unfold sendInitCommands.
  destruct (isClose c) eqn:O; [apply conduct_refl|].
  destruct i as [|[|i]]; [apply conduct_refl|conduct_open O|conduct_fields].
Qed.

Lemma dispatch_conduct (now : Z) (e : ParserEvent) (c : Controller) :
  conduct c (dispatch now e c).
Proof.
  destruct e; simpl.
  - apply controller_on_status_conduct.
  - apply controller_on_ok_conduct.
  - apply controller_on_error_orderly.
  - apply emit_conduct. intros ? ?. discriminate.
  - apply controller_on_parserstate_orderly.
  - apply emit_conduct. intros ? ?. discriminate.
  - apply emit_conduct. intros ? ?. discriminate.
  - apply emit_conduct. intros ? ?. discriminate.
Qed.

Lemma dispatch_flags (now : Z) (e : ParserEvent) (c : Controller) :
  flagsLowered c (dispatch now e c).
Proof.
  destruct e; simpl.
  - apply controller_on_status_flags.
  - apply controller_on_ok_flags.
  - apply flagsKept_lowered, controller_on_error_orderly.
  - repeat split; auto.
  - apply flagsKept_lowered, controller_on_parserstate_orderly.
  - repeat split; auto.
  - repeat split; auto.
  - repeat split; auto.
Qed.

Lemma Workflow_stop_written (c : Controller) : written (Workflow_stop c) = written c.
Proof. unfold Workflow_stop. destruct (workflow c); reflexivity. Qed.

(** ** The event loop *)

(** A successful [open] of a closed controller, in one piece. *)
Lemma open_closed (now : Z) (c : Controller) :
  isOpen c = false ->
  open now true c =
    clearActionValues (Workflow_stop (emit ConnectionOpen (setIsOpen true c))).
Proof.
  intro O. unfold open. rewrite O. cbv zeta. cbn [negb].
  unfold sendInitCommands.
  match goal with |- context [if loaded ?s then _ else _] => destruct (loaded s) end;
    cbn [command];
    match goal with |- context [if ?b then _ else _] => destruct b end; reflexivity.
Qed.

Lemma open_announced (now : Z) (ok : bool) (c : Controller) :
  announced c (open now ok c).
Proof.
  destruct (isOpen c) eqn:O.
  - unfold open. rewrite O. apply announced_refl.
  - destruct ok.
    + rewrite (open_closed now c O).
      eapply announced_trans with (c2 := emit ConnectionOpen (setIsOpen true c)).
      * exists [ConnectionOpen]. split; reflexivity.
      * eapply announced_trans; [apply Workflow_stop_conduct|].
        exists []. split; [symmetry; apply app_nil_r|reflexivity].
    + unfold open. rewrite O. simpl. exists [ConnectionError]. split; reflexivity.
Qed.

Lemma open_written (now : Z) (ok : bool) (c : Controller) :
  written (open now ok c) = written c.
Proof.
  destruct (isOpen c) eqn:O.
  - unfold open. rewrite O. reflexivity.
  - destruct ok.
    + rewrite (open_closed now c O). unfold clearActionValues. simpl.
      rewrite Workflow_stop_written. reflexivity.
    + unfold open. rewrite O. reflexivity.
Qed.

Lemma step_conduct (now : Z) (e : Event) (c : Controller) :
  (forall ok, e <> EvOpen ok) -> e <> EvClose -> conduct c (step now e c).
Proof.
  intros NO NC. destruct e; cbn [step].
  - apply setControllerState_orderly.
  - conduct_fields.
  - apply dispatch_conduct.
  - apply tick_orderly.
  - apply throttleTimer_orderly.
  - apply command_orderly.
  - apply write_conduct.
  - apply writeln_conduct.
  - exfalso. eapply NO. reflexivity.
  - exfalso. apply NC. reflexivity.
  - conduct_fields.
  - apply sendInitCommands_conduct.
Qed.

Lemma step_announced (now : Z) (e : Event) (c : Controller) :
  announced c (step now e c).
Proof.
  destruct e;
    try (apply step_conduct; [intros ? ?; discriminate|intro; discriminate]).
  - apply open_announced.
  - exists [ConnectionClose]. split; reflexivity.
Qed.

Lemma run_announced (events : list (Z * Event)) (c : Controller) :
  announced c (run events c).
Proof.
  revert c. induction events as [|[now e] events IH]; intro c; simpl.
  - apply announced_refl.
  - eapply announced_trans; [apply step_announced|apply IH].
Qed.

(** The events that leave the ready flag alone and raise no echo flag:
    all but the writes of a session and the life cycle of the connection. *)
Lemma step_flags (now : Z) (e : Event) (c : Controller) :
  match e with
  | EvWrite _ | EvWriteln _ | EvOpen _ | EvClose | EvConnectionError | EvInit _ => True
  | _ => flagsLowered c (step now e c)
  end.
Proof.
  destruct e; cbn [step]; try exact I.
  - apply flagsKept_lowered, setControllerState_orderly.
  - repeat split; auto.
  - apply dispatch_flags.
  - apply flagsKept_lowered, tick_orderly.
  - apply flagsKept_lowered, throttleTimer_orderly.
  - apply flagsKept_lowered, command_orderly.
Qed.

Lemma trimEnd_append_NL (s : string) : trimEnd (s ++ NL) = trimEnd s.
Proof.
  induction s as [|c s IH]; [reflexivity|].
  change (trimEnd (String c s ++ NL)) with
    (match trimEnd (s ++ NL) with
     | EmptyString => if isSpace c then EmptyString else String c EmptyString
     | t => String c t
     end).
  rewrite IH. reflexivity.
Qed.

Lemma trim_append_NL (s : string) : trim (s ++ NL) = trim s.
Proof.
  unfold trim. induction s as [|c s IH]; [reflexivity|].
  simpl. destruct (isSpace c); [exact IH|].
  apply (trimEnd_append_NL (String c s)).
Qed.

(** What [write] makes of the echo flags on an open connection. *)
Lemma write_flags (data : string) (c : Controller) :
  replyStatusReport (actionMask (write data c)) =
    (if isOpen c then JsString.eqb (trim data) "?" || replyStatusReport (actionMask c)
     else replyStatusReport (actionMask c))
  /\ replyParserState (actionMask (write data c)) =
    (if isOpen c then JsString.eqb (trim data) "$G" || replyParserState (actionMask c)
     else replyParserState (actionMask c))
  /\ ready (write data c) = ready c.
Proof.
  unfold write, isClose. destruct (isOpen c); simpl; repeat split; reflexivity.
Qed.

Lemma writeln_flags (data : string) (c : Controller) :
  replyStatusReport (actionMask (writeln data c)) =
    (if isOpen c then JsString.eqb (trim data) "?" || replyStatusReport (actionMask c)
     else replyStatusReport (actionMask c))
  /\ replyParserState (actionMask (writeln data c)) =
    (if isOpen c then JsString.eqb (trim data) "$G" || replyParserState (actionMask c)
     else replyParserState (actionMask c))
  /\ ready (writeln data c) = ready c.
Proof.
  unfold writeln. destruct (includes SMOOTHIE_REALTIME_COMMANDS data).
  - apply write_flags.
  - pose proof (write_flags (data ++ NL) c) as W.
    rewrite trim_append_NL in W. exact W.
Qed.

(** X2.  Nothing reaches the transport while the connection is closed:
    whatever the event (a parser event, the tick, the throttle's timer, a
    command, a write of a session, an initialisation step, [open] itself),
    a controller whose connection is closed has the same [written] log
    after it; and only a successful [open] opens the connection. *)
Theorem closed_connection_is_never_written (now : Z) (e : Event) (c : Controller) :
  isOpen c = false ->
  written (step now e c) = written c
  /\ (isOpen (step now e c) = true -> e = EvOpen true).
Proof.
  intro O.
  assert (K : (forall ok, e <> EvOpen ok) -> e <> EvClose ->
              written (step now e c) = written c
              /\ (isOpen (step now e c) = true -> e = EvOpen true)).
  { intros NO NC. destruct (step_conduct now e c NO NC) as (I & W & _).
    split; [apply W, O|]. intro T. rewrite I, O in T. discriminate T. }
  destruct e; try (apply K; [intros ? ?; discriminate|intro; discriminate]).
  - cbn [step]. split; [apply open_written|].
    destruct ok; [reflexivity|].
    unfold open. rewrite O. simpl. rewrite O. intro T. discriminate T.
  - cbn [step]. unfold close. simpl. split; [reflexivity|intro T; discriminate T].
Qed.

(** X3.  The sessions always know the workflow state: every event appends
    to the [emitted] log, and the last [workflow:state] among what it
    appends carries the workflow state after the event, and the state is
    the one before the event when it appends no [workflow:state].  Hence, from the constructor on, the last [workflow:state] emitted is the
    current workflow state, idle when none was emitted. *)
Theorem workflow_state_always_announced :
  (forall (now : Z) (e : Event) (c : Controller),
      exists t, emitted (step now e c) = (emitted c ++ t)%list
                /\ lastWorkflow (workflow c) t = workflow (step now e c))
  /\ (forall (events : list (Z * Event)) (s0 : SmoothieState Rest),
         let c := run events (initialController s0) in
         lastWorkflow WORKFLOW_STATE_IDLE (emitted c) = workflow c).
Proof.
  split.
  - intros now e c. apply step_announced.
  - intros events s0 c.
    destruct (run_announced events (initialController s0)) as (t & E & L).
    subst c. rewrite E. exact L.
Qed.

(** X4.  The echo flags are raised by the writes of a session only:
    [replyStatusReport] becomes set only at a [write] or [writeln] on an
    open connection whose data trims to [?], [replyParserState] only at one
    whose data trims to [$G]; the periodic queries, the commands and the
    parser events never raise them.  The status listener surfaces the raw
    report exactly when [replyStatusReport] is set, and clears the flag. *)
Theorem echo_flags_raised_by_session_writes_only (now : Z) (e : Event) (c : Controller) :
  (replyStatusReport (actionMask (step now e c)) = true ->
   replyStatusReport (actionMask c) = true
   \/ (isOpen c = true
       /\ exists data, (e = EvWrite data \/ e = EvWriteln data) /\ trim data = "?"))
  /\ (replyParserState (actionMask (step now e c)) = true ->
      replyParserState (actionMask c) = true
      \/ (isOpen c = true
          /\ exists data, (e = EvWrite data \/ e = EvWriteln data) /\ trim data = "$G"))
  /\ (forall (raw : string) (buf_rx : option Z),
         emitted (controller_on_status raw buf_rx c) =
           (emitted c ++
              if replyStatusReport (actionMask c) then [ConnectionRead raw] else [])%list
         /\ replyStatusReport (actionMask (controller_on_status raw buf_rx c)) = false).
Proof.
  assert (W : forall data k,
             (k = write data c \/ k = writeln data c) ->
             (e = EvWrite data \/ e = EvWriteln data) ->
             (replyStatusReport (actionMask k) = true ->
              replyStatusReport (actionMask c) = true
              \/ (isOpen c = true
                  /\ exists data, (e = EvWrite data \/ e = EvWriteln data) /\ trim data = "?"))
             /\ (replyParserState (actionMask k) = true ->
                 replyParserState (actionMask c) = true
                 \/ (isOpen c = true
                     /\ exists data,
                         (e = EvWrite data \/ e = EvWriteln data) /\ trim data = "$G"))).
  { intros data k K E.
    assert (F : replyStatusReport (actionMask k) =
                  (if isOpen c then JsString.eqb (trim data) "?" || replyStatusReport (actionMask c)
                   else replyStatusReport (actionMask c))
                /\ replyParserState (actionMask k) =
                  (if isOpen c
                   then JsString.eqb (trim data) "$G" || replyParserState (actionMask c)
                   else replyParserState (actionMask c))).
    { destruct K as [K|K]; subst k;
        [destruct (write_flags data c) as (A & B & _)
        |destruct (writeln_flags data c) as (A & B & _)]; split; assumption. }
    destruct F as (A & B). rewrite A, B.
    destruct (isOpen c); [|split; intro T; left; exact T].
    split; intro T; apply orb_true_iff in T; destruct T as [T|T];
      try (left; exact T);
      right; (split; [reflexivity|]); exists data;
      (split; [exact E|apply string_eqb_eq, T]). }
  split; [|split].
  - pose proof (step_flags now e c) as F.
    destruct e; try (destruct F as (_ & F & _); intro T; left; apply F, T).
    + apply (W data (write data c)); [left; reflexivity|left; reflexivity].
    + apply (W data (writeln data c)); [right; reflexivity|right; reflexivity].
    + cbn [step]. intro T. left. destruct (isOpen c) eqn:O.
      * unfold open in T. rewrite O in T. exact T.
      * destruct ok; [rewrite (open_closed now c O) in T; discriminate T|].
        unfold open in T. rewrite O in T. exact T.
    + intro T. left. exact T.
    + intro T. left. exact T.
    + cbn [step]. unfold sendInitCommands. intro T. left.
      destruct (isClose c); [exact T|]. destruct i as [|[|i]]; exact T.
  - pose proof (step_flags now e c) as F.
    destruct e; try (destruct F as (_ & _ & F); intro T; left; apply F, T).
    + apply (W data (write data c)); [left; reflexivity|left; reflexivity].
    + apply (W data (writeln data c)); [right; reflexivity|right; reflexivity].
    + cbn [step]. intro T. left. destruct (isOpen c) eqn:O.
      * unfold open in T. rewrite O in T. exact T.
      * destruct ok; [rewrite (open_closed now c O) in T; discriminate T|].
        unfold open in T. rewrite O in T. exact T.
    + intro T. left. exact T.
    + intro T. left. exact T.
    + cbn [step]. unfold sendInitCommands. intro T. left.
      destruct (isClose c); [exact T|]. destruct i as [|[|i]]; exact T.
  - intros raw buf_rx. unfold controller_on_status. cbv zeta. simpl.
    destruct (replyStatusReport (actionMask c)) eqn:R; split_ifs; simpl;
      rewrite ?app_nil_r; split; try reflexivity; exact R.
Qed.

(** X5.  The ready flag is raised by the initialisation only: it becomes
    set only at [sendInitCommands(i)] with [i >= 2] on an open connection;
    [close] and an error of the connection clear it, and no other event
    changes it. *)
Theorem ready_raised_by_initialisation_only (now : Z) (e : Event) (c : Controller) :
  (ready (step now e c) = true ->
   ready c = true
   \/ (isOpen c = true /\ exists i, e = EvInit i /\ (2 <= i)%nat))
  /\ (e = EvClose \/ e = EvConnectionError -> ready (step now e c) = false)
  /\ (ready (step now e c) <> ready c ->
      e = EvClose \/ e = EvConnectionError \/ exists i, e = EvInit i).
Proof.
  assert (K : forall k, ready k = ready c ->
                (ready k = true ->
                 ready c = true
                 \/ (isOpen c = true /\ exists i, e = EvInit i /\ (2 <= i)%nat))
                /\ (ready k <> ready c ->
                    e = EvClose \/ e = EvConnectionError \/ exists i, e = EvInit i)).
  { intros k R. split; [intro T; left; congruence|intro N; contradiction]. }
  assert (D : forall A B C : Prop, A /\ C -> B -> A /\ B /\ C) by tauto.
  pose proof (step_flags now e c) as F.
  destruct e; cbn [step];
    try (apply D; [apply K; apply F
                  |intros [T|T]; discriminate T]).
  - apply D; [apply K, write_flags|intros [T|T]; discriminate T].
  - apply D; [apply K, writeln_flags|intros [T|T]; discriminate T].
  - apply D; [apply K|intros [T|T]; discriminate T].
    destruct (isOpen c) eqn:O.
    + unfold open. rewrite O. reflexivity.
    + destruct ok; [rewrite (open_closed now c O)|unfold open; rewrite O; reflexivity].
      unfold clearActionValues. simpl.
      apply (Workflow_stop_frame (emit ConnectionOpen (setIsOpen true c))).
  - unfold close. simpl. split; [intro T; discriminate T|].
    split; [reflexivity|]. intros _. left. reflexivity.
  - simpl. split; [intro T; discriminate T|].
    split; [reflexivity|]. intros _. right. left. reflexivity.
  - split; [|split; [intros [T|T]; discriminate T|]].
    + unfold sendInitCommands, isClose. destruct (isOpen c); cbn [negb];
        [|intro T; left; exact T].
      destruct i as [|[|i]]; simpl; try (intro T; left; exact T).
      intros _. right. split; [reflexivity|]. exists (S (S i)). split; [reflexivity|lia].
    + intros _. right. right. exists i. reflexivity.
Qed.

(** ** The status query *)

Lemma queryStatusReport_written (now : Z) (c : Controller) :
  written (queryStatusReport now c) =
    (written c ++
       if ready c && isOpen c
          && (negb (maskQueryStatusReport (actionMask c)) || statusQueryExpired now c)
       then ["?"] else [])%list
  /\ emitted (queryStatusReport now c) = emitted c.
Proof.
  unfold queryStatusReport, statusQueryExpired.
  destruct (ready c); simpl; [|rewrite app_nil_r; split; reflexivity].
  destruct (isOpen c) eqn:O;
    (destruct (timeQueryStatusReport (actionTime c) >? 0);
     [destruct (Z.abs (now - timeQueryStatusReport (actionTime c)) >=? 5000)|]);
    simpl; rewrite ?O;
    destruct (maskQueryStatusReport (actionMask c)); simpl;
    rewrite ?app_nil_r; split; reflexivity.
Qed.

(** The controller after a status query that was written. *)
Lemma queryStatusReport_sent (now : Z) (c : Controller) :
  ready c && isOpen c
  && (negb (maskQueryStatusReport (actionMask c)) || statusQueryExpired now c) = true ->
  ready (queryStatusReport now c) = true
  /\ maskQueryStatusReport (actionMask (queryStatusReport now c)) = true
  /\ timeQueryStatusReport (actionTime (queryStatusReport now c)) = now.
Proof.
  unfold queryStatusReport, statusQueryExpired.
  destruct (ready c) eqn:R; simpl; [|intro T; discriminate T].
  destruct (isOpen c) eqn:O; simpl; [|intro T; discriminate T].
  destruct (timeQueryStatusReport (actionTime c) >? 0);
    [destruct (Z.abs (now - timeQueryStatusReport (actionTime c)) >=? 5000)|];
    simpl; rewrite ?O;
    destruct (maskQueryStatusReport (actionMask c)); simpl;
    intro T; try discriminate T; repeat split; try reflexivity; exact R.
Qed.

Lemma controller_on_status_query (raw : string) (buf_rx : option Z) (c : Controller) :
  maskQueryStatusReport (actionMask (controller_on_status raw buf_rx c)) = false
  /\ written (controller_on_status raw buf_rx c) = written c.
Proof.
  unfold controller_on_status. cbv zeta. simpl.
  destruct (replyStatusReport (actionMask c)); split_ifs; split; reflexivity.
Qed.

(** X6.  The status query: a call writes [?] (without a newline, and
    without telling the sessions) exactly when the controller is ready, the
    connection is open and the mask is clear or 5 s have passed since a
    query on record; after a query written at [t1 > 0] a call less than 5 s
    away changes nothing, and a status report makes the next call on a
    ready controller with an open connection write again. *)
Theorem status_query_once_until_answered :
  (forall (now : Z) (c : Controller),
      written (queryStatusReport now c) =
        (written c ++
           if ready c && isOpen c
              && (negb (maskQueryStatusReport (actionMask c)) || statusQueryExpired now c)
           then ["?"] else [])%list
      /\ emitted (queryStatusReport now c) = emitted c)
  /\ (forall (t1 t2 : Z) (c : Controller),
         ready c && isOpen c
         && (negb (maskQueryStatusReport (actionMask c)) || statusQueryExpired t1 c) = true ->
         0 < t1 ->
         Z.abs (t2 - t1) < 5000 ->
         queryStatusReport t2 (queryStatusReport t1 c) = queryStatusReport t1 c)
  /\ (forall (now : Z) (raw : string) (buf_rx : option Z) (c : Controller),
         ready c = true -> isOpen c = true ->
         written (queryStatusReport now (controller_on_status raw buf_rx c)) =
           (written c ++ ["?"])%list).
Proof.
  split; [exact queryStatusReport_written|]. split.
  - intros t1 t2 c S P L.
    destruct (queryStatusReport_sent t1 c S) as (R & M & T).
    set (c1 := queryStatusReport t1 c) in *.
    unfold queryStatusReport at 1. rewrite R, T. cbn [negb]. cbv zeta.
    assert (G : (t1 >? 0) = true) by (apply Z.gtb_lt; exact P).
    assert (E : (Z.abs (t2 - t1) >=? 5000) = false).
    { destruct (Z.geb_spec (Z.abs (t2 - t1)) 5000); [lia|reflexivity]. }
    rewrite G, E, M. reflexivity.
  - intros now raw buf_rx c R O.
    destruct (controller_on_status_query raw buf_rx c) as (M & W).
    destruct (controller_on_status_flags raw buf_rx c) as (R' & _).
    destruct (controller_on_status_conduct raw buf_rx c) as (O' & _).
    destruct (queryStatusReport_written now (controller_on_status raw buf_rx c)) as (Q & _).
    rewrite Q, W, R', O', R, O, M. reflexivity.
Qed.

(** X7.  The error listener does not look at the action masks and leaves
    them, and the query times, as they are: an [error] that arrives while
    the reply to the parser-state query is awaited does not release
    [queryParserState.reply], so that the next [ok] is still taken for that
    reply and reaches neither the Sender nor the Feeder. *)
Theorem error_leaves_the_action_masks (now now' : Z) (raw raw' : string) (c : Controller) :
  let c1 := controller_on_error now raw c in
  actionMask c1 = actionMask c
  /\ timeQueryParserState (actionTime c1) = timeQueryParserState (actionTime c)
  /\ timeQueryStatusReport (actionTime c1) = timeQueryStatusReport (actionTime c)
  /\ (maskQueryParserStateReply (actionMask c) = true ->
      let c2 := controller_on_ok now' raw' c1 in
      sender c2 = sender c1 /\ feeder c2 = feeder c1 /\ workflow c2 = workflow c1
      /\ written c2 = written c1
      /\ maskQueryParserStateReply (actionMask c2) = false).
Proof.
  intro c1.
  destruct (controller_on_error_stream now raw c) as (_ & _ & M & T1 & T2 & _).
  fold c1 in M, T1, T2.
  split; [exact M|]. split; [exact T1|]. split; [exact T2|].
  intros R c2. subst c2. unfold controller_on_ok. rewrite M, R.
  destruct (replyParserState (actionMask c)); simpl; repeat split; reflexivity.
Qed.

(** ** What an acknowledgement emits *)

Lemma workflowOnly_refl (c : Controller) : workflowOnly c c.
Proof. exists []. split; [symmetry; apply app_nil_r|constructor]. Qed.

Lemma workflowOnly_trans (c1 c2 c3 : Controller) :
  workflowOnly c1 c2 -> workflowOnly c2 c3 -> workflowOnly c1 c3.
Proof.
  intros (t & E1 & F1) (u & E2 & F2). exists (t ++ u)%list. split.
  - rewrite E2, E1, app_assoc. reflexivity.
  - apply Forall_app. split; assumption.
Qed.

(** Goals about one layer of field updates that emits nothing. *)
Ltac silent_fields :=
  unfold workflowOnly; simpl;
  exists []; split; [symmetry; apply app_nil_r|constructor].

Lemma Workflow_pause_workflowOnly (r : option Reason) (c : Controller) :
  workflowOnly c (Workflow_pause r c).
Proof.
  unfold Workflow_pause, workflow_on_pause.
  destruct (workflow c); try apply workflowOnly_refl.
  unfold workflowOnly. simpl. eexists [_]. split; [reflexivity|].
  constructor; [eexists; reflexivity|constructor].
Qed.

Lemma Sender_ack_workflowOnly (c : Controller) : workflowOnly c (Sender_ack c).
Proof.
  unfold Sender_ack.
  destruct (received (sender c) <? sent (sender c)); [|apply workflowOnly_refl].
  destruct (queue (sender c)); silent_fields.
Qed.

Lemma senderDataFilter_workflowOnly (line : string) (c : Controller) :
  workflowOnly c (snd (senderDataFilter line c)).
Proof.
  unfold senderDataFilter. cbv zeta.
  set (ctx := populateContext _ _).
  set (c0 := setSender (setSenderContext ctx (sender c)) c).
  assert (F0 : workflowOnly c c0) by (subst c0; silent_fields).
  eapply workflowOnly_trans; [exact F0|].
  destruct (startsWithPercent (stripComment line)).
  - destruct (JsString.eqb (stripComment line) WAIT); cbn [snd]; silent_fields.
  - cbn [snd].
    set (words := parseLineWords _).
    eapply workflowOnly_trans with
      (c2 := match programMode words with
             | Some m =>
                 if JsString.eqb m "M0" then Workflow_pause (Some (ReasonData "M0")) c0
                 else if JsString.eqb m "M1" then Workflow_pause (Some (ReasonData "M1")) c0
                 else c0
             | None => c0
             end).
    + destruct (programMode words) as [m|]; [|apply workflowOnly_refl].
      destruct (JsString.eqb m "M0"); [apply Workflow_pause_workflowOnly|].
      destruct (JsString.eqb m "M1");
        [apply Workflow_pause_workflowOnly|apply workflowOnly_refl].
    + destruct (includes words "M6");
        [apply Workflow_pause_workflowOnly|apply workflowOnly_refl].
Qed.

Lemma sender_on_data_workflowOnly (line : string) (c : Controller) :
  workflowOnly c (sender_on_data line c).
Proof.
  unfold sender_on_data.
  destruct (isClose c); [apply workflowOnly_refl|].
  destruct (WorkflowState_eqb (workflow c) WORKFLOW_STATE_IDLE); [apply workflowOnly_refl|].
  destruct (isEmpty (trim line)); [apply workflowOnly_refl|silent_fields].
Qed.

Lemma Sender_process_workflowOnly (fuel : nat) (c : Controller) :
  workflowOnly c (Sender_process fuel c).
Proof.
  revert c. induction fuel as [|fuel IH]; intro c; simpl.
  - apply workflowOnly_refl.
  - destruct (sender_hold (sender c) || negb (sent (sender c) <? total (sender c)));
      [apply workflowOnly_refl|].
    pose proof (senderDataFilter_workflowOnly
                  (lineAt (lines (sender c)) (sent (sender c))) c) as F.
    destruct (senderDataFilter (lineAt (lines (sender c)) (sent (sender c))) c)
      as [line c1].
    cbn [snd] in F.
    destruct (isEmpty line).
    + eapply workflowOnly_trans; [exact F|].
      eapply workflowOnly_trans; [|apply IH]. silent_fields.
    + destruct ((dataLength (sender c1) + Z.of_nat (JsString.length line) + 1
                 <=? bufferSize (sender c1)) || queueIsEmpty (sender c1));
        [|apply workflowOnly_refl].
      eapply workflowOnly_trans; [exact F|].
      eapply workflowOnly_trans; [|apply IH].
      eapply workflowOnly_trans; [|apply sender_on_data_workflowOnly]. silent_fields.
Qed.

Lemma Sender_next_workflowOnly (now : Z) (c : Controller) :
  workflowOnly c (Sender_next now c).
Proof.
  unfold Sender_next.
  destruct (negb (loaded (sender c))); [apply workflowOnly_refl|].
  cbv zeta.
  set (c0 := if (sent (sender c) =? 0) && (0 <? total (sender c))
             then Sender_start now c else c).
  assert (F0 : workflowOnly c c0).
  { subst c0. destruct ((sent (sender c) =? 0) && (0 <? total (sender c)));
      [silent_fields|apply workflowOnly_refl]. }
  set (c1 := Sender_process _ c0).
  assert (F1 : workflowOnly c0 c1) by apply Sender_process_workflowOnly.
  eapply workflowOnly_trans; [exact F0|].
  eapply workflowOnly_trans; [exact F1|].
  destruct ((received (sender c1) =? total (sender c1)) && queueIsEmpty (sender c1)
            && (finishedAt (sender c1) =? 0));
    [silent_fields|apply workflowOnly_refl].
Qed.

(** X8.  Acknowledgements of streamed lines are not echoed: when an [ok]
    is routed to the Sender (workflow running, or paused with a line
    awaiting its acknowledgement, and no reply to the parser-state query
    awaited), whatever it emits is a change of the workflow state, never
    the raw [ok], and the Feeder is left alone.  In every other state of
    the workflow the raw [ok] is the first thing emitted, and the Sender
    is left alone. *)
Theorem streaming_ok_is_not_echoed (now : Z) (raw : string) (c : Controller) :
  maskQueryParserStateReply (actionMask c) = false ->
  (workflow c = WORKFLOW_STATE_RUNNING
   \/ (workflow c = WORKFLOW_STATE_PAUSED /\ received (sender c) < sent (sender c)) ->
   workflowOnly c (controller_on_ok now raw c)
   /\ feeder (controller_on_ok now raw c) = feeder c)
  /\ (workflow c = WORKFLOW_STATE_IDLE
      \/ (workflow c = WORKFLOW_STATE_PAUSED /\ sent (sender c) <= received (sender c)) ->
      (exists t, emitted (controller_on_ok now raw c)
                 = (emitted c ++ ConnectionRead raw :: t)%list)
      /\ sender (controller_on_ok now raw c) = sender c).
Proof.
  intro M. unfold controller_on_ok. rewrite M. cbv zeta. split.
  - intro W.
    assert (K : forall k, workflowOnly c k -> feeder k = feeder c ->
                  workflowOnly c (Sender_next now (Sender_ack k))
                  /\ feeder (Sender_next now (Sender_ack k)) = feeder c).
    { intros k A B. split.
      - eapply workflowOnly_trans; [exact A|].
        eapply workflowOnly_trans; [apply Sender_ack_workflowOnly|].
        apply Sender_next_workflowOnly.
      - destruct (Sender_next_frame now (Sender_ack k)) as (_ & Fd & _).
        destruct (Sender_ack_keeps k) as (_ & _ & _ & _ & Fa).
        rewrite Fd, Fa. exact B. }
    destruct W as [W|(W & L)]; rewrite W; simpl.
    + match goal with |- context [if ?b then _ else _] => destruct b end;
        apply K; try reflexivity; [silent_fields|apply workflowOnly_refl].
    + apply Z.ltb_lt in L. rewrite L. apply K; [apply workflowOnly_refl|reflexivity].
  - intro W.
    assert (E : WorkflowState_eqb (workflow c) WORKFLOW_STATE_RUNNING = false
                /\ WorkflowState_eqb (workflow c) WORKFLOW_STATE_PAUSED
                   && (received (sender c) <? sent (sender c)) = false).
    { destruct W as [W|(W & L)]; rewrite W; simpl; [split; reflexivity|].
      split; [reflexivity|]. apply Z.ltb_ge. exact L. }
    destruct E as (E1 & E2). rewrite E1, E2.
    destruct (Feeder_next_frame (emit (ConnectionRead raw) c))
      as ((_ & _ & _ & _ & _ & _ & _ & _ & _ & _ & _ & _ & [t Et]) & Fs & _).
    split; [|exact Fs].
    exists t. rewrite Et. simpl. rewrite <- app_assoc. reflexivity.
Qed.

End Conduct.

(** ** Lines *)

Lemma allChars_append (p : N -> bool) (s t : string) :
  allChars p (s ++ t) = allChars p s && allChars p t.
Proof.
  induction s as [|c s IH]; simpl; [reflexivity|].
  rewrite IH, andb_assoc. reflexivity.
Qed.

(** The pieces of a split are made of the characters of the text, the
    line feeds apart. *)
Lemma splitLinesFrom_chars (p : N -> bool) (s : string) :
  (forall cur,
      allChars p cur = true ->
      allChars (fun c => N.eqb c LF || p c) s = true ->
      Forall (fun l => allChars p l = true) (splitLinesFrom cur s))
  /\ (forall c cur,
         allChars p cur = true ->
         allChars (fun c => N.eqb c LF || p c) (String c s) = true ->
         Forall (fun l => allChars p l = true) (splitLinesFrom cur (String c s))).
Proof.
  induction s as [|d s (IH1 & IH2)].
  - split.
    + intros cur C _. constructor; [exact C|constructor].
    + intros c cur C S. simpl in S. rewrite andb_true_r in S. simpl.
      destruct (N.eqb c LF) eqn:E.
      * constructor; [exact C|]. constructor; [reflexivity|constructor].
      * simpl in S.
        assert (K : allChars p (cur ++ String c EmptyString) = true)
          by (rewrite allChars_append, C; simpl; rewrite S; reflexivity).
        destruct (N.eqb c CR); constructor; try exact K; constructor.
  - split; [exact (IH2 d)|].
    intros c cur C S.
    change (allChars (fun c => N.eqb c LF || p c) (String c (String d s)))
      with ((N.eqb c LF || p c)
            && allChars (fun c => N.eqb c LF || p c) (String d s)) in S.
    apply andb_true_iff in S. destruct S as (Sc & S).
    change (splitLinesFrom cur (String c (String d s))) with
      (if N.eqb c LF then cur :: splitLinesFrom EmptyString (String d s)
       else if N.eqb c CR then
         if N.eqb d LF then cur :: splitLinesFrom EmptyString s
         else splitLinesFrom (cur ++ String c EmptyString) (String d s)
       else splitLinesFrom (cur ++ String c EmptyString) (String d s)).
    destruct (N.eqb c LF) eqn:E.
    + constructor; [exact C|]. apply IH2; [reflexivity|exact S].
    + simpl in Sc.
      assert (K : allChars p (cur ++ String c EmptyString) = true)
        by (rewrite allChars_append, C; simpl; rewrite Sc; reflexivity).
      destruct (N.eqb c CR).
      * destruct (N.eqb d LF) eqn:D.
        -- constructor; [exact C|]. apply IH1; [reflexivity|].
           simpl in S. apply andb_true_iff in S. apply S.
        -- apply IH2; [exact K|exact S].
      * apply IH2; [exact K|exact S].
Qed.

Lemma allChars_weaken (p q : N -> bool) (s : string) :
  (forall c, p c = true -> q c = true) -> allChars p s = true -> allChars q s = true.
Proof.
  intro I. induction s as [|c s IH]; simpl; [reflexivity|].
  intro A. apply andb_true_iff in A. destruct A as (A & B).
  rewrite (I c A), (IH B). reflexivity.
Qed.

Lemma allChars_not_occurs (c : N) (s : string) :
  allChars (fun d => negb (N.eqb d c)) s = true -> occurs c s = false.
Proof.
  induction s as [|d s IH]; simpl; [reflexivity|].
  intro A. apply andb_true_iff in A. destruct A as (A & B).
  apply negb_true_iff in A. rewrite A, (IH B). reflexivity.
Qed.

Lemma allChars_total (s : string) :
  allChars (fun c => N.eqb c LF || negb (N.eqb c LF)) s = true.
Proof.
  induction s as [|c s IH]; simpl; [reflexivity|].
  rewrite IH. destruct (N.eqb c LF); reflexivity.
Qed.

Lemma trimStart_blank (s : string) : trimStart s = EmptyString <-> allChars isSpace s = true.
Proof.
  induction s as [|c s IH]; simpl; [tauto|].
  destruct (isSpace c); simpl; [exact IH|]. split; intro A; discriminate A.
Qed.

Lemma trim_blank (s : string) : trim s = EmptyString <-> allChars isSpace s = true.
Proof.
  rewrite <- trimStart_blank. unfold trim. split.
  - intro T. pose proof (trimStart_startsClean s) as C.
    destruct (trimStart s) as [|c u]; [reflexivity|].
    simpl in C, T. rewrite C in T. destruct (trimEnd u); discriminate T.
  - intro T. rewrite T. reflexivity.
Qed.

Lemma joinLines_blank (l : list string) :
  (forall x, In x l -> allChars isSpace x = true) -> allChars isSpace (joinLines l) = true.
Proof.
  induction l as [|x l IH]; intro A; [reflexivity|].
  destruct l as [|y l]; [apply A; left; reflexivity|].
  change (joinLines (x :: y :: l)) with (x ++ String LF (joinLines (y :: l)))%js.
  rewrite allChars_append. rewrite (A x (or_introl eq_refl)).
  simpl allChars at 1. simpl andb.
  change (isSpace LF) with true. simpl andb.
  apply IH. intros z Z. apply A. right. exact Z.
Qed.

Section Lines.

Context `{Collaborators}.

(** X9.  The command [gcode] feeds clean lines: whatever the commands, in
    one string or several, every line handed to the Feeder has something
    else than white space in it and holds no line feed; commands of white
    space only feed nothing.  While a line of the Feeder is in flight the
    lines are only queued, in order, each with the context given. *)
Theorem gcode_feeds_clean_lines (commands : list string) (ctx : Ctx) (c : Controller) :
  Forall (fun l => trim l <> EmptyString /\ occurs LF l = false) (gcodeData commands)
  /\ ((forall l, In l commands -> trim l = EmptyString) -> gcodeData commands = [])
  /\ (Feeder_isPending c = true ->
      feeder_queue (feeder (command_gcode commands ctx c)) =
        (feeder_queue (feeder c) ++ map (fun l => (l, ctx)) (gcodeData commands))%list
      /\ written (command_gcode commands ctx c) = written c).
Proof.
  split; [|split].
  - unfold gcodeData. apply Forall_forall. intros l L.
    apply filter_In in L. destruct L as (L & N). split.
    + intro E. rewrite E in N. discriminate N.
    + apply allChars_not_occurs.
      destruct (splitLinesFrom_chars (fun d => negb (N.eqb d LF)) (joinLines commands))
        as (S & _).
      specialize (S EmptyString eq_refl (allChars_total _)).
      rewrite Forall_forall in S. apply S. exact L.
  - intro B. unfold gcodeData.
    destruct (splitLinesFrom_chars isSpace (joinLines commands)) as (S & _).
    assert (J : allChars isSpace (joinLines commands) = true).
    { apply joinLines_blank. intros x X. apply trim_blank, B, X. }
    assert (K : allChars (fun d => N.eqb d LF || isSpace d) (joinLines commands) = true).
    { apply (allChars_weaken isSpace); [|exact J].
      intros d P. rewrite P. apply orb_true_r. }
    specialize (S EmptyString eq_refl K).
    unfold splitLines. induction S as [|x l X _ IH]; [reflexivity|].
    simpl. apply trim_blank in X. rewrite X. exact IH.
  - intro P. unfold command_gcode. cbv zeta.
    assert (E : Feeder_isPending (Feeder_feed (gcodeData commands) ctx c) = true) by exact P.
    rewrite E. simpl. split; reflexivity.
Qed.

End Lines.

Lemma last_cons {A : Type} (l : list A) :
  forall a d : A, last (a :: l) d = last l a.
Proof.
  induction l as [|b l IH]; intros a d; [reflexivity|].
  change (last (a :: b :: l) d) with (last (b :: l) d).
  rewrite (IH b d), (IH b a). reflexivity.
Qed.

Lemma splitLinesFrom_plain (t : string) :
  forall cur : string,
    occurs LF t = false -> occurs CR t = false ->
    splitLinesFrom cur t = [(cur ++ t)%js].
Proof.
  induction t as [|c t IH]; intros cur L R; simpl.
  - replace (cur ++ EmptyString)%js with cur; [reflexivity|].
    induction cur as [|d u IHu]; simpl; [reflexivity|rewrite <- IHu; reflexivity].
  - simpl in L, R. apply orb_false_iff in L. apply orb_false_iff in R.
    destruct L as (L1 & L2). destruct R as (R1 & R2). rewrite L1, R1.
    rewrite (IH _ L2 R2), append_assoc. reflexivity.
Qed.

(** The last piece of a text that ends with a line feed and a line [t]
    is [t]. *)
Lemma splitLinesFrom_last (t : string) (s : string) :
  occurs LF t = false -> occurs CR t = false ->
  (forall cur d, last (splitLinesFrom cur (s ++ String LF t)) d = t)
  /\ (forall c cur d, last (splitLinesFrom cur (String c s ++ String LF t)) d = t).
Proof.
  intros L R.
  assert (B : forall cur d, last (splitLinesFrom cur (String LF t)) d = t).
  { intros cur d. simpl. rewrite (splitLinesFrom_plain t EmptyString L R). reflexivity. }
  induction s as [|e s (IH1 & IH2)].
  - split; [exact B|].
    intros c cur d.
    change (splitLinesFrom cur (String c EmptyString ++ String LF t)) with
      (if N.eqb c LF then cur :: splitLinesFrom EmptyString (String LF t)
       else if N.eqb c CR then cur :: splitLinesFrom EmptyString t
       else splitLinesFrom (cur ++ String c EmptyString) (String LF t)).
    destruct (N.eqb c LF); [rewrite last_cons; apply B|].
    destruct (N.eqb c CR); [|apply B].
    rewrite (splitLinesFrom_plain t EmptyString L R). reflexivity.
  - split; [exact (IH2 e)|].
    intros c cur d.
    change (splitLinesFrom cur (String c (String e s) ++ String LF t)) with
      (if N.eqb c LF
       then cur :: splitLinesFrom EmptyString (String e s ++ String LF t)
       else if N.eqb c CR then
         if N.eqb e LF then cur :: splitLinesFrom EmptyString (s ++ String LF t)
         else splitLinesFrom (cur ++ String c EmptyString) (String e s ++ String LF t)
       else splitLinesFrom (cur ++ String c EmptyString) (String e s ++ String LF t)).
    destruct (N.eqb c LF); [rewrite last_cons; apply IH2|].
    destruct (N.eqb c CR); [|apply IH2].
    destruct (N.eqb e LF); [rewrite last_cons; apply IH1|apply IH2].
Qed.

(** ** The life cycle of the connection and of a program *)

Section LifeCycle.

Context `{Collaborators}.

Lemma Workflow_stop_program (c : Controller) :
  name (sender (Workflow_stop c)) = name (sender c)
  /\ gcode (sender (Workflow_stop c)) = gcode (sender c)
  /\ lines (sender (Workflow_stop c)) = lines (sender c)
  /\ total (sender (Workflow_stop c)) = total (sender c).
Proof.
  unfold Workflow_stop. destruct (workflow c); repeat split; reflexivity.
Qed.

(** X10.  Opening the connection resets the controller but keeps the
    program: after a successful [open] of a closed controller the action
    masks and times are cleared and the workflow is idle, nothing has been
    written, the ready flag is as before, and the program loaded in the
    Sender (name, text, lines, total) is still there, the command [unload]
    that [open] dispatches being none of the dispatcher's.  The two steps
    of the initialisation then write [version] and raise the ready flag.
    An [open] that fails only emits [connection:error], and an [open] of an
    open controller changes nothing. *)
Theorem open_resets_and_keeps_the_program (now t1 t2 : Z) (ok : bool) (c : Controller) :
  isOpen c = false ->
  let c1 := open now true c in
  isOpen c1 = true
  /\ ready c1 = ready c
  /\ actionMask c1 = mkActionMask false false false false false
  /\ actionTime c1 = mkActionTime 0 0 0
  /\ workflow c1 = WORKFLOW_STATE_IDLE
  /\ written c1 = written c
  /\ name (sender c1) = name (sender c)
  /\ gcode (sender c1) = gcode (sender c)
  /\ lines (sender c1) = lines (sender c)
  /\ total (sender c1) = total (sender c)
  /\ (let c3 := sendInitCommands 2 (sendInitCommands 1 c1) in
      ready c3 = true /\ written c3 = (written c ++ [("version" ++ NL)%js])%list)
  /\ open now false c = emit ConnectionError c
  /\ open t1 ok c1 = c1.
Proof.
  intros O c1.
  set (c0 := emit ConnectionOpen (setIsOpen true c)).
  assert (E : c1 = clearActionValues (Workflow_stop c0))
    by (subst c1 c0; apply open_closed, O).
  destruct (Workflow_stop_frame c0) as (Fo & Fr & _).
  destruct (Workflow_stop_program c0) as (Pn & Pg & Pl & Pt).
  assert (O1 : isOpen c1 = true) by (rewrite E; simpl; rewrite Fo; reflexivity).
  assert (W1 : written c1 = written c)
    by (rewrite E; simpl; rewrite Workflow_stop_written; reflexivity).
  split; [exact O1|].
  split; [rewrite E; simpl; rewrite Fr; reflexivity|].
  split; [rewrite E; reflexivity|].
  split; [rewrite E; reflexivity|].
  split; [rewrite E; simpl; apply Workflow_stop_idle|].
  split; [exact W1|].
  split; [rewrite E; simpl; rewrite Pn; reflexivity|].
  split; [rewrite E; simpl; rewrite Pg; reflexivity|].
  split; [rewrite E; simpl; rewrite Pl; reflexivity|].
  split; [rewrite E; simpl; rewrite Pt; reflexivity|].
  split; [|split].
  - unfold sendInitCommands, isClose. rewrite O1. simpl. rewrite O1. simpl.
    rewrite W1. split; reflexivity.
  - unfold open. rewrite O. reflexivity.
  - unfold open. rewrite O1. reflexivity.
Qed.

(** X11.  Every program ends with the dwell: after an accepted
    [sender:load] the Sender holds the text [content + '\n' + dwell], the
    last of its lines is the dwell [%wait ; Wait for the planner queue to
    empty], no line has been sent or acknowledged, and the workflow is
    idle; and the Sender's data filter turns that line, on any controller,
    into [G4 P0.5 (%wait)] with the Sender on hold for the reason [%wait]
    and the workflow as it was.  A load that is refused changes nothing. *)
Theorem loaded_program_ends_with_the_dwell
    (now : Z) (n content : string) (ctx : Ctx) (c k : Controller) :
  let text := (content ++ NL ++ dwell)%js in
  let c' := command now (CmdSenderLoad n content ctx) c in
  (loadable n text = true ->
   gcode (sender c') = text
   /\ lines (sender c') = splitLines text
   /\ last (lines (sender c')) EmptyString = dwell
   /\ total (sender c') = Z.of_nat (List.length (lines (sender c')))
   /\ sent (sender c') = 0 /\ received (sender c') = 0
   /\ workflow c' = WORKFLOW_STATE_IDLE)
  /\ (loadable n text = false -> c' = c)
  /\ fst (senderDataFilter dwell k) = DWELL
  /\ sender_hold (sender (snd (senderDataFilter dwell k))) = true
  /\ sender_holdReason (sender (snd (senderDataFilter dwell k))) = Some (ReasonData WAIT)
  /\ workflow (snd (senderDataFilter dwell k)) = workflow k.
Proof.
  intros text c'. split; [|split].
  - intro A.
    set (c0 := setSender (setProgram n text ctx (splitLines text) (sender c)) c).
    set (c1 := trigger "sender:load" (emit (SenderLoad n content) c0)).
    assert (E : c' = Workflow_stop c1).
    { subst c' c1 c0. unfold command, Sender_load. fold text. rewrite A. reflexivity. }
    assert (S1 : sender c1 = sender c0).
    { subst c1. destruct (trigger_frame "sender:load" (emit (SenderLoad n content) c0))
        as (_ & Fs & _). exact Fs. }
    destruct (Workflow_stop_program c1) as (_ & Pg & Pl & Pt).
    assert (L : lines (sender c') = splitLines text)
      by (rewrite E, Pl, S1; reflexivity).
    split; [rewrite E, Pg, S1; reflexivity|].
    split; [exact L|].
    split.
    { rewrite L. unfold splitLines, text.
      apply (splitLinesFrom_last dwell content); reflexivity. }
    split; [rewrite L, E, Pt, S1; reflexivity|].
    assert (Z0 : sent (sender c1) = 0 /\ received (sender c1) = 0)
      by (rewrite S1; split; reflexivity).
    destruct Z0 as (Zs & Zr).
    split; [|split].
    + rewrite E. unfold Workflow_stop. destruct (workflow c1); [exact Zs|reflexivity..].
    + rewrite E. unfold Workflow_stop. destruct (workflow c1); [exact Zr|reflexivity..].
    + rewrite E. apply Workflow_stop_idle.
  - intro A. subst c'. unfold command, Sender_load. fold text. rewrite A. reflexivity.
  - unfold senderDataFilter.
    assert (D : stripComment dwell = WAIT) by reflexivity.
    rewrite D. simpl. repeat split; reflexivity.
Qed.

End LifeCycle.

(** ** Holding and stopping the Sender *)

Section Streaming.

Context `{Collaborators}.

Lemma Sender_ack_logs (c : Controller) :
  written (Sender_ack c) = written c /\ emitted (Sender_ack c) = emitted c.
Proof.
  unfold Sender_ack.
  destruct (received (sender c) <? sent (sender c)); [|split; reflexivity].
  destruct (queue (sender c)); split; reflexivity.
Qed.

(** X12.  A Sender on hold keeps its lines back until the last line sent
    is acknowledged: an [ok] that arrives while the workflow is running,
    the Sender is on hold and more than one line awaits its
    acknowledgement ([received + 1 < sent]) counts as one acknowledgement
    and nothing else: nothing is written, nothing is emitted, the hold
    stays, no line is sent.  This is how the dwell of a [%wait] line waits
    for the lines before it. *)
Theorem hold_keeps_lines_back (now : Z) (raw : string) (c : Controller) :
  maskQueryParserStateReply (actionMask c) = false ->
  workflow c = WORKFLOW_STATE_RUNNING ->
  sender_hold (sender c) = true ->
  received (sender c) + 1 < sent (sender c) ->
  let c' := controller_on_ok now raw c in
  written c' = written c
  /\ emitted c' = emitted c
  /\ sender_hold (sender c') = true
  /\ received (sender c') = received (sender c) + 1
  /\ sent (sender c') = sent (sender c)
  /\ workflow c' = WORKFLOW_STATE_RUNNING.
Proof.
  intros M W Hd L c'.
  assert (E : c' = Sender_next now (Sender_ack c)).
  { subst c'. unfold controller_on_ok. rewrite M, W, Hd. cbv zeta.
    assert (G : (received (sender c) + 1 >=? sent (sender c)) = false).
    { destruct (Z.geb_spec (received (sender c) + 1) (sent (sender c))); [lia|reflexivity]. }
    rewrite G. reflexivity. }
  destruct (Sender_ack_keeps c) as (K1 & K2 & _ & K4 & _).
  destruct (Sender_ack_logs c) as (A1 & A2).
  destruct (Sender_ack_received c) as (R & _); [lia|].
  destruct (Sender_next_hold now (Sender_ack c)) as (N1 & N2 & N3 & N4 & N5);
    [rewrite K2; exact Hd|].
  rewrite E, N1, N2, N3, N4, N5, Sender_next_hold_received, K1, K4, A1, A2, R, W
    by (rewrite K2; exact Hd).
  repeat split; reflexivity.
Qed.

(** X13.  [sender:stop] rewinds: issued while the workflow is not idle, it
    leaves the workflow idle and the Sender rewound (nothing sent, nothing
    acknowledged, no hold, an empty queue) with its program kept; after the
    hooks of the event have run, it writes [~] exactly when the state cached
    at the last tick reports [Hold] and the connection is open.  Issued
    while the workflow is idle it leaves the Sender as it is. *)
Theorem sender_stop_rewinds (now : Z) (c : Controller) :
  let c1 := trigger "sender:stop" c in
  let c' := command now CmdSenderStop c in
  workflow c' = WORKFLOW_STATE_IDLE
  /\ written c' =
     (written c1 ++
        if JsString.eqb (cachedMachineState c) SMOOTHIE_MACHINE_STATE_HOLD && isOpen c
        then ["~"] else [])%list
  /\ gcode (sender c') = gcode (sender c)
  /\ lines (sender c') = lines (sender c)
  /\ total (sender c') = total (sender c)
  /\ feeder c' = feeder c1
  /\ (workflow c <> WORKFLOW_STATE_IDLE ->
      sent (sender c') = 0 /\ received (sender c') = 0
      /\ sender_hold (sender c') = false
      /\ queue (sender c') = [] /\ dataLength (sender c') = 0)
  /\ (workflow c = WORKFLOW_STATE_IDLE -> sender c' = sender c).
Proof.
  intros c1 c'.
  destruct (trigger_frame "sender:stop" c)
    as ((Fo & _ & _ & _ & _ & _ & Fst & _) & Fs & Fw & _).
  fold c1 in Fo, Fst, Fs, Fw.
  set (c2 := Workflow_stop c1).
  destruct (Workflow_stop_frame c1) as (So & _ & _ & _ & _ & _ & Sst & _).
  fold c2 in So, Sst.
  assert (Hc : cachedMachineState c2 = cachedMachineState c)
    by (unfold cachedMachineState; rewrite Sst, Fst; reflexivity).
  assert (E : c' = if JsString.eqb (cachedMachineState c) SMOOTHIE_MACHINE_STATE_HOLD
                   then write "~" c2 else c2).
  { subst c' c2 c1. unfold command. cbv zeta. rewrite Hc. reflexivity. }
  assert (P : sender c' = sender c2 /\ workflow c' = workflow c2 /\ feeder c' = feeder c2
              /\ written c' =
                 (written c2 ++
                    if JsString.eqb (cachedMachineState c) SMOOTHIE_MACHINE_STATE_HOLD
                       && isOpen c
                    then ["~"] else [])%list).
  { rewrite E.
    destruct (JsString.eqb (cachedMachineState c) SMOOTHIE_MACHINE_STATE_HOLD); simpl.
    - unfold write, isClose. rewrite So, Fo.
      destruct (isOpen c); simpl; rewrite ?app_nil_r; repeat split; reflexivity.
    - rewrite app_nil_r. repeat split; reflexivity. }
  destruct P as (Ps & Pw & Pf & Pr).
  destruct (Workflow_stop_program c1) as (_ & Pg & Pl & Pt). fold c2 in Pg, Pl, Pt.
  split; [rewrite Pw; apply Workflow_stop_idle|].
  split; [rewrite Pr; subst c2; rewrite Workflow_stop_written; reflexivity|].
  split; [rewrite Ps, Pg, Fs; reflexivity|].
  split; [rewrite Ps, Pl, Fs; reflexivity|].
  split; [rewrite Ps, Pt, Fs; reflexivity|].
  split.
  { rewrite Pf. subst c2. unfold Workflow_stop. destruct (workflow c1); reflexivity. }
  split.
  - intro N. rewrite Ps. subst c2. unfold Workflow_stop.
    rewrite <- Fw in N.
    destruct (workflow c1); [contradiction N; reflexivity|..]; repeat split; reflexivity.
  - intro I. rewrite Ps. subst c2. unfold Workflow_stop. rewrite Fw, I. exact Fs.
Qed.

End Streaming.

(** ** The sessions *)

Section SessionsProperties.

Context `{Collaborators}.

Lemma lastAnnounced_some (w : WorkflowState) (t : list Emit) :
  lastAnnounced (Some w) t = Some (lastWorkflow w t).
Proof.
  revert w. induction t as [|e t IH]; intro w; [reflexivity|].
  destruct e; simpl; apply IH.
Qed.

Lemma toldWorkflow_app (id : string) (acc : option WorkflowState)
    (d1 d2 : list (string * Message)) :
  toldWorkflow id acc (d1 ++ d2) = toldWorkflow id (toldWorkflow id acc d1) d2.
Proof. unfold toldWorkflow. apply fold_left_app. Qed.

(** The messages sent to one socket, as seen by [id]. *)
Lemma toldWorkflow_one_socket (id k : string) (msgs : list Message) :
  forall acc,
    toldWorkflow id acc (map (fun m => (k, m)) msgs) =
      if JsString.eqb k id
      then fold_left (fun a m => match m with
                                 | Told (WorkflowStateChange w) => Some w
                                 | _ => a
                                 end) msgs acc
      else acc.
Proof.
  induction msgs as [|m msgs IH]; intro acc; simpl.
  - destruct (JsString.eqb k id); reflexivity.
  - rewrite IH. destruct (JsString.eqb k id); reflexivity.
Qed.

(** One emission sent to the sockets [r], as seen by [id]. *)
Lemma toldWorkflow_one_emission (id : string) (e : Emit) (r : list string) :
  forall acc,
    toldWorkflow id acc (map (fun k => (k, Told e)) r) =
      if includes r id then lastAnnounced acc [e] else acc.
Proof.
  unfold includes.
  induction r as [|k r IH]; intro acc; [reflexivity|].
  simpl. rewrite IH. rewrite (string_eqb_sym id k).
  destruct (JsString.eqb k id); simpl; [|reflexivity].
  destruct (existsb (JsString.eqb id) r); [|reflexivity].
  destruct e; reflexivity.
Qed.

Lemma socketEmit_fold (m : Message) (r : list string) :
  forall s,
    sockets (fold_left (fun s id => socketEmit id m s) r s) = sockets s
    /\ delivered (fold_left (fun s id => socketEmit id m s) r s) =
       (delivered s ++ map (fun k => (k, m)) r)%list.
Proof.
  induction r as [|k r IH]; intro s; simpl.
  - rewrite app_nil_r. split; reflexivity.
  - destruct (IH (socketEmit k m s)) as (A & B). rewrite A, B. simpl.
    rewrite <- app_assoc. split; reflexivity.
Qed.

Lemma emitToSockets_spec (e : Emit) (s : Sessions) :
  sockets (emitToSockets e s) = sockets s
  /\ delivered (emitToSockets e s) =
     (delivered s ++ map (fun k => (k, Told e)) (sockets s))%list.
Proof. unfold emitToSockets. apply socketEmit_fold. Qed.

(** A run of emissions, as seen by a socket. *)
Lemma emitAll_told (t : list Emit) :
  forall s,
    let s' := fold_left (fun s e => emitToSockets e s) t s in
    sockets s' = sockets s
    /\ forall id,
        toldWorkflow id None (delivered s') =
          if includes (sockets s) id
          then lastAnnounced (toldWorkflow id None (delivered s)) t
          else toldWorkflow id None (delivered s).
Proof.
  induction t as [|e t IH]; intro s; simpl.
  - split; [reflexivity|]. intro id. destruct (includes (sockets s) id); reflexivity.
  - destruct (emitToSockets_spec e s) as (A & B).
    destruct (IH (emitToSockets e s)) as (C & D).
    split; [rewrite C; exact A|].
    intro id. rewrite D, A, B, toldWorkflow_app, toldWorkflow_one_emission.
    destruct (includes (sockets s) id); reflexivity.
Qed.

Lemma includes_In (r : list string) (id : string) : includes r id = true <-> In id r.
Proof.
  unfold includes. rewrite existsb_exists. split.
  - intros (k & K & E). apply string_eqb_eq in E. subst k. exact K.
  - intro K. exists id. split; [exact K|apply string_eqb_refl].
Qed.

Lemma register_sockets (i : string) (s : Sessions) :
  delivered (register i s) = delivered s
  /\ forall id, In id (sockets (register i s)) <-> In id (sockets s) \/ id = i.
Proof.
  unfold register. destruct (includes (sockets s) i) eqn:E.
  - split; [reflexivity|]. intro id. split; [intro K; left; exact K|].
    intros [K|K]; [exact K|]. subst id. apply includes_In, E.
  - split; [reflexivity|]. intro id. simpl. rewrite in_app_iff. simpl. intuition.
Qed.

(** What [addSocket] sends, all of it to the socket that joins: the
    workflow state comes last. *)
Lemma addSocket_delivered (i : string) (settingsEmpty : bool) (c : Controller)
    (s : Sessions) :
  sockets (addSocket (Some i) settingsEmpty c s) = sockets (register i s)
  /\ exists g,
      delivered (addSocket (Some i) settingsEmpty c s) =
        (delivered s ++
           map (fun m => (i, m)) (g ++ [Told (WorkflowStateChange (workflow c))]))%list
      /\ hd MsgControllerType (g ++ [Told (WorkflowStateChange (workflow c))])
         = MsgControllerType
      /\ (In (Told ConnectionOpen) g <-> isOpen c = true)
      /\ (In (Told (SenderLoad (name (sender c)) (gcode (sender c)))) g
          <-> loaded (sender c) = true).
Proof.
  destruct (register_sockets i s) as (D & _).
  unfold addSocket. cbv zeta.
  split.
  { destruct (isOpen c), (negb settingsEmpty), (state c), (loaded (sender c));
      reflexivity. }
  exists ([MsgControllerType]
            ++ (if isOpen c then [Told ConnectionOpen] else [])
            ++ (if negb settingsEmpty then [Told ControllerSettings; MsgSmoothieSettings]
                else [])
            ++ (match state c with
                | Some _ => [Told ControllerState; MsgSmoothieState]
                | None => []
                end)
            ++ [MsgFeederStatus; MsgSenderStatus]
            ++ (if loaded (sender c)
                then [Told (SenderLoad (name (sender c)) (gcode (sender c)))] else []))%list.
  split; [|split; [reflexivity|split]].
  - destruct (isOpen c), (negb settingsEmpty), (state c), (loaded (sender c));
      simpl; rewrite D, <- ?app_assoc; reflexivity.
  - destruct (isOpen c), (negb settingsEmpty), (state c), (loaded (sender c));
      simpl; split; intro K; try reflexivity; try discriminate K;
      try (left; reflexivity); try (right; left; reflexivity);
      repeat (destruct K as [K|K]; try discriminate K); try contradiction.
  - destruct (isOpen c), (negb settingsEmpty), (state c), (loaded (sender c));
      simpl; split; intro K; try reflexivity; try discriminate K;
      repeat (destruct K as [K|K]; try discriminate K); try contradiction;
      intuition.
Qed.

Lemma toldWorkflow_greeting (id i : string) (g : list Message) (w : WorkflowState)
    (acc : option WorkflowState) :
  toldWorkflow id acc (map (fun m => (i, m)) (g ++ [Told (WorkflowStateChange w)])) =
    if JsString.eqb i id then Some w else acc.
Proof.
  rewrite toldWorkflow_one_socket. destruct (JsString.eqb i id); [|reflexivity].
  rewrite fold_left_app. reflexivity.
Qed.

Lemma sessionStep_informed (ev : SessionEvent) (cs : Controller * Sessions) :
  informed cs -> informed (sessionStep ev cs).
Proof.
  destruct cs as [c s]. intro I. unfold informed in I. cbn [fst snd] in I.
  destruct ev as [[i|] se|[i|]|now e]; unfold sessionStep, informed; cbn [fst snd];
    try exact I.
  - destruct (addSocket_delivered i se c s) as (A & g & B & _).
    destruct (register_sockets i s) as (_ & R).
    intros id K. rewrite A in K. apply R in K.
    rewrite B, toldWorkflow_app, toldWorkflow_greeting.
    destruct (string_eqb_spec i id) as [E|E]; [reflexivity|].
    destruct K as [K|K]; [apply (I id K)|]. subst id. contradiction E. reflexivity.
  - intros id K. unfold removeSocket in K |- *. cbn [sockets delivered] in K |- *.
    apply filter_In in K. apply (I id), K.
  - destruct (step_announced now e c) as (t & Et & Lt).
    assert (S : skipn (List.length (emitted c)) (emitted (step now e c)) = t).
    { rewrite Et, skipn_app, skipn_all, Nat.sub_diag. reflexivity. }
    cbv zeta. rewrite S.
    destruct (emitAll_told t s) as (A & B). cbv zeta in A, B.
    intros id K. rewrite A in K. rewrite B.
    pose proof (I id K) as T.
    apply includes_In in K. rewrite K, T, lastAnnounced_some, Lt. reflexivity.
Qed.

Lemma sessionRun_informed (events : list SessionEvent) :
  forall cs, informed cs -> informed (sessionRun events cs).
Proof.
  induction events as [|ev events IH]; intros cs I; [exact I|].
  apply (IH (sessionStep ev cs)), sessionStep_informed, I.
Qed.

(** X14.  Every registered session knows the workflow state: from the
    constructor on, whatever sockets join and leave and whatever events the
    controller handles, the last [workflow:state] sent to a socket that is
    registered carries the current workflow state; the socket got it from
    [addSocket] when it joined or from [emit] at a later change. *)
Theorem sessions_know_the_workflow_state
    (events : list SessionEvent) (s0 : SmoothieState Rest) (id : string) :
  let cs := sessionRun events (initialController s0, mkSessions [] []) in
  In id (sockets (snd cs)) ->
  toldWorkflow id None (delivered (snd cs)) = Some (workflow (fst cs)).
Proof.
  intros cs K. apply (sessionRun_informed events); [|exact K].
  intros k F. contradiction F.
Qed.

Lemma deliveredTo_absent (id : string) (m : Message) (r : list string) :
  ~ In id r -> deliveredTo id (map (fun k => (k, m)) r) = [].
Proof.
  induction r as [|k r IH]; intro N; [reflexivity|].
  simpl. destruct (string_eqb_spec k id) as [E|E].
  - exfalso. apply N. left. exact E.
  - apply IH. intro K. apply N. right. exact K.
Qed.

Lemma deliveredTo_present (id : string) (m : Message) (r : list string) :
  NoDup r -> In id r -> map snd (deliveredTo id (map (fun k => (k, m)) r)) = [m].
Proof.
  induction r as [|k r IH]; intros D K; [contradiction K|].
  inversion D as [|k' r' Nk Dr]; subst.
  simpl. destruct (string_eqb_spec k id) as [E|E].
  - subst k. simpl. fold (deliveredTo id (map (fun k => (k, m)) r)).
    rewrite (deliveredTo_absent id m r Nk). reflexivity.
  - destruct K as [K|K]; [contradiction E|]. apply (IH Dr K).
Qed.

Lemma register_NoDup (i : string) (s : Sessions) :
  NoDup (sockets s) -> NoDup (sockets (register i s)).
Proof.
  intro D. unfold register. destruct (includes (sockets s) i) eqn:E; [exact D|].
  simpl. apply NoDup_rev in D. rewrite <- (rev_involutive (sockets s ++ [i])).
  apply NoDup_rev. rewrite rev_app_distr. simpl. constructor; [|exact D].
  intro K. apply in_rev in K. apply includes_In in K. rewrite K in E. discriminate E.
Qed.

(** X15.  The registry of the sockets: [addSocket] registers a socket
    once, however often it is called, and [removeSocket] removes it; an
    emission after [addSocket] reaches the socket exactly once, an emission
    after [removeSocket] does not reach it; the other sockets stay
    registered as they were; and a call of either without a socket changes
    nothing. *)
Theorem emit_reaches_registered_sockets_once
    (id : string) (settingsEmpty : bool) (e : Emit) (c : Controller) (s : Sessions) :
  NoDup (sockets s) ->
  let joined := addSocket (Some id) settingsEmpty c s in
  let gone := removeSocket (Some id) s in
  NoDup (sockets joined) /\ NoDup (sockets gone)
  /\ (exists d, delivered (emitToSockets e joined) = (delivered joined ++ d)%list
                /\ map snd (deliveredTo id d) = [Told e])
  /\ (exists d, delivered (emitToSockets e gone) = (delivered gone ++ d)%list
                /\ deliveredTo id d = [])
  /\ (forall k, k <> id ->
                (In k (sockets joined) <-> In k (sockets s))
                /\ (In k (sockets gone) <-> In k (sockets s)))
  /\ delivered gone = delivered s
  /\ addSocket None settingsEmpty c s = s
  /\ removeSocket None s = s.
Proof.
  intros D joined gone.
  destruct (addSocket_delivered id settingsEmpty c s) as (A & _).
  fold joined in A.
  destruct (register_sockets id s) as (_ & R).
  assert (Dj : NoDup (sockets joined)) by (rewrite A; apply register_NoDup, D).
  assert (Dg : NoDup (sockets gone)) by (apply NoDup_filter, D).
  assert (Ng : ~ In id (sockets gone)).
  { intro K. apply filter_In in K. destruct K as (_ & K).
    rewrite string_eqb_refl in K. discriminate K. }
  split; [exact Dj|]. split; [exact Dg|]. split; [|split; [|split]].
  - destruct (emitToSockets_spec e joined) as (_ & B).
    eexists. split; [exact B|].
    apply deliveredTo_present; [exact Dj|]. rewrite A. apply R. right. reflexivity.
  - destruct (emitToSockets_spec e gone) as (_ & B).
    eexists. split; [exact B|]. apply deliveredTo_absent, Ng.
  - intros k N. split.
    + rewrite A, R. split; [intros [K|K]; [exact K|contradiction N]|intro K; left; exact K].
    + unfold gone, removeSocket. cbn [sockets]. rewrite filter_In. split.
      * intros (K & _). exact K.
      * intro K. split; [exact K|].
        destruct (string_eqb_spec k id) as [E|E]; [contradiction N|reflexivity].
  - repeat split; reflexivity.
Qed.

(** X16.  A session that joins late is told the program with the dwell:
    at an accepted [sender:load] the sessions are sent the content as it
    was given, while a socket that joins afterwards is sent, as the content
    of [sender:load], the text kept by the Sender,
    [content + '\n' + dwell]. *)
Theorem late_session_is_told_the_program_with_the_dwell
    (now : Z) (n content : string) (ctx : Ctx) (c : Controller)
    (id : string) (settingsEmpty : bool) (s : Sessions) :
  let text := (content ++ NL ++ dwell)%js in
  let c' := command now (CmdSenderLoad n content ctx) c in
  loadable n text = true ->
  In (SenderLoad n content) (emitted c')
  /\ In (id, Told (SenderLoad n text)) (delivered (addSocket (Some id) settingsEmpty c' s))
  /\ text <> content.
Proof.
  intros text c' A.
  set (c0 := setSender (setProgram n text ctx (splitLines text) (sender c)) c).
  set (c1 := trigger "sender:load" (emit (SenderLoad n content) c0)).
  assert (E : c' = Workflow_stop c1).
  { subst c' c1 c0. unfold command, Sender_load. fold text. rewrite A. reflexivity. }
  destruct (trigger_frame "sender:load" (emit (SenderLoad n content) c0))
    as ((_ & _ & _ & _ & _ & _ & _ & _ & _ & _ & _ & _ & [t1 T1]) & Fs & _).
  fold c1 in T1, Fs.
  destruct (Workflow_stop_frame c1)
    as (_ & _ & _ & _ & _ & _ & _ & _ & _ & _ & _ & _ & [t2 T2]).
  assert (Pn : name (sender (Workflow_stop c1)) = name (sender c1)
               /\ gcode (sender (Workflow_stop c1)) = gcode (sender c1)).
  { unfold Workflow_stop. destruct (workflow c1); split; reflexivity. }
  destruct Pn as (Pn & Pg).
  split; [|split].
  - rewrite E, T2, T1. simpl. rewrite !in_app_iff. left. left. right. left. reflexivity.
  - destruct (addSocket_delivered id settingsEmpty c' s) as (_ & g & B & _ & _ & L).
    assert (Nm : name (sender c') = n) by (rewrite E, Pn, Fs; reflexivity).
    assert (Gc : gcode (sender c') = text) by (rewrite E, Pg, Fs; reflexivity).
    rewrite Nm, Gc in L.
    assert (Ld : loaded (sender c') = true).
    { unfold loaded. rewrite Gc. unfold text. destruct content; reflexivity. }
    apply L in Ld. rewrite B. apply in_app_iff. right.
    apply in_map_iff. exists (Told (SenderLoad n text)). split; [reflexivity|].
    apply in_app_iff. left. exact Ld.
  - unfold text. intro K.
    assert (Ln : JsString.length (content ++ NL ++ dwell) = JsString.length content)
      by (rewrite K; reflexivity).
    assert (La : forall u v, JsString.length (u ++ v) = (JsString.length u + JsString.length v)%nat).
    { intros u v. induction u as [|a u IH]; simpl; [reflexivity|rewrite IH; reflexivity]. }
    rewrite La in Ln. simpl in Ln. lia.
Qed.

End SessionsProperties.

(** ** The two data filters, and [reset] *)

Section Filters.

Context `{Collaborators}.

(** X17.  The two data filters send the same text: for the same line, the
    same context and the same parser state, the filter of the Sender and
    the filter of the Feeder return the same line: the dwell for [%wait],
    the empty line for any other line that starts with [%] once its
    comments are removed, and else the translated line.  They differ in
    what they hold: at [%wait] the Sender is put on hold and the Feeder is
    not; the filter of the Feeder leaves the Sender and the workflow alone,
    the filter of the Sender leaves the Feeder alone, and neither writes. *)
Theorem data_filters_send_the_same_text
    (line : string) (ctx : Ctx) (c k : Controller) :
  context (sender k) = ctx ->
  controllerState k = controllerState c ->
  fst (senderDataFilter line k) = fst (fst (feederDataFilter line ctx c))
  /\ fst (senderDataFilter line k) =
     (if startsWithPercent (stripComment line)
      then if JsString.eqb (stripComment line) WAIT then DWELL else EmptyString
      else translateWithContext (stripComment line)
             (populateContext (controllerState c) ctx))
  /\ (stripComment line = WAIT ->
      sender_hold (sender (snd (senderDataFilter line k))) = true
      /\ snd (feederDataFilter line ctx c) = c)
  /\ sender (snd (feederDataFilter line ctx c)) = sender c
  /\ workflow (snd (feederDataFilter line ctx c)) = workflow c
  /\ written (snd (feederDataFilter line ctx c)) = written c
  /\ feeder (snd (senderDataFilter line k)) = feeder k
  /\ written (snd (senderDataFilter line k)) = written k.
Proof.
  intros X S.
  assert (P : forall r x, written (Workflow_pause r x) = written x).
  { intros r x. unfold Workflow_pause. destruct (workflow x); reflexivity. }
  destruct (feederDataFilter_frame line ctx c) as (_ & Fs & Fw & _).
  destruct (senderDataFilter_frame line k) as (_ & Sf & _).
  split; [|split; [|split; [|split; [exact Fs|split; [exact Fw|split;
    [apply feederDataFilter_written|split; [exact Sf|]]]]]]].
  - unfold senderDataFilter, feederDataFilter. cbv zeta. rewrite X, S.
    destruct (startsWithPercent (stripComment line)).
    + destruct (JsString.eqb (stripComment line) WAIT); reflexivity.
    + reflexivity.
  - unfold senderDataFilter. cbv zeta. rewrite X, S.
    destruct (startsWithPercent (stripComment line)).
    + destruct (JsString.eqb (stripComment line) WAIT); reflexivity.
    + reflexivity.
  - intro W. unfold senderDataFilter, feederDataFilter. cbv zeta. rewrite W.
    split; reflexivity.
  - unfold senderDataFilter. cbv zeta.
    destruct (startsWithPercent (stripComment line)).
    + destruct (JsString.eqb (stripComment line) WAIT); reflexivity.
    + cbn [snd].
      destruct (programMode _) as [m|];
        [destruct (JsString.eqb m "M0"); [|destruct (JsString.eqb m "M1")]|];
        destruct (includes _ "M6"); rewrite ?P; reflexivity.
Qed.

(** X18.  [reset] stops everything: it leaves the workflow idle, the
    Feeder empty (no queue, no hold, nothing in flight) and the Sender with
    its program; the Sender is rewound when the workflow was not idle; and
    [^X] is written, as the only write of the command and without a
    newline, when the connection is open. *)
Theorem reset_stops_everything (now : Z) (c : Controller) :
  let c' := command now CmdReset c in
  workflow c' = WORKFLOW_STATE_IDLE
  /\ feeder c' = mkFeeder [] false None false
  /\ written c' =
     (written c ++ if isOpen c then [String CAN EmptyString] else [])%list
  /\ gcode (sender c') = gcode (sender c)
  /\ lines (sender c') = lines (sender c)
  /\ (workflow c <> WORKFLOW_STATE_IDLE ->
      sent (sender c') = 0 /\ received (sender c') = 0
      /\ sender_hold (sender c') = false /\ queue (sender c') = []).
Proof.
  intro c'. subst c'. unfold command. cbv zeta.
  set (c1 := Workflow_stop c).
  destruct (Workflow_stop_frame c) as (So & _). fold c1 in So.
  destruct (Workflow_stop_program c) as (_ & Pg & Pl & _). fold c1 in Pg, Pl.
  pose proof (Workflow_stop_written c) as Pw. fold c1 in Pw.
  pose proof (Workflow_stop_idle c) as Pi. fold c1 in Pi.
  assert (R : workflow c <> WORKFLOW_STATE_IDLE ->
              sent (sender c1) = 0 /\ received (sender c1) = 0
              /\ sender_hold (sender c1) = false /\ queue (sender c1) = []).
  { intro N. subst c1. unfold Workflow_stop.
    destruct (workflow c); [contradiction N; reflexivity|..]; repeat split; reflexivity. }
  unfold write, isClose. simpl. rewrite So.
  destruct (isOpen c); simpl; rewrite ?app_nil_r, ?Pw, ?Pg, ?Pl;
    (split; [exact (proj1 Pi)|]); repeat split; try reflexivity; apply R; assumption.
Qed.

End Filters.

(** * The further properties at concrete inputs *)

(** X1 at concrete inputs: a line with two comments, and a line with
    none. *)
Lemma stripComment_removes_comments_once_witness :
  stripComment (stripComment "G1 X1 ; move ; more") = stripComment "G1 X1 ; move ; more"
  /\ occurs SEMICOLON "  G0 X1 " = false
  /\ stripComment "  G0 X1 " = trim "  G0 X1 ".
Proof.
  destruct (stripComment_removes_comments_once "G1 X1 ; move ; more") as (_ & _ & _ & I & _).
  destruct (stripComment_removes_comments_once "  G0 X1 ") as (_ & _ & _ & _ & T).
  assert (N : occurs SEMICOLON "  G0 X1 " = false) by (vm_compute; reflexivity).
  split; [exact I|]. split; [exact N|exact (T N)].
Defined.

Example stripComment_scenario :
  stripComment "G1 X1 ; move ; more" = "G1 X1"
  /\ stripComment dwell = WAIT.
Proof. vm_compute. split; reflexivity. Qed.

(** X2 at a concrete input: a line written by a session after the
    connection of [demoFinishedClosed] was closed. *)
Lemma closed_connection_is_never_written_witness :
  isOpen demoFinishedClosed = false
  /\ written (step 1900 (EvWriteln "G0 X1") demoFinishedClosed) = written demoFinishedClosed.
Proof.
  assert (O : isOpen demoFinishedClosed = false) by (vm_compute; reflexivity).
  destruct (closed_connection_is_never_written 1900 (EvWriteln "G0 X1") demoFinishedClosed O)
    as (W & _).
  split; [exact O|exact W].
Defined.

(** X3 at a concrete input: the run [demoStream], at the end of which the
    workflow is running. *)
Lemma workflow_state_always_announced_witness :
  lastWorkflow WORKFLOW_STATE_IDLE
    (emitted (run demoStream (initialController (demoState "Idle" 100 "0,0,0"))))
  = workflow (run demoStream (initialController (demoState "Idle" 100 "0,0,0"))).
Proof.
  destruct workflow_state_always_announced as (_ & R).
  exact (R demoStream (demoState "Idle" 100 "0,0,0")).
Defined.

Example workflow_state_scenario :
  workflow (run demoStream (initialController (demoState "Idle" 100 "0,0,0")))
  = WORKFLOW_STATE_RUNNING.
Proof. vm_compute. reflexivity. Qed.

(** X4 at a concrete input: a session writes [?] to [demoReady]; the next
    status report is surfaced. *)
Lemma echo_flags_raised_by_session_writes_only_witness :
  replyStatusReport (actionMask (step 1300 (EvWrite "?") demoReady)) = true
  /\ emitted (controller_on_status "<Idle>" None (step 1300 (EvWrite "?") demoReady))
     = (emitted (step 1300 (EvWrite "?") demoReady) ++ [ConnectionRead "<Idle>"])%list.
Proof.
  assert (F : replyStatusReport (actionMask (step 1300 (EvWrite "?") demoReady)) = true)
    by (vm_compute; reflexivity).
  destruct (echo_flags_raised_by_session_writes_only 1300 EvTick
              (step 1300 (EvWrite "?") demoReady)) as (_ & _ & S).
  destruct (S "<Idle>" None) as (E & _).
  split; [exact F|]. rewrite E, F. reflexivity.
Defined.

(** X5 at a concrete input: [close] on [demoReady]. *)
Lemma ready_raised_by_initialisation_only_witness :
  ready demoReady = true /\ ready (step 1300 EvClose demoReady) = false.
Proof.
  assert (R : ready demoReady = true) by (vm_compute; reflexivity).
  destruct (ready_raised_by_initialisation_only 1300 EvClose demoReady) as (_ & C & _).
  split; [exact R|]. apply C. left. reflexivity.
Defined.

(** X6 at a concrete input: on [demoReady] the query is written at time
    1500, and the call at time 1750 changes nothing. *)
Lemma status_query_once_until_answered_witness :
  ready demoReady && isOpen demoReady
  && (negb (maskQueryStatusReport (actionMask demoReady)) || statusQueryExpired 1500 demoReady)
  = true
  /\ queryStatusReport 1750 (queryStatusReport 1500 demoReady)
     = queryStatusReport 1500 demoReady.
Proof.
  assert (S : ready demoReady && isOpen demoReady
              && (negb (maskQueryStatusReport (actionMask demoReady))
                  || statusQueryExpired 1500 demoReady) = true)
    by (vm_compute; reflexivity).
  destruct status_query_once_until_answered as (_ & Q & _).
  split; [exact S|]. apply (Q 1500 1750 demoReady S); vm_compute; reflexivity.
Defined.

(** X7 at a concrete input: an [error], then an [ok], after the parser-state
    report of [demoParserState]. *)
Lemma error_leaves_the_action_masks_witness :
  maskQueryParserStateReply (actionMask demoParserState) = true
  /\ sender (controller_on_ok 1470 "ok" (controller_on_error 1460 "error: x" demoParserState))
     = sender (controller_on_error 1460 "error: x" demoParserState).
Proof.
  assert (M : maskQueryParserStateReply (actionMask demoParserState) = true)
    by (vm_compute; reflexivity).
  destruct (error_leaves_the_action_masks 1460 1470 "error: x" "ok" demoParserState)
    as (_ & _ & _ & K).
  destruct (K M) as (S & _).
  split; [exact M|exact S].
Defined.

(** X8 at a concrete input: the first [ok] of [demoRunning]. *)
Lemma streaming_ok_is_not_echoed_witness :
  maskQueryParserStateReply (actionMask demoRunning) = false
  /\ workflow demoRunning = WORKFLOW_STATE_RUNNING
  /\ workflowOnly demoRunning (controller_on_ok 1500 "ok" demoRunning).
Proof.
  assert (M : maskQueryParserStateReply (actionMask demoRunning) = false)
    by (vm_compute; reflexivity).
  assert (W : workflow demoRunning = WORKFLOW_STATE_RUNNING) by (vm_compute; reflexivity).
  destruct (streaming_ok_is_not_echoed 1500 "ok" demoRunning M) as (K & _).
  destruct (K (or_introl W)) as (A & _).
  split; [exact M|]. split; [exact W|exact A].
Defined.

(** X9 at concrete inputs: commands of white space, and lines queued behind
    the line in flight of [demoAlarm]. *)
Lemma gcode_feeds_clean_lines_witness :
  gcodeData ["  "; String CR (String LF " ")] = []
  /\ Feeder_isPending demoAlarm = true
  /\ written (command_gcode ["G0 X3"] (tt : @Ctx demo) demoAlarm) = written demoAlarm.
Proof.
  destruct (gcode_feeds_clean_lines ["  "; String CR (String LF " ")] (tt : @Ctx demo) demoAlarm)
    as (_ & B & _).
  destruct (gcode_feeds_clean_lines ["G0 X3"] (tt : @Ctx demo) demoAlarm) as (_ & _ & P).
  assert (F : Feeder_isPending demoAlarm = true) by (vm_compute; reflexivity).
  split; [|split; [exact F|exact (proj2 (P F))]].
  apply B. intros l [L|[L|L]]; [subst l; reflexivity|subst l; reflexivity|contradiction L].
Defined.

Example gcode_lines_scenario :
  gcodeData ["G0 X1" ++ NL ++ NL ++ " G0 X2 "; String CR (String LF "M5")]
  = ["G0 X1"; " G0 X2 "; "M5"].
Proof. vm_compute. reflexivity. Qed.

(** X10 at a concrete input: the connection of [demoFinishedClosed], whose
    Sender holds a program, opens again. *)
Lemma open_resets_and_keeps_the_program_witness :
  isOpen demoFinishedClosed = false
  /\ loaded (sender demoFinishedClosed) = true
  /\ gcode (sender (open 1900 true demoFinishedClosed)) = gcode (sender demoFinishedClosed)
  /\ workflow (open 1900 true demoFinishedClosed) = WORKFLOW_STATE_IDLE.
Proof.
  assert (O : isOpen demoFinishedClosed = false) by (vm_compute; reflexivity).
  assert (L : loaded (sender demoFinishedClosed) = true) by (vm_compute; reflexivity).
  destruct (open_resets_and_keeps_the_program 1900 1910 1920 true demoFinishedClosed O)
    as (_ & _ & _ & _ & W & _ & _ & G & _).
  split; [exact O|]. split; [exact L|]. split; [exact G|exact W].
Defined.

(** X11 at a concrete input: a program of one line loaded into
    [demoReady]. *)
Lemma loaded_program_ends_with_the_dwell_witness :
  loadable "job" ("G1 X1" ++ NL ++ dwell) = true
  /\ last (lines (sender (command 1300 (CmdSenderLoad "job" "G1 X1" (tt : @Ctx demo))
                            demoReady))) EmptyString
     = dwell.
Proof.
  assert (A : loadable "job" ("G1 X1" ++ NL ++ dwell) = true) by (vm_compute; reflexivity).
  destruct (loaded_program_ends_with_the_dwell 1300 "job" "G1 X1" (tt : @Ctx demo)
              demoReady demoReady) as (K & _).
  destruct (K A) as (_ & _ & D & _).
  split; [exact A|exact D].
Defined.

Example loaded_program_scenario :
  lines (sender demoLoaded) = ["G1 X1"; "G1 X2"; "G1 X3"; dwell]
  /\ written demoRunning
     = (written demoLoaded
          ++ [("G1 X1" ++ NL)%js; ("G1 X2" ++ NL)%js; ("G1 X3" ++ NL)%js;
              (DWELL ++ NL)%js])%list
  /\ sender_hold (sender demoRunning) = true.
Proof. vm_compute. repeat split; reflexivity. Qed.

(** X12 at a concrete input: the first [ok] of [demoRunning], with four
    lines sent, none acknowledged and the Sender on hold after the dwell. *)
Lemma hold_keeps_lines_back_witness :
  maskQueryParserStateReply (actionMask demoRunning) = false
  /\ workflow demoRunning = WORKFLOW_STATE_RUNNING
  /\ sender_hold (sender demoRunning) = true
  /\ received (sender demoRunning) + 1 < sent (sender demoRunning)
  /\ written (controller_on_ok 1500 "ok" demoRunning) = written demoRunning.
Proof.
  assert (M : maskQueryParserStateReply (actionMask demoRunning) = false)
    by (vm_compute; reflexivity).
  assert (W : workflow demoRunning = WORKFLOW_STATE_RUNNING) by (vm_compute; reflexivity).
  assert (Hd : sender_hold (sender demoRunning) = true) by (vm_compute; reflexivity).
  assert (L : received (sender demoRunning) + 1 < sent (sender demoRunning))
    by (vm_compute; reflexivity).
  destruct (hold_keeps_lines_back 1500 "ok" demoRunning M W Hd L) as (K & _).
  split; [exact M|]. split; [exact W|]. split; [exact Hd|]. split; [exact L|exact K].
Defined.

(** X13 at a concrete input: [sender:stop] on [demoRunning]. *)
Lemma sender_stop_rewinds_witness :
  workflow (command 1500 CmdSenderStop demoRunning) = WORKFLOW_STATE_IDLE
  /\ sent (sender (command 1500 CmdSenderStop demoRunning)) = 0.
Proof.
  destruct (sender_stop_rewinds 1500 demoRunning) as (A & _ & _ & _ & _ & _ & B & _).
  split; [exact A|].
  apply B. vm_compute. discriminate.
Defined.

(** X14 at a concrete input: the socket [b] of [demoSessionEvents], which
    joined while the workflow was running. *)
Lemma sessions_know_the_workflow_state_witness :
  In "b" (sockets (snd (sessionRun demoSessionEvents
                          (initialController (demoState "Idle" 100 "0,0,0"),
                           mkSessions [] []))))
  /\ toldWorkflow "b" None
       (delivered (snd (sessionRun demoSessionEvents
                          (initialController (demoState "Idle" 100 "0,0,0"),
                           mkSessions [] []))))
     = Some (workflow (fst (sessionRun demoSessionEvents
                              (initialController (demoState "Idle" 100 "0,0,0"),
                               mkSessions [] [])))).
Proof.
  assert (K : In "b" (sockets (snd (sessionRun demoSessionEvents
                                      (initialController (demoState "Idle" 100 "0,0,0"),
                                       mkSessions [] [])))))
    by (vm_compute; left; reflexivity).
  split; [exact K|].
  exact (sessions_know_the_workflow_state demoSessionEvents
           (demoState "Idle" 100 "0,0,0") "b" K).
Defined.

Example sessions_scenario :
  sockets (snd (sessionRun demoSessionEvents
                  (initialController (demoState "Idle" 100 "0,0,0"), mkSessions [] [])))
  = ["b"]
  /\ deliveredTo "b"
       (delivered (snd (sessionRun demoSessionEvents
                          (initialController (demoState "Idle" 100 "0,0,0"),
                           mkSessions [] []))))
     = [("b", MsgControllerType); ("b", Told ConnectionOpen);
        ("b", Told ControllerState); ("b", MsgSmoothieState);
        ("b", MsgFeederStatus); ("b", MsgSenderStatus);
        ("b", Told (SenderLoad "job"
                      ("G1 X1" ++ NL ++ "G1 X2" ++ NL ++ "G1 X3" ++ NL ++ dwell)));
        ("b", Told (WorkflowStateChange WORKFLOW_STATE_RUNNING))].
Proof. vm_compute. split; reflexivity. Qed.

(** X15 at a concrete input: the socket [b] joins and leaves a registry
    that holds the socket [a]. *)
Lemma emit_reaches_registered_sockets_once_witness :
  NoDup (sockets (mkSessions ["a"] []))
  /\ NoDup (sockets (addSocket (Some "b") true demoReady (mkSessions ["a"] [])))
  /\ delivered (removeSocket (Some "b") (mkSessions ["a"] []))
     = delivered (mkSessions ["a"] []).
Proof.
  assert (D : NoDup (sockets (mkSessions ["a"] [])))
    by (constructor; [intro K; exact K|constructor]).
  destruct (emit_reaches_registered_sockets_once "b" true ConnectionClose demoReady
              (mkSessions ["a"] []) D) as (A & _ & _ & _ & _ & B & _).
  split; [exact D|]. split; [exact A|exact B].
Defined.

(** X16 at a concrete input: a program of one line loaded into
    [demoReady], and a socket that joins afterwards. *)
Lemma late_session_is_told_the_program_with_the_dwell_witness :
  loadable "job" ("G1 X1" ++ NL ++ dwell) = true
  /\ In (SenderLoad "job" "G1 X1")
       (emitted (command 1300 (CmdSenderLoad "job" "G1 X1" (tt : @Ctx demo)) demoReady))
  /\ In ("a", Told (SenderLoad "job" ("G1 X1" ++ NL ++ dwell)))
       (delivered
          (addSocket (Some "a") true
             (command 1300 (CmdSenderLoad "job" "G1 X1" (tt : @Ctx demo)) demoReady)
             (mkSessions [] []))).
Proof.
  assert (A : loadable "job" ("G1 X1" ++ NL ++ dwell) = true) by (vm_compute; reflexivity).
  destruct (late_session_is_told_the_program_with_the_dwell 1300 "job" "G1 X1"
              (tt : @Ctx demo) demoReady "a" true (mkSessions [] []) A) as (E & L & _).
  split; [exact A|]. split; [exact E|exact L].
Defined.

(** X17 at a concrete input: the dwell line, filtered for the Sender and
    for the Feeder of [demoReady]. *)
Lemma data_filters_send_the_same_text_witness :
  fst (senderDataFilter dwell demoReady)
  = fst (fst (feederDataFilter dwell (context (sender demoReady)) demoReady))
  /\ stripComment dwell = WAIT
  /\ sender_hold (sender (snd (senderDataFilter dwell demoReady))) = true.
Proof.
  destruct (data_filters_send_the_same_text dwell (context (sender demoReady))
              demoReady demoReady eq_refl eq_refl) as (A & _ & B & _).
  assert (W : stripComment dwell = WAIT) by (vm_compute; reflexivity).
  split; [exact A|]. split; [exact W|exact (proj1 (B W))].
Defined.

(** X18 at a concrete input: [reset] on [demoRunning]. *)
Lemma reset_stops_everything_witness :
  workflow (command 1500 CmdReset demoRunning) = WORKFLOW_STATE_IDLE
  /\ sent (sender (command 1500 CmdReset demoRunning)) = 0.
Proof.
  destruct (reset_stops_everything 1500 demoRunning) as (A & _ & _ & _ & _ & B).
  split; [exact A|].
  apply B. vm_compute. discriminate.
Defined.

(** ** The Feeder's line in flight, and the overrides *)

Section Flight.

Context `{Collaborators}.




(** X20.  The override commands read one member of the state that the
    parser keeps ([this.controller.state]) and write another:
    [override:feed] takes the current value from [state.ovF] and puts the
    new one into [state.status.ovF]; [state.ovF], [state.ovS] and
    [state.status.ovS] are as before, so that the same command given again
    computes the same value.  [override:spindle] does the same with
    [state.ovS] and [state.status.ovS]. *)
Theorem override_keeps_the_value_it_reads (now value : Z) (c : Controller) :
  let s := controllerState c in
  let sF := controllerState (command now (CmdOverrideFeed value) c) in
  let sS := controllerState (command now (CmdOverrideSpindle value) c) in
  (ovF sF = ovF s /\ ovS sF = ovS s
   /\ status_ovF (status sF) = override (ovF s) value
   /\ status_ovS (status sF) = status_ovS (status s))
  /\ (ovF sS = ovF s /\ ovS sS = ovS s
      /\ status_ovS (status sS) = override (ovS s) value
      /\ status_ovF (status sS) = status_ovF (status s)).
Proof.
  intros s sF sS.
  assert (K : forall l, controllerState (command_gcode l emptyCtx c) = s).
  { intro l.
    destruct (command_gcode_frame l emptyCtx c) as ((_ & _ & _ & _ & _ & K & _) & _).
    exact K. }
  split.
  - subst sF. unfold command. cbv zeta. rewrite K. repeat split; reflexivity.
  - subst sS. unfold command. cbv zeta. rewrite K. repeat split; reflexivity.
Qed.

End Flight.


(** A line that the filter empties, and a line given while the connection
    is closed, leave [pending] down and the transport as it was. *)
Example feeder_line_not_written_scenario :
  Feeder_isPending (Feeder_next (Feeder_feed [String NBSP "; note"] (tt : @Ctx demo) demoReady)) = false
  /\ written (Feeder_next (Feeder_feed [String NBSP "; note"] (tt : @Ctx demo) demoReady))
     = written demoReady
  /\ Feeder_isPending (Feeder_next (Feeder_feed ["G0 X1"] (tt : @Ctx demo) demoFinishedClosed)) = false
  /\ written (Feeder_next (Feeder_feed ["G0 X1"] (tt : @Ctx demo) demoFinishedClosed))
     = written demoFinishedClosed.
Proof. vm_compute. repeat split; reflexivity. Qed.

(** X20 at a concrete input: from 150, [override:feed(10)] puts 160 into
    [status.ovF] and leaves [ovF] at 150. *)
Lemma override_keeps_the_value_it_reads_witness :
  ovF (controllerState (command 1310 (CmdOverrideFeed 10) demo150)) = 150
  /\ status_ovF (status (controllerState (command 1310 (CmdOverrideFeed 10) demo150))) = 160.
Proof.
  destruct (override_keeps_the_value_it_reads 1310 10 demo150) as ((A & _ & B & _) & _).
  split; [rewrite A|rewrite B]; vm_compute; reflexivity.
Defined.

(** From 150, [override:feed(10)] given twice sends the value 160 twice. *)
Example override_twice_scenario :
  written
    (run [(1310, EvCommand (CmdOverrideFeed 10)); (1320, EvParser (POk "ok"));
          (1330, EvCommand (CmdOverrideFeed 10))] demo150)
  = (written demo150 ++ [("M220S160" ++ NL)%js; ("M220S160" ++ NL)%js])%list.
Proof. vm_compute. reflexivity. Qed.

(** White space is that of JavaScript: a no-break space, an ideographic
    space, a byte order mark and a line separator are trimmed, and end a
    line's text before a comment, like a blank. *)
Example unicode_space_scenario :
  trim (String NBSP "G0 X1" ++ String 65279 (String 8232 EmptyString)) = "G0 X1"
  /\ stripComment ("G0 X1" ++ String NBSP "; c") = "G0 X1"
  /\ gcodeData [String NBSP (String 12288 EmptyString); "G0 X1"] = ["G0 X1"]
  /\ written (write (String NBSP "?") demoReady)
     = (written demoReady ++ [String NBSP "?"])%list
  /\ replyStatusReport (actionMask (write (String NBSP "?") demoReady)) = true.
Proof. vm_compute. repeat split; reflexivity. Qed.

(** A program without a line to send: its three lines are counted as sent
    and as received when the program starts, only the dwell is written, and
    the acknowledgement of the dwell ends the program. *)
Example blank_program_scenario :
  total (sender demoBlank) = 4
  /\ sent (sender demoBlank) = 4
  /\ received (sender demoBlank) = 3
  /\ sender_hold (sender demoBlank) = true
  /\ written demoBlank = (written demoReady ++ [("G4 P0.5 (%wait)" ++ NL)%js])%list
  /\ received (sender (step 1500 (EvParser (POk "ok")) demoBlank)) = 4
  /\ finishedAt (sender (step 1500 (EvParser (POk "ok")) demoBlank)) = 1500
  /\ senderFinishTime (actionTime (step 1500 (EvParser (POk "ok")) demoBlank)) = 1500.
Proof. vm_compute. repeat split; reflexivity. Qed.
